(** * TransEaseFTP: the control plane of an embedded FTP server

    A shallow embedding of [TransEaseFTP.py]: the configuration store
    ([FTPConfigManager]), the protocol handler's text codec hooks
    ([WindowsFTPHandler]), the worker thread ([FTPServerThread]) and the
    lifecycle requests of the main window ([FTPMainWindow]), then the slots
    of the window that act on the store: the log view, the root logger, the
    settings tab and the root directory dialog.

    Part I holds the model, Part II the properties.

    What the program takes from its libraries is modelled as far as the
    program relies on it and no further:
    - [configparser.ConfigParser] is a two-level dictionary of strings whose
      option names go through [optionxform] (lower-casing); the file at
      [config_path] is kept in parsed form, so a file is well formed by
      construction and [write] followed by [read] gives the sections back.
      Value interpolation ([%(name)s]) and the [DEFAULT] section are not
      modelled: where a property depends on them it is stated for texts
      without percent sign and for parsers without default section
      ([Text], [Store]);
    - the file system is the set of existing directories, an oracle telling
      which missing directories can be created, and the one configuration
      file;
    - a text codec is a function that recognises one character at the head of
      a byte sequence, driven by Python's error policies;
    - a [QThread] is a program counter; the steps of the worker interleave
      with the requests of the controller as explicit events;
    - the signals of the window are kept in the order of their emission,
      but for [log_received], which the handler of the log view emits for
      every record that reaches the root logger: the records are kept;
    - a widget is the value it holds, a message box the record that it was
      shown; the text of the log view is a string, and the line count of
      its document is left to the layout. *)

From Stdlib Require Import ZArith Ascii String List Decimal DecimalString DecimalZ DecimalPos Lia.
From stdpp Require Import base option list gmap strings.

Local Open Scope string_scope.
Local Open Scope Z_scope.

(* ===================================================================== *)
(** * Part I: the model *)
(* ===================================================================== *)

(** ** Python values, exceptions, [str] and [int] *)

Module Py.

(** The values that settings and typed getters carry. *)
Inductive value : Type :=
| PyInt (z : Z)
| PyBool (b : bool)
| PyStr (s : string)
| PyNone.

(** The exceptions the modelled code can meet.  [Exception] would catch all
    of them. *)
Inductive exn : Type :=
| NoSectionError (section : string)
| NoOptionError (option section : string)
| DuplicateSectionError (section : string)
| ValueError (msg : string)
| OSError (msg : string)
| LookupError (encoding : string)
| AttributeError (msg : string)
| UnicodeDecodeError
| UnicodeEncodeError.

(** The text of [f"{e}"] as far as the log messages need it. *)
Definition exn_text (e : exn) : string :=
  match e with
  | NoSectionError s => "No section: " ++ s
  | NoOptionError o s => "No option " ++ o ++ " in section: " ++ s
  | DuplicateSectionError s => "Section " ++ s ++ " already exists"
  | ValueError m => m
  | OSError m => m
  | LookupError e => "unknown encoding: " ++ e
  | AttributeError m => m
  | UnicodeDecodeError => "codec can't decode"
  | UnicodeEncodeError => "codec can't encode"
  end.

(** Outcome of a computation that may raise. *)
Inductive result (A : Type) : Type :=
| Ok (a : A)
| Raise (e : exn).
Arguments Ok {A} a.
Arguments Raise {A} e.

Definition is_digit (c : ascii) : option Z :=
  let n := Z.of_N (N_of_ascii c) in
  if (48 <=? n) && (n <=? 57) then Some (n - 48) else None.

(** The white space [int] skips around the literal in a string of ASCII
    characters: space, \t, \n, \v, \f and \r.  The separators 0x1c..0x1f,
    which [str.isspace] accepts, are not among them. *)
Definition is_space (c : ascii) : bool :=
  let n := Z.of_N (N_of_ascii c) in
  (n =? 32) || ((9 <=? n) && (n <=? 13)).

Fixpoint lstrip (cs : list ascii) : list ascii :=
  match cs with
  | c :: rest => if is_space c then lstrip rest else cs
  | [] => []
  end.

Definition strip (cs : list ascii) : list ascii :=
  rev (lstrip (rev (lstrip cs))).

(** Decimal digits with single underscores allowed between two digits, as
    the literal grammar of [int(str)] has them. *)
Fixpoint digits (acc : Z) (cs : list ascii) : option Z :=
  match cs with
  | [] => None
  | c :: rest =>
      match is_digit c with
      | None => None
      | Some d =>
          let acc' := 10 * acc + d in
          match rest with
          | [] => Some acc'
          | "_"%char :: rest' => digits acc' rest'
          | _ :: _ => digits acc' rest
          end
      end
  end.

(** [int(s)] for a string of ASCII characters: surrounding white space, an
    optional sign, a decimal literal.  [None] stands for [ValueError].  A
    string is kept as its bytes; the decimal digits and the white space
    that Unicode has beyond ASCII are not read, so outside ASCII [None]
    tells nothing about [int].  Nor is the limit read that the
    interpreter puts on the length of a literal (4300 digits unless it is
    configured otherwise). *)
Definition int_of_str (s : string) : option Z :=
  match strip (list_ascii_of_string s) with
  | "-"%char :: ds => Z.opp <$> digits 0 ds
  | "+"%char :: ds => digits 0 ds
  | ds => digits 0 ds
  end.

Definition str_of_int (z : Z) : string :=
  NilZero.string_of_int (Z.to_int z).

(** The number a decimal numeral denotes when it follows the digits
    already read into [acc]. *)
Fixpoint uint_val (d : uint) (acc : Z) : Z :=
  match d with
  | Nil => acc
  | D0 d => uint_val d (10 * acc)
  | D1 d => uint_val d (10 * acc + 1)
  | D2 d => uint_val d (10 * acc + 2)
  | D3 d => uint_val d (10 * acc + 3)
  | D4 d => uint_val d (10 * acc + 4)
  | D5 d => uint_val d (10 * acc + 5)
  | D6 d => uint_val d (10 * acc + 6)
  | D7 d => uint_val d (10 * acc + 7)
  | D8 d => uint_val d (10 * acc + 8)
  | D9 d => uint_val d (10 * acc + 9)
  end.

(** [str(value)]. *)
Definition str (v : value) : string :=
  match v with
  | PyInt z => str_of_int z
  | PyBool true => "True"
  | PyBool false => "False"
  | PyStr s => s
  | PyNone => "None"
  end.

Definition lower_char (c : ascii) : ascii :=
  let n := N_of_ascii c in
  if ((65 <=? n) && (n <=? 90))%N then ascii_of_N (n + 32) else c.

(** [str.lower] on the ASCII range. *)
Fixpoint lower (s : string) : string :=
  match s with
  | EmptyString => EmptyString
  | String c rest => String (lower_char c) (lower rest)
  end.

Definition in_list (s : string) (l : list string) : bool :=
  existsb (String.eqb s) l.

End Py.

(** ** [configparser.ConfigParser] *)

Module ConfigParser.
Import Py.

(** A parser, and a parsed file: section name to option name to value. *)
Abbreviation t := (gmap string (gmap string string)).

Definition optionxform (option : string) : string := lower option.

Definition has_section (c : t) (section : string) : bool :=
  match c !! section with Some _ => true | None => false end.

Definition add_section (c : t) (section : string) : result t :=
  if has_section c section then Raise (DuplicateSectionError section)
  else Ok (<[section := ∅]> c).

(** [has_option], [set] and [get] as they act on a parser without default
    section and on values without percent sign.  Two things [configparser]
    does beyond are not modelled: the options of [DEFAULT] count as
    options of every section, and values are interpolated ([set] raises
    [ValueError] on a stray percent sign, [get] expands [%(name)s] and
    raises on what it cannot expand). *)
Definition has_option (c : t) (section option : string) : bool :=
  match c !! section with
  | Some d => match d !! optionxform option with Some _ => true | None => false end
  | None => false
  end.

Definition set (c : t) (section option value : string) : result t :=
  match c !! section with
  | Some d => Ok (<[section := <[optionxform option := value]> d]> c)
  | None => Raise (NoSectionError section)
  end.

Definition get (c : t) (section option : string) : result string :=
  match c !! section with
  | Some d =>
      match d !! optionxform option with
      | Some v => Ok v
      | None => Raise (NoOptionError option section)
      end
  | None => Raise (NoSectionError section)
  end.

Definition getint (c : t) (section option : string) : result Z :=
  match get c section option with
  | Ok v =>
      match int_of_str v with
      | Some z => Ok z
      | None => Raise (ValueError ("invalid literal for int() with base 10: " ++ v))
      end
  | Raise e => Raise e
  end.

(** [BOOLEAN_STATES]. *)
Definition boolean_of_str (v : string) : option bool :=
  let l := lower v in
  if in_list l ["1"; "yes"; "true"; "on"] then Some true
  else if in_list l ["0"; "no"; "false"; "off"] then Some false
  else None.

Definition getboolean (c : t) (section option : string) : result bool :=
  match get c section option with
  | Ok v =>
      match boolean_of_str v with
      | Some b => Ok b
      | None => Raise (ValueError ("Not a boolean: " ++ v))
      end
  | Raise e => Raise e
  end.

(** [read]: the sections of the file are merged into the parser, the
    file's values winning; a file that is not there is skipped.  The file is
    given as the parser reads it: what the text of a file turns into
    (blanks around a value dropped, continuation lines joined) is not
    modelled. *)
Definition read (c : t) (file : option t) : t :=
  match file with
  | Some f => union_with (fun fsec csec => Some (fsec ∪ csec)) f c
  | None => c
  end.

End ConfigParser.

(** ** The environment: [os], the disk, [logging] *)

(** [os.getcwd()] and [os.path.abspath], which depend on the platform. *)
Record OS : Type := {
  getcwd : string;
  abspath : string -> string
}.

(** The part of the file system the program touches.  [creatable] tells for a
    missing directory whether [os.makedirs] would succeed; [config_file] is
    the parsed content of the file at [config_path] when there is one (a
    file that does not parse is not among the disks), and [config_writable]
    whether the file can be opened for writing and written.  Where it is
    [false] the file is kept as it was, which is what a failing [open]
    leaves; a write that fails after the file has been opened, and so
    truncated, is not modelled. *)
Record Disk : Type := {
  dirs : gset string;
  creatable : string -> bool;
  config_file : option ConfigParser.t;
  config_writable : bool
}.

Inductive level : Type := ERROR | INFO.

(** A record handed to the root logger. *)
Definition LogRecord : Type := level * string.

(** ** FTPConfigManager *)

Module FTPConfigManager.
Import Py.

(** The manager's parser together with what its methods act upon. *)
Record state : Type := {
  config : ConfigParser.t;
  disk : Disk;
  log : list LogRecord
}.

Definition with_config (c : ConfigParser.t) (s : state) : state :=
  {| config := c; disk := disk s; log := log s |}.
Definition with_disk (d : Disk) (s : state) : state :=
  {| config := config s; disk := d; log := log s |}.

(** State that survives a raised exception, as the attributes of a Python
    object do. *)
Definition M (A : Type) : Type := state -> result A * state.

Definition ret {A} (a : A) : M A := fun s => (Ok a, s).
Definition raise {A} (e : exn) : M A := fun s => (Raise e, s).
Definition bind {A B} (m : M A) (k : A -> M B) : M B :=
  fun s => match m s with
           | (Ok a, s') => k a s'
           | (Raise e, s') => (Raise e, s')
           end.
(** [try: m except Exception as e: h e]. *)
Definition try_except {A} (m : M A) (h : exn -> M A) : M A :=
  fun s => match m s with
           | (Ok a, s') => (Ok a, s')
           | (Raise e, s') => h e s'
           end.

Notation "'let*' x := m 'in' k" := (bind m (fun x => k))
  (at level 10, x name, m at level 99, k at level 200).
Notation "m >> k" := (bind m (fun _ => k))
  (at level 100, k at level 200, right associativity).

Definition when (b : bool) (m : M unit) : M unit := if b then m else ret tt.

(** [for x in l: body x]. *)
Fixpoint for_each {A} (l : list A) (body : A -> M unit) : M unit :=
  match l with
  | [] => ret tt
  | x :: rest => body x >> for_each rest body
  end.

(** Lifting of the parser's methods to [self.config]. *)
Definition cp_update (f : ConfigParser.t -> result ConfigParser.t) : M unit :=
  fun s => match f (config s) with
           | Ok c => (Ok tt, with_config c s)
           | Raise e => (Raise e, s)
           end.
Definition cp_query {A} (f : ConfigParser.t -> result A) : M A :=
  fun s => (f (config s), s).

Definition logging_error (msg : string) : M unit :=
  fun s => (Ok tt, {| config := config s; disk := disk s; log := (log s ++ [(ERROR, msg)])%list |}).

Definition isdir (path : string) : M bool :=
  fun s => (Ok (bool_decide (path ∈ dirs (disk s))), s).

(** [os.makedirs(path, exist_ok=True)]. *)
Definition makedirs (path : string) : M unit :=
  fun s =>
    let d := disk s in
    if bool_decide (path ∈ dirs d) then (Ok tt, s)
    else if creatable d path then
      (Ok tt, with_disk {| dirs := {[path]} ∪ dirs d; creatable := creatable d;
                           config_file := config_file d;
                           config_writable := config_writable d |} s)
    else (Raise (OSError ("cannot create directory '" ++ path ++ "'")), s).

(** [with open(self.config_path, 'w', encoding='utf-8') as f: self.config.write(f)].
    The file either takes the whole parser or cannot be opened; a write
    that fails after [open] has emptied the file is not modelled. *)
Definition write_config : M unit :=
  fun s =>
    let d := disk s in
    if config_writable d then
      (Ok tt, with_disk {| dirs := dirs d; creatable := creatable d;
                           config_file := Some (config s);
                           config_writable := config_writable d |} s)
    else (Raise (OSError "cannot open the configuration file for writing"), s).

Section Methods.
Context (os : OS).

Definition DEFAULT_CONFIG : list (string * list (string * string)) :=
  [("general",
    [("port", "21");
     ("root_path", abspath os (getcwd os));
     ("max_connections", "50");
     ("timeout", "300");
     ("encoding", "gb18030");
     ("log_level", "INFO");
     ("save_log", "False")])].

(** [self.DEFAULT_CONFIG.get(section, {}).get(key)]: exact keys, [None]
    when absent. *)
Fixpoint dict_get {V} (l : list (string * V)) (key : string) : option V :=
  match l with
  | [] => None
  | (k, v) :: rest => if String.eqb k key then Some v else dict_get rest key
  end.

Definition default_of (section key : string) : value :=
  match dict_get DEFAULT_CONFIG section with
  | Some options =>
      match dict_get options key with
      | Some v => PyStr v
      | None => PyNone
      end
  | None => PyNone
  end.

Definition create_default_config : M unit :=
  for_each DEFAULT_CONFIG (fun '(section, options) =>
    cp_update (fun c => ConfigParser.add_section c section) >>
    for_each options (fun '(key, value) =>
      cp_update (fun c => ConfigParser.set c section key value))) >>
  write_config.

(** The typed lookup of [get], before its [except] clause. *)
Definition get_typed (c : ConfigParser.t) (section key : string) : result value :=
  let getint := match ConfigParser.getint c section key with
                | Ok z => Ok (PyInt z) | Raise e => Raise e end in
  let getboolean := match ConfigParser.getboolean c section key with
                    | Ok b => Ok (PyBool b) | Raise e => Raise e end in
  let get := match ConfigParser.get c section key with
             | Ok v => Ok (PyStr v) | Raise e => Raise e end in
  if String.eqb section "general" then
    if String.eqb key "port" then getint
    else if in_list key ["max_connections"; "timeout"] then getint
    else if String.eqb key "save_log" then getboolean
    else get
  else get.

(** [get]: the handler catches [NoOptionError], [NoSectionError] and
    [ValueError], the only exceptions [get_typed] raises here (an error of
    the interpolation, which the handler would let pass, needs a percent
    sign in the stored value). *)
Definition get (c : ConfigParser.t) (section key : string) : value :=
  match get_typed c section key with
  | Ok v => v
  | Raise _ => default_of section key
  end.

Definition load_config : M unit :=
  (fun s => when (negb (match config_file (disk s) with Some _ => true | None => false end))
                 create_default_config s) >>
  (fun s => (Ok tt, with_config (ConfigParser.read (config s) (config_file (disk s))) s)) >>
  for_each DEFAULT_CONFIG (fun '(section, options) =>
    (let* has := cp_query (fun c => Ok (ConfigParser.has_section c section)) in
     when (negb has) (cp_update (fun c => ConfigParser.add_section c section))) >>
    for_each options (fun '(key, value) =>
      let* has := cp_query (fun c => Ok (ConfigParser.has_option c section key)) in
      when (negb has) (cp_update (fun c => ConfigParser.set c section key value)))) >>
  let* root_path := cp_query (fun c => Ok (str (get c "general" "root_path"))) in
  try_except (makedirs root_path)
    (fun e =>
       logging_error ("无法创建根目录 '" ++ root_path ++ "': " ++ exn_text e) >>
       let default_path := abspath os (getcwd os) in
       cp_update (fun c => ConfigParser.set c "general" "root_path" default_path) >>
       makedirs default_path).

(** [FTPConfigManager(config_path)]: a fresh parser, then [load_config]. *)
Definition __init__ (d : Disk) (l : list LogRecord) : result unit * state :=
  load_config {| config := ∅; disk := d; log := l |}.

Definition save (settings : list (string * list (string * value))) : M bool :=
  try_except
    (for_each settings (fun '(section, options) =>
       for_each options (fun '(key, value) =>
         let value := if String.eqb key "root_path"
                      then PyStr (abspath os (str value)) else value in
         cp_update (fun c => ConfigParser.set c section key (str value)))) >>
     let* port := cp_query (fun c => ConfigParser.getint c "general" "port") in
     when (negb ((1 <=? port) && (port <=? 65535)))
          (raise (ValueError "端口必须在1-65535范围内")) >>
     let* root_path := cp_query (fun c => ConfigParser.get c "general" "root_path") in
     let* is_dir := isdir root_path in
     when (negb is_dir) (makedirs root_path) >>
     write_config >>
     ret true)
    (fun e => logging_error ("保存配置失败: " ++ exn_text e) >> ret false).

End Methods.
End FTPConfigManager.

(** ** Text codecs: [bytes.decode] and [str.encode] *)

Module Codecs.
Import Py.

(** Text is a sequence of code points. *)
Definition text : Type := list N.

(** What a decoder finds at the head of a non-empty byte sequence: a
    character, or an invalid sequence; either spans the first byte and
    [extra] more. *)
Inductive head : Type :=
| Char (cp : N) (extra : nat)
| Bad (extra : nat).

Record codec : Type := {
  decode_head : Byte.byte -> list Byte.byte -> head;
  encode_char : N -> option (list Byte.byte)
}.

Definition byte_of_N (n : N) : Byte.byte :=
  match Byte.of_N n with Some b => b | None => Byte.x00 end.

Definition latin1 : codec := {|
  decode_head b _ := Char (Byte.to_N b) 0;
  encode_char cp := if (cp <? 256)%N then Some [byte_of_N cp] else None
|}.

(** The codecs of the interpreter.  GB18030 keeps the ASCII range as single
    bytes; its multi-byte tables are left to the environment, as is every
    codec that the program does not name. *)
Record registry : Type := {
  gb18030_decode : Byte.byte -> list Byte.byte -> head;
  gb18030_encode : N -> option (list Byte.byte);
  other : string -> option codec
}.

Definition gb18030 (r : registry) : codec := {|
  decode_head b rest :=
    if (Byte.to_N b <? 128)%N then Char (Byte.to_N b) 0 else gb18030_decode r b rest;
  encode_char cp :=
    if (cp <? 128)%N then Some [byte_of_N cp] else gb18030_encode r cp
|}.

Definition lookup (r : registry) (encoding : string) : option codec :=
  if String.eqb encoding "gb18030" then Some (gb18030 r)
  else if String.eqb encoding "latin1" then Some latin1
  else other r encoding.

Definition REPLACEMENT_CHARACTER : N := 65533.
Definition QUESTION_MARK : N := 63.

(** The decoding loop under an error policy; [skip] bytes are still part
    of the sequence met last.  Policies other than strict, replace and
    ignore are not modelled and reported as unknown. *)
Fixpoint decode_loop (c : codec) (errors : string) (skip : nat)
    (bytes : list Byte.byte) : result text :=
  match bytes with
  | [] => Ok []
  | b :: rest =>
      match skip with
      | S k => decode_loop c errors k rest
      | O =>
          match decode_head c b rest with
          | Char cp extra =>
              match decode_loop c errors extra rest with
              | Ok t => Ok (cp :: t)
              | Raise e => Raise e
              end
          | Bad extra =>
              if String.eqb errors "strict" then Raise UnicodeDecodeError
              else if String.eqb errors "replace" then
                match decode_loop c errors extra rest with
                | Ok t => Ok (REPLACEMENT_CHARACTER :: t)
                | Raise e => Raise e
                end
              else if String.eqb errors "ignore" then decode_loop c errors extra rest
              else Raise (LookupError errors)
          end
      end
  end.

Fixpoint encode_loop (c : codec) (errors : string) (s : text) : result (list Byte.byte) :=
  match s with
  | [] => Ok []
  | cp :: rest =>
      let continue (bs : list Byte.byte) :=
        match encode_loop c errors rest with
        | Ok t => Ok (bs ++ t)%list
        | Raise e => Raise e
        end in
      match encode_char c cp with
      | Some bs => continue bs
      | None =>
          if String.eqb errors "strict" then Raise UnicodeEncodeError
          else if String.eqb errors "replace" then
            match encode_char c QUESTION_MARK with
            | Some bs => continue bs
            | None => Raise UnicodeEncodeError
            end
          else if String.eqb errors "ignore" then continue []
          else Raise (LookupError errors)
      end
  end.

(** [bytes.decode(encoding, errors=errors)]. *)
Definition bytes_decode (r : registry) (bytes : list Byte.byte)
    (encoding errors : string) : result text :=
  match lookup r encoding with
  | Some c => decode_loop c errors 0 bytes
  | None => Raise (LookupError encoding)
  end.

(** [string.encode(encoding, errors=errors)]. *)
Definition str_encode (r : registry) (s : text)
    (encoding errors : string) : result (list Byte.byte) :=
  match lookup r encoding with
  | Some c => encode_loop c errors s
  | None => Raise (LookupError encoding)
  end.

End Codecs.

(** ** The authorizer of pyftpdlib *)

Module DummyAuthorizer.
Import Py.

Record user : Type := { home : string; perm : string }.

(** [user_table]. *)
Definition t : Type := list (string * user).

Definition new : t := [].

(** [add_anonymous(homedir, perm=...)]: the home directory must exist.  Of
    the message of the [ValueError] only the beginning is pyftpdlib's; it
    goes on with the [repr] of the directory, which is not modelled. *)
Definition add_anonymous (d : Disk) (a : t) (homedir perm : string) : result t :=
  if bool_decide (homedir ∈ dirs d)
  then Ok (("anonymous", {| home := homedir; perm := perm |}) :: a)
  else Raise (ValueError ("no such directory: " ++ homedir)).

End DummyAuthorizer.

(** ** WindowsFTPHandler *)

Module WindowsFTPHandler.
Import Py Codecs.

(** The attributes of the class object itself, which [_start_server]
    assigns.  The class is one shared object: every worker refers to it. *)
Record class : Type := {
  cls_authorizer : option DummyAuthorizer.t;
  cls_timeout : value;
  cls_encoding : value;
  cls_utf8 : bool
}.

(** The attributes [FTPHandler] itself declares. *)
Definition FTPHandler : class := {|
  cls_authorizer := None;
  cls_timeout := PyInt 300;
  cls_encoding := PyStr "utf8";
  cls_utf8 := false
|}.

(** One handler object, made by the server for each connection.  It keeps
    the attributes [__init__] assigns to [self]; what it does not hold
    itself is looked up in its class. *)
Record t : Type := {
  cls : class;
  encoding : string;
  utf8 : bool;
  banner : string;
  permit_privileged_ports : bool;
  permit_foreign_addresses : bool;
  unicode_errors : string
}.

Definition __init__ (c : class) : t := {|
  cls := c;
  encoding := "gb18030";
  utf8 := false;
  banner := "220 FTP服务器已就绪。";
  permit_privileged_ports := true;
  permit_foreign_addresses := true;
  unicode_errors := "replace"
|}.

(** [self.timeout] and [self.authorizer]: class attributes. *)
Definition timeout (self : t) : value := cls_timeout (cls self).
Definition authorizer (self : t) : option DummyAuthorizer.t := cls_authorizer (cls self).

Definition decode (r : registry) (self : t) (bytes : list Byte.byte) : result text :=
  match bytes_decode r bytes (encoding self) (unicode_errors self) with
  | Raise UnicodeDecodeError => bytes_decode r bytes "latin1" (unicode_errors self)
  | res => res
  end.

Definition encode (r : registry) (self : t) (string : text) : result (list Byte.byte) :=
  match str_encode r string (encoding self) (unicode_errors self) with
  | Raise UnicodeEncodeError => str_encode r string "latin1" (unicode_errors self)
  | res => res
  end.

End WindowsFTPHandler.

(** ** FTPServerThread *)

Module FTPServerThread.
Import Py.

(** Where the thread stands: not started, about to build the [FTPServer]
    (which binds the listening socket), inside [serve_forever], or past the
    end of [run]. *)
Inductive pc : Type := NotStarted | Binding | Serving | Finished.

(** The server object of pyftpdlib as far as the thread uses it. *)
Record FTPServer : Type := {
  address : string * value;
  max_cons : value;
  closed : bool
}.

(** [handler] is the class [WindowsFTPHandler] itself, a shared object
    that lives in the application state; the thread holds no copy. *)
Record t : Type := {
  host : string;
  port : value;
  max_connections : value;
  server : option FTPServer;
  _running : bool;
  at_pc : pc
}.

Definition __init__ (host : string) (port max_connections : value) : t := {|
  host := host; port := port; max_connections := max_connections;
  server := None; _running := false; at_pc := NotStarted
|}.

(** [QThread.start]. *)
Definition start (self : t) : t := {|
  host := host self; port := port self; max_connections := max_connections self;
  server := server self; _running := _running self;
  at_pc := match at_pc self with NotStarted | Finished => Binding | p => p end
|}.

(** [QThread.isRunning]. *)
Definition isRunning (self : t) : bool :=
  match at_pc self with Binding | Serving => true | NotStarted | Finished => false end.

(** What the environment decides while [run] executes. *)
Inductive event : Type :=
| Bound                       (* FTPServer(...) returned: the socket listens *)
| BindError (e : exn)         (* FTPServer(...) raised *)
| ServeReturned               (* serve_forever() returned *)
| ServeError (e : exn).       (* serve_forever() raised *)

Definition finish (self : t) : t := {|
  host := host self; port := port self; max_connections := max_connections self;
  server := server self; _running := false; at_pc := Finished
|}.

(** One step of [run]: the new thread state and the records it logs, or
    [None] when the event cannot happen where the thread stands.
    [serve_forever] returns only once the server has been closed. *)
Definition run (ev : event) (self : t) : option (t * list LogRecord) :=
  match at_pc self, ev with
  | Binding, Bound =>
      Some ({| host := host self; port := port self;
               max_connections := max_connections self;
               server := Some {| address := (host self, port self);
                                 max_cons := max_connections self;
                                 closed := false |};
               _running := true; at_pc := Serving |}, [])
  | Binding, BindError e =>
      Some (finish self, [(ERROR, "服务器错误: " ++ exn_text e)])
  | Serving, ServeReturned =>
      match server self with
      | Some srv => if closed srv then Some (finish self, []) else None
      | None => None
      end
  | Serving, ServeError e =>
      Some (finish self, [(ERROR, "服务器错误: " ++ exn_text e)])
  | _, _ => None
  end.

(** [stop]; [close_all_raises] is the exception of [close_all], if any. *)
Definition stop (close_all_raises : option exn) (self : t) : t * list LogRecord :=
  match server self with
  | Some srv =>
      if _running self then
        match close_all_raises with
        | None =>
            ({| host := host self; port := port self;
                max_connections := max_connections self;
                server := Some {| address := address srv; max_cons := max_cons srv;
                                  closed := true |};
                _running := false; at_pc := at_pc self |}, [])
        | Some e =>
            ({| host := host self; port := port self;
                max_connections := max_connections self;
                server := server self;
                _running := false; at_pc := at_pc self |},
             [(ERROR, "关闭服务器时出错: " ++ exn_text e)])
        end
      else (self, [])
  | None => (self, [])
  end.

End FTPServerThread.

(** ** FTPSignals *)

Inductive FTPSignals : Type :=
| log_received (line : string)
| status_update (message : string)
| connection_update (count : Z)
| server_started
| server_stopped
| error_occurred (message : string).

(** ** FTPMainWindow: the lifecycle requests *)

Module FTPMainWindow.
Import Py.

Record t : Type := {
  (** [self.config], with the disk and the log it acts upon *)
  cfg : FTPConfigManager.state;
  (** the attributes of the class [WindowsFTPHandler] *)
  handler : WindowsFTPHandler.class;
  (** every [FTPServerThread] object made so far, by identity *)
  threads : list FTPServerThread.t;
  (** [self.server_thread] *)
  server_thread : option nat;
  (** what [_update_ui_state] last wrote to the button and the status label *)
  ui_running : bool;
  (** what [_update_tray_menu] last wrote to the tray menu and tool tip *)
  tray_running : bool;
  (** the signals emitted so far, oldest first, but for [log_received]: what
      the handler of the log view emits follows the records of [log], the
      level and the handlers of the root logger *)
  emitted : list FTPSignals
}.

Definition logging (l : list LogRecord) (w : t) : t := {|
  cfg := {| FTPConfigManager.config := FTPConfigManager.config (cfg w);
            FTPConfigManager.disk := FTPConfigManager.disk (cfg w);
            FTPConfigManager.log := (FTPConfigManager.log (cfg w) ++ l)%list |};
  handler := handler w; threads := threads w; server_thread := server_thread w;
  ui_running := ui_running w; tray_running := tray_running w; emitted := emitted w
|}.

Definition with_cfg (c : FTPConfigManager.state) (w : t) : t := {|
  cfg := c; handler := handler w; threads := threads w; server_thread := server_thread w;
  ui_running := ui_running w; tray_running := tray_running w; emitted := emitted w
|}.

Definition with_handler (h : WindowsFTPHandler.class) (w : t) : t := {|
  cfg := cfg w; handler := h; threads := threads w; server_thread := server_thread w;
  ui_running := ui_running w; tray_running := tray_running w; emitted := emitted w
|}.

Definition with_threads (ts : list FTPServerThread.t) (w : t) : t := {|
  cfg := cfg w; handler := handler w; threads := ts; server_thread := server_thread w;
  ui_running := ui_running w; tray_running := tray_running w; emitted := emitted w
|}.

(** The thread [self.server_thread] refers to. *)
Definition current (w : t) : option FTPServerThread.t :=
  match server_thread w with
  | Some tid => threads w !! tid
  | None => None
  end.

(** [self.server_thread and self.server_thread.isRunning()]. *)
Definition server_running (w : t) : bool :=
  match current w with
  | Some th => FTPServerThread.isRunning th
  | None => false
  end.

Definition _update_tray_menu (w : t) : t := {|
  cfg := cfg w; handler := handler w; threads := threads w;
  server_thread := server_thread w;
  ui_running := ui_running w; tray_running := server_running w; emitted := emitted w
|}.

Definition _update_ui_state (running : bool) (w : t) : t :=
  _update_tray_menu {|
    cfg := cfg w; handler := handler w; threads := threads w;
    server_thread := server_thread w;
    ui_running := running; tray_running := tray_running w; emitted := emitted w
  |}.

(** [signal.emit(...)]: the signal is recorded and the slot connected to it
    in [_setup_connections] runs.  Only the slots of [server_started] and
    [server_stopped] change the state kept here. *)
Definition emit (sig : FTPSignals) (w : t) : t :=
  let w' := {| cfg := cfg w; handler := handler w; threads := threads w;
               server_thread := server_thread w;
               ui_running := ui_running w; tray_running := tray_running w;
               emitted := (emitted w ++ [sig])%list |} in
  match sig with
  | server_started => _update_ui_state true w'
  | server_stopped => _update_ui_state false w'
  | _ => w'
  end.

Section Requests.
Context (os : OS).

Definition config_get (w : t) (key : string) : value :=
  FTPConfigManager.get os (FTPConfigManager.config (cfg w)) "general" key.

(** The [except] clause of [_start_server]. *)
Definition start_failed (e : exn) (w : t) : t :=
  let msg := "启动服务器失败: " ++ exn_text e in
  _update_ui_state false (emit (error_occurred msg) (logging [(ERROR, msg)] w)).

Definition _start_server (w : t) : t :=
  let root_path := str (config_get w "root_path") in
  match DummyAuthorizer.add_anonymous (FTPConfigManager.disk (cfg w))
          DummyAuthorizer.new root_path "elradfmwM" with
  | Raise e => start_failed e w
  | Ok authorizer =>
      let h := {| WindowsFTPHandler.cls_authorizer := Some authorizer;
                  WindowsFTPHandler.cls_timeout := config_get w "timeout";
                  WindowsFTPHandler.cls_encoding := config_get w "encoding";
                  WindowsFTPHandler.cls_utf8 :=
                    WindowsFTPHandler.cls_utf8 (handler w) |} in
      let w := with_handler h w in
      match config_get w "encoding" with
      | PyStr enc =>
          let h := {| WindowsFTPHandler.cls_authorizer := Some authorizer;
                      WindowsFTPHandler.cls_timeout := config_get w "timeout";
                      WindowsFTPHandler.cls_encoding := config_get w "encoding";
                      WindowsFTPHandler.cls_utf8 := String.eqb (lower enc) "utf-8" |} in
          let w := with_handler h w in
          let th := FTPServerThread.__init__ "0.0.0.0"
                      (config_get w "port") (config_get w "max_connections") in
          let tid := length (threads w) in
          let w := {| cfg := cfg w; handler := handler w;
                      threads := (threads w ++ [FTPServerThread.start th])%list;
                      server_thread := Some tid;
                      ui_running := ui_running w; tray_running := tray_running w;
                      emitted := emitted w |} in
          let msg := "服务器已在端口 " ++ str (config_get w "port") ++ " 启动" in
          logging [(INFO, msg)]
            (emit (status_update msg) (emit server_started w))
      | _ => start_failed (AttributeError "object has no attribute 'lower'") w
      end
  end.

(** What the environment decides during [_stop_server]: the outcome of
    [close_all], and the steps the workers take within the 2000 ms of
    [wait] (a step that cannot happen is skipped). *)
Record stopping : Type := {
  close_all_raises : option exn;
  during_wait : list (nat * FTPServerThread.event)
}.

(** A step of the worker [tid]. *)
Definition worker_step (tid : nat) (ev : FTPServerThread.event) (w : t) : t :=
  match threads w !! tid with
  | Some th =>
      match FTPServerThread.run ev th with
      | Some (th', l) => logging l (with_threads (<[tid := th']> (threads w)) w)
      | None => w
      end
  | None => w
  end.

Definition worker_steps (evs : list (nat * FTPServerThread.event)) (w : t) : t :=
  fold_left (fun w '(tid, ev) => worker_step tid ev w) evs w.

(** [_stop_server].  Nothing in its [try] block raises in this model:
    [stop] catches what [close_all] raises, [quit] and [wait] return,
    so the [except] clause is not reached. *)
Definition _stop_server (o : stopping) (w : t) : t :=
  match server_thread w, current w with
  | Some tid, Some th =>
      let '(th', l) := FTPServerThread.stop (close_all_raises o) th in
      let w := logging l (with_threads (<[tid := th']> (threads w)) w) in
      let w := worker_steps (during_wait o) w in       (* quit(); wait(2000) *)
      let w := emit server_stopped w in
      let w := emit (status_update "服务器已停止") w in
      logging [(INFO, "服务器已停止")] w
  | _, _ => w
  end.

Definition _toggle_server (o : stopping) (w : t) : t :=
  if server_running w then _stop_server o w else _start_server w.

(** What can happen to the application: the observer clicks the button
    or the tray action, the application is asked to close while the
    server runs (which stops the server), a worker moves on. *)
Inductive request : Type :=
| Toggle (o : stopping)
| Close (o : stopping)
| Worker (tid : nat) (ev : FTPServerThread.event).

Definition step (w : t) (r : request) : t :=
  match r with
  | Toggle o => _toggle_server o w
  | Close o => _stop_server o w
  | Worker tid ev => worker_step tid ev w
  end.

Definition steps (rs : list request) (w : t) : t := fold_left step rs w.

(** [FTPMainWindow(config_path)] as far as the state kept here goes: the
    manager is constructed and the window shows the server as stopped.
    The widgets of the settings tab and the handlers of the root logger,
    which [__init__] builds in between and which raise on a file whose
    values do not parse, are [SettingsUI._setup_config_tab] and
    [Logging._setup_logging]. *)
Definition __init__ (d : Disk) : result t :=
  match FTPConfigManager.__init__ os d [] with
  | (Ok _, s) =>
      Ok (_update_ui_state false
            {| cfg := s; handler := WindowsFTPHandler.FTPHandler; threads := [];
               server_thread := None; ui_running := false; tray_running := false;
               emitted := [] |})
  | (Raise e, _) => Raise e
  end.

End Requests.

(** The workers that are running. *)
Definition active (w : t) : list FTPServerThread.t :=
  filter (fun th => FTPServerThread.isRunning th = true) (threads w).

End FTPMainWindow.

(** ** Vocabulary of the configuration properties *)

Module Schema.
Import Py.

(** A full configuration, typed as the schema of the [general] section. *)
Record settings : Type := {
  port : Z;
  root_path : string;
  max_connections : Z;
  timeout : Z;
  encoding : string;
  log_level : string;
  save_log : bool
}.

(** The dictionary [_save_settings] would pass to [save], with the root
    directory added. *)
Definition to_dict (v : settings) : list (string * list (string * value)) :=
  [("general",
    [("port", PyInt (port v));
     ("root_path", PyStr (root_path v));
     ("max_connections", PyInt (max_connections v));
     ("timeout", PyInt (timeout v));
     ("encoding", PyStr (encoding v));
     ("log_level", PyStr (log_level v));
     ("save_log", PyBool (save_log v))])].

Definition encodings : list string := ["gb18030"; "utf-8"; "latin1"].
Definition log_levels : list string := ["DEBUG"; "INFO"; "WARNING"; "ERROR"; "CRITICAL"].

(** A directory that exists or that [os.makedirs] can create. *)
Definition usable (d : Disk) (path : string) : bool :=
  bool_decide (path ∈ dirs d) || creatable d path.


(** The recognized keys, in the order of [DEFAULT_CONFIG]. *)
Definition keys : list string :=
  ["port"; "root_path"; "max_connections"; "timeout"; "encoding"; "log_level"; "save_log"].

(** The defaults of the [general] section as a dictionary. *)
Definition defaults (os : OS) : gmap string string :=
  list_to_map (default [] (FTPConfigManager.dict_get (FTPConfigManager.DEFAULT_CONFIG os) "general")).

(** What the loop of [load_config] over [DEFAULT_CONFIG] leaves in the
    parser: the [general] section, completed from the defaults. *)
Definition fill_defaults (os : OS) (c : ConfigParser.t) : ConfigParser.t :=
  <["general" := default ∅ (c !! "general") ∪ defaults os]> c.

(** The value stored under a key of the [general] section, if any. *)
Definition stored (c : ConfigParser.t) (key : string) : option string :=
  c !! "general" ≫= (fun d => d !! key).

(** The default of a recognized key. *)
Definition default_value (os : OS) (key : string) : string :=
  default "" (defaults os !! key).

(** [os.makedirs(path, exist_ok=True)] on a usable path. *)
Definition with_dir (path : string) (d : Disk) : Disk :=
  if bool_decide (path ∈ dirs d) then d
  else {| dirs := {[path]} ∪ dirs d; creatable := creatable d;
          config_file := config_file d; config_writable := config_writable d |}.

(** The text [save] stores for a key. *)
Definition stored_text (os : OS) (key : string) (value : Py.value) : string :=
  str (if String.eqb key "root_path" then PyStr (abspath os (str value)) else value).




(** The parser [create_default_config] builds from an empty one. *)
Definition default_parser (os : OS) : ConfigParser.t :=
  <["general" := foldl (fun d '(k, v) => <[lower k := v]> d) ∅
                   (default [] (FTPConfigManager.dict_get
                                  (FTPConfigManager.DEFAULT_CONFIG os) "general"))]>
    (<["general" := ∅]> ∅).




End Schema.

(** ** Vocabulary of the lifecycle properties *)

Module Lifecycle.

(** At most one worker runs. *)
Definition single_worker (w : FTPMainWindow.t) : Prop :=
  forall i j ti tj,
    FTPMainWindow.threads w !! i = Some ti ->
    FTPMainWindow.threads w !! j = Some tj ->
    FTPServerThread.isRunning ti = true ->
    FTPServerThread.isRunning tj = true ->
    i = j.

(** Every running worker is the one [self.server_thread] refers to. *)
Definition running_is_current (w : FTPMainWindow.t) : Prop :=
  forall tid th,
    FTPMainWindow.threads w !! tid = Some th ->
    FTPServerThread.isRunning th = true ->
    FTPMainWindow.server_thread w = Some tid.

Definition is_error (sig : FTPSignals) : bool :=
  match sig with error_occurred _ => true | _ => false end.

(** What the invariants read of a window: its workers. *)
Definition same_workers (w w' : FTPMainWindow.t) : Prop :=
  FTPMainWindow.threads w' = FTPMainWindow.threads w
  /\ FTPMainWindow.server_thread w' = FTPMainWindow.server_thread w.

(** What an observer sees, and the handles the window keeps. *)
Definition same_view (w w' : FTPMainWindow.t) : Prop :=
  FTPMainWindow.emitted w' = FTPMainWindow.emitted w
  /\ FTPMainWindow.ui_running w' = FTPMainWindow.ui_running w
  /\ FTPMainWindow.server_thread w' = FTPMainWindow.server_thread w
  /\ length (FTPMainWindow.threads w') = length (FTPMainWindow.threads w).

End Lifecycle.

(** ** A concrete environment for the worked examples *)

Module Sample.
Import Py.

(** A working directory [/home/ftp]; relative paths are made absolute by
    prefixing it. *)
Definition os : OS := {|
  getcwd := "/home/ftp";
  abspath p := match p with
               | String "/"%char _ => p
               | _ => "/home/ftp/" ++ p
               end
|}.

(** A disk on which [/home/ftp] exists, everything but [/root/secret] can
    be created, and no configuration file has been written yet. *)
Definition disk : Disk := {|
  dirs := {["/home/ftp"]};
  creatable p := negb (String.eqb p "/root/secret");
  config_file := None;
  config_writable := true
|}.

(** The same disk with a hand-edited file that lacks [timeout]. *)
Definition partial_file : ConfigParser.t :=
  {["general" := {["port" := "2121"; "encoding" := "utf-8"]} ]}.

Definition disk_partial : Disk := {|
  dirs := {["/home/ftp"]};
  creatable p := negb (String.eqb p "/root/secret");
  config_file := Some partial_file;
  config_writable := true
|}.

(** A file whose port does not parse and whose encoding is UTF-8. *)
Definition disk_edited : Disk := {|
  dirs := {["/home/ftp"]};
  creatable p := negb (String.eqb p "/root/secret");
  config_file := Some {["general" := {["port" := "abc"; "encoding" := "utf-8";
                                       "save_log" := "maybe"]} ]};
  config_writable := true
|}.

(** The manager after [FTPConfigManager('config.ini')] on [disk]. *)
Definition manager : FTPConfigManager.state := snd (FTPConfigManager.__init__ os disk []).

(** The window after [FTPMainWindow()] on a disk; an empty window stands
    in should the construction raise. *)
Definition window_on (d : Disk) : FTPMainWindow.t :=
  match FTPMainWindow.__init__ os d with
  | Ok w => w
  | Raise _ =>
      {| FTPMainWindow.cfg := {| FTPConfigManager.config := ∅;
                                 FTPConfigManager.disk := d;
                                 FTPConfigManager.log := [] |};
         FTPMainWindow.handler := WindowsFTPHandler.FTPHandler;
         FTPMainWindow.threads := []; FTPMainWindow.server_thread := None;
         FTPMainWindow.ui_running := false; FTPMainWindow.tray_running := false;
         FTPMainWindow.emitted := [] |}
  end.

Definition window : FTPMainWindow.t := window_on disk.

(** The window once a [save] of a root directory that cannot be created
    has failed: the parser names a directory that does not exist. *)
Definition window_missing_root : FTPMainWindow.t :=
  FTPMainWindow.with_cfg
    (snd (FTPConfigManager.save os [("general", [("root_path", PyStr "/root/secret")])]
            (FTPMainWindow.cfg window)))
    window.

(** [wait(2000)] elapses without any step of the worker. *)
Definition timed_out : FTPMainWindow.stopping := {|
  FTPMainWindow.close_all_raises := None;
  FTPMainWindow.during_wait := []
|}.

(** The worker [tid] leaves [serve_forever] within the wait. *)
Definition joined (tid : nat) : FTPMainWindow.stopping := {|
  FTPMainWindow.close_all_raises := None;
  FTPMainWindow.during_wait := [(tid, FTPServerThread.ServeReturned)]
|}.

(** The window after a start request and a successful bind. *)
Definition serving : FTPMainWindow.t :=
  FTPMainWindow.steps os
    [FTPMainWindow.Toggle timed_out; FTPMainWindow.Worker 0 FTPServerThread.Bound]
    window.

(** A registry whose GB18030 tables are empty and that knows no codec
    beyond the two the program names. *)
Definition codecs : Codecs.registry := {|
  Codecs.gb18030_decode _ _ := Codecs.Bad 0;
  Codecs.gb18030_encode _ := None;
  Codecs.other _ := None
|}.

Definition valid_settings : Schema.settings := {|
  Schema.port := 2121;
  Schema.root_path := "/srv/ftp";
  Schema.max_connections := 10;
  Schema.timeout := 60;
  Schema.encoding := "utf-8";
  Schema.log_level := "DEBUG";
  Schema.save_log := true
|}.


End Sample.

(** ** The log view: [_append_log] *)

Module LogView.

Definition newline : ascii := "010"%char.

(** [s.split('\n')]. *)
Fixpoint split_lines (s : string) : list string :=
  match s with
  | EmptyString => [EmptyString]
  | String c rest =>
      if Ascii.eqb c newline then EmptyString :: split_lines rest
      else match split_lines rest with
           | l :: ls => String c l :: ls
           | [] => [String c EmptyString]
           end
  end.

(** ['\n'.join(l)]. *)
Fixpoint join_lines (l : list string) : string :=
  match l with
  | [] => EmptyString
  | x :: rest =>
      match rest with
      | [] => x
      | _ :: _ => x ++ String newline (join_lines rest)
      end
  end.

(** [l[-n:]] for a positive [n]. *)
Definition last_n {A} (n : nat) (l : list A) : list A :=
  drop (length l - n) l.

(** The text of the log view after [_append_log(message)].  The cursor is
    not kept.  [lineCount] is [QTextDocument.lineCount], which depends on
    the layout of the document. *)
Definition _append_log (lineCount : string -> nat) (message text : string) : string :=
  let text := text ++ message ++ String newline EmptyString in
  if (500 <? lineCount text)%nat
  then join_lines (last_n 300 (split_lines text))
  else text.

(** The number of newline characters of a string. *)
Fixpoint newlines (s : string) : nat :=
  match s with
  | EmptyString => 0
  | String c rest => (if Ascii.eqb c newline then 1 else 0) + newlines rest
  end.

End LogView.

(** ** The root logger: [_setup_logging] *)

Module Logging.
Import Py.

Inductive handler : Type :=
| FTPLogger                       (* the handler that emits [log_received] *)
| FileHandler (path : string).

(** The root logger: its numeric level and its handlers. *)
Record logger : Type := {
  logger_level : Z;
  handlers : list handler
}.

(** [logging._nameToLevel]. *)
Definition name_to_level (name : string) : option Z :=
  if String.eqb name "CRITICAL" then Some 50
  else if String.eqb name "FATAL" then Some 50
  else if String.eqb name "ERROR" then Some 40
  else if String.eqb name "WARN" then Some 30
  else if String.eqb name "WARNING" then Some 30
  else if String.eqb name "INFO" then Some 20
  else if String.eqb name "DEBUG" then Some 10
  else if String.eqb name "NOTSET" then Some 0
  else None.

(** [logging._checkLevel]: an integer, or the name of a level.  For any
    other value Python raises [TypeError]; the getter never returns one for
    [log_level]. *)
Definition check_level (v : value) : result Z :=
  match v with
  | PyInt z => Ok z
  | PyBool b => Ok (if b then 1 else 0)
  | PyStr name =>
      match name_to_level name with
      | Some n => Ok n
      | None => Raise (ValueError ("Unknown level: '" ++ name ++ "'"))
      end
  | PyNone => Raise (ValueError "Level not an integer or a valid string: None")
  end.

(** The truth value of a Python value, as [if value:] takes it. *)
Definition truthy (v : value) : bool :=
  match v with
  | PyInt z => negb (z =? 0)
  | PyBool b => b
  | PyStr s => negb (String.eqb s "")
  | PyNone => false
  end.

(** Where the log file lies, [os.path.join(os.path.dirname(config_path),
    'ftp_server.log')], and the text of the [OSError] that opening it for
    appending raises, if it raises. *)
Record log_env : Type := {
  log_file : string;
  log_file_error : option string
}.

Section Setup.
Context (os : OS) (env : log_env).

(** [_setup_logging]: the statements in the order of the source, so that a
    level that is refused leaves the logger without handlers. *)
Definition _setup_logging (c : ConfigParser.t) (l : logger) : result unit * logger :=
  let l := {| logger_level := logger_level l; handlers := [] |} in
  match check_level (FTPConfigManager.get os c "general" "log_level") with
  | Raise e => (Raise e, l)
  | Ok n =>
      let l := {| logger_level := n; handlers := [FTPLogger] |} in
      if truthy (FTPConfigManager.get os c "general" "save_log") then
        match log_file_error env with
        | None => (Ok tt, {| logger_level := n;
                             handlers := [FTPLogger; FileHandler (log_file env)] |})
        | Some msg => (Raise (OSError msg), l)
        end
      else (Ok tt, l)
  end.

End Setup.
End Logging.

(** ** The settings tab and the root directory dialog *)

Module SettingsUI.
Import Py.

(** The widgets of the configuration tab, as [_setup_config_tab] makes
    them: three spin boxes, two combo boxes and a check box. *)
Record form : Type := {
  port_spin : Z;
  max_conn_spin : Z;
  timeout_spin : Z;
  encoding_combo : string;
  log_level_combo : string;
  save_log_check : bool
}.

(** The ranges [setRange] gives the spin boxes and the items of the combo
    boxes: a widget never holds a value outside them. *)
Definition in_ranges (f : form) : Prop :=
  1 <= port_spin f <= 65535 /\ 1 <= max_conn_spin f <= 1000
  /\ 1 <= timeout_spin f <= 3600
  /\ In (encoding_combo f) Schema.encodings
  /\ In (log_level_combo f) Schema.log_levels.

(** What a setter of a widget raises when PyQt cannot convert its
    argument. *)
Inductive widget_error : Type :=
| TypeError (argument : value)
| OverflowError (argument : Z).

Inductive built (A : Type) : Type :=
| Built (a : A)
| Failed (e : widget_error).
Arguments Built {A} a.
Arguments Failed {A} e.

(** [QSpinBox.setValue] after [setRange(lo, hi)]: the argument is a C int,
    and a value out of the range is moved to the nearest bound. *)
Definition setValue (lo hi : Z) (v : value) : built Z :=
  let clamp z :=
    if (z <? - 2 ^ 31) || (2 ^ 31 <=? z) then Failed (OverflowError z)
    else Built (Z.max lo (Z.min hi z)) in
  match v with
  | PyInt z => clamp z
  | PyBool b => clamp (if b then 1 else 0)
  | _ => Failed (TypeError v)
  end.

(** [QComboBox.setCurrentText] right after [addItems(items)] on a combo box
    that is not editable: the item with that text becomes the current one;
    when there is none the first item stays current. *)
Definition setCurrentText (items : list string) (v : value) : built string :=
  match v with
  | PyStr s => Built (if in_list s items then s else hd "" items)
  | _ => Failed (TypeError v)
  end.

(** [QCheckBox.setChecked]. *)
Definition setChecked (v : value) : built bool :=
  match v with
  | PyBool b => Built b
  | PyInt z => Built (negb (z =? 0))
  | _ => Failed (TypeError v)
  end.

(** The dictionary [_save_settings] builds: its only section, and the
    dictionary itself. *)
Definition options_of (f : form) : list (string * value) :=
  [("port", PyInt (port_spin f));
   ("max_connections", PyInt (max_conn_spin f));
   ("timeout", PyInt (timeout_spin f));
   ("encoding", PyStr (encoding_combo f));
   ("log_level", PyStr (log_level_combo f));
   ("save_log", PyBool (save_log_check f))].

Definition settings_of (f : form) : list (string * list (string * value)) :=
  [("general", options_of f)].

Inductive dialog : Type :=
| information (title text : string)
| warning (title text : string)
| critical (title text : string).

(** The window together with what the two slots touch besides: the root
    logger, the label of the root directory, the message boxes shown. *)
Record panel : Type := {
  win : FTPMainWindow.t;
  root_logger : Logging.logger;
  server_root : string;
  shown : list dialog
}.

Definition with_win (w : FTPMainWindow.t) (p : panel) : panel :=
  {| win := w; root_logger := root_logger p; server_root := server_root p;
     shown := shown p |}.

Definition with_logger (l : Logging.logger) (p : panel) : panel :=
  {| win := win p; root_logger := l; server_root := server_root p;
     shown := shown p |}.

Definition show (d : dialog) (p : panel) : panel :=
  {| win := win p; root_logger := root_logger p; server_root := server_root p;
     shown := (shown p ++ [d])%list |}.

(** [_show_error]. *)
Definition _show_error (message : string) (p : panel) : panel :=
  show (critical "错误" message) p.

(** The warning both slots show while the server runs. *)
Definition restart_notice (p : panel) : panel :=
  if FTPMainWindow.server_running (win p)
  then show (warning "注意" "必须重启服务器才能使更改生效") p
  else p.

Section Slots.
Context (os : OS) (env : Logging.log_env).

(** [_setup_config_tab]: the widgets are filled from the typed getter, in
    the order of the source. *)
Definition _setup_config_tab (c : ConfigParser.t) : built form :=
  let get := FTPConfigManager.get os c "general" in
  match setValue 1 65535 (get "port") with
  | Failed e => Failed e
  | Built port =>
  match setValue 1 1000 (get "max_connections") with
  | Failed e => Failed e
  | Built max_conn =>
  match setValue 1 3600 (get "timeout") with
  | Failed e => Failed e
  | Built timeout =>
  match setCurrentText Schema.encodings (get "encoding") with
  | Failed e => Failed e
  | Built encoding =>
  match setCurrentText Schema.log_levels (get "log_level") with
  | Failed e => Failed e
  | Built log_level =>
  match setChecked (get "save_log") with
  | Failed e => Failed e
  | Built save_log =>
      Built {| port_spin := port; max_conn_spin := max_conn; timeout_spin := timeout;
               encoding_combo := encoding; log_level_combo := log_level;
               save_log_check := save_log |}
  end end end end end end.

(** [self.config.save(settings)] on the manager of the window. *)
Definition config_save (settings : list (string * list (string * value))) (p : panel)
    : result bool * panel :=
  let '(r, s) := FTPConfigManager.save os settings (FTPMainWindow.cfg (win p)) in
  (r, with_win (FTPMainWindow.with_cfg s (win p)) p).

(** The [except] clause of [_save_settings]. *)
Definition save_failed (e : exn) (p : panel) : panel :=
  let msg := "保存设置失败: " ++ exn_text e in
  _show_error msg (with_win (FTPMainWindow.logging [(ERROR, msg)] (win p)) p).

Definition _save_settings (f : form) (p : panel) : panel :=
  match config_save (settings_of f) p with
  | (Raise e, p) => save_failed e p
  | (Ok false, p) => p
  | (Ok true, p) =>
      match Logging._setup_logging os env
              (FTPConfigManager.config (FTPMainWindow.cfg (win p))) (root_logger p) with
      | (Raise e, l) => save_failed e (with_logger l p)
      | (Ok _, l) =>
          restart_notice (show (information "成功" "配置保存成功!") (with_logger l p))
      end
  end.

(** [_select_root_dir]; [path] is what the directory dialog returns, the
    empty string when it is cancelled.  The slot has no handler of its own:
    what [save] raised would leave it. *)
Definition _select_root_dir (path : string) (p : panel) : result unit * panel :=
  if String.eqb path "" then (Ok tt, p)
  else
    let abs_path := abspath os path in
    let s := FTPMainWindow.cfg (win p) in
    match (if bool_decide (abs_path ∈ dirs (FTPConfigManager.disk s))
           then (Ok tt, s) else FTPConfigManager.makedirs abs_path s) with
    | (Raise e, _) => (Ok tt, _show_error ("无法创建目录: " ++ exn_text e) p)
    | (Ok _, s) =>
        let p := with_win (FTPMainWindow.with_cfg s (win p)) p in
        match config_save [("general", [("root_path", PyStr abs_path)])] p with
        | (Raise e, p) => (Raise e, p)
        | (Ok false, p) => (Ok tt, p)
        | (Ok true, p) =>
            (Ok tt,
             restart_notice
               {| win := win p; root_logger := root_logger p;
                  server_root := "根目录: " ++ abs_path; shown := shown p |})
        end
    end.

End Slots.
End SettingsUI.

(** ** Vocabulary of the texts that parser and file keep *)

Module Text.

Definition chars (s : string) : list ascii := list_ascii_of_string s.

(** No percent sign: [set] accepts such a value and [get] hands it back as
    it is stored, whatever else the parser holds. *)
Definition no_percent (s : string) : bool :=
  forallb (fun c => negb (Ascii.eqb c "%"%char)) (chars s).

(** ASCII characters only: [str.lower] and [int] do to such a string what
    [lower] and [int_of_str] do. *)
Definition is_ascii (s : string) : bool :=
  forallb (fun c => (N_of_ascii c <? 128)%N) (chars s).

Definition of_bytes (l : list N) : list ascii := map ascii_of_N l.

(** What [str.strip] removes, in UTF-8: the ASCII white space with the
    separators 0x1c..0x1f, and U+0085, U+00A0, U+1680, U+2000..U+200A,
    U+2028, U+2029, U+202F, U+205F, U+3000. *)
Definition blanks : list (list ascii) :=
  map of_bytes
    [[9]; [10]; [11]; [12]; [13]; [28]; [29]; [30]; [31]; [32];
     [194; 133]; [194; 160]; [225; 154; 128];
     [226; 128; 128]; [226; 128; 129]; [226; 128; 130]; [226; 128; 131];
     [226; 128; 132]; [226; 128; 133]; [226; 128; 134]; [226; 128; 135];
     [226; 128; 136]; [226; 128; 137]; [226; 128; 138];
     [226; 128; 168]; [226; 128; 169]; [226; 128; 175]; [226; 129; 159];
     [227; 128; 128]]%N.

Fixpoint starts_with (p l : list ascii) : bool :=
  match p, l with
  | [], _ => true
  | a :: p', b :: l' => Ascii.eqb a b && starts_with p' l'
  | _ :: _, [] => false
  end.

Definition ends_with (p l : list ascii) : bool := starts_with (rev p) (rev l).

(** A value that comes back from the file as it was written, and from
    [get] as it is stored: no percent sign, no line break, no blank at
    either end. *)
Definition plain (s : string) : bool :=
  no_percent s
  && forallb (fun c => negb (Ascii.eqb c "010"%char) && negb (Ascii.eqb c "013"%char))
       (chars s)
  && forallb (fun b => negb (starts_with b (chars s)) && negb (ends_with b (chars s)))
       blanks.

End Text.

(** ** Vocabulary of the further configuration properties *)

Module Store.
Import Py.

(** The text under an option of a section, if any. *)
Definition option_of (c : ConfigParser.t) (section key : string) : option string :=
  c !! section ≫= (fun d => d !! key).

(** Whether a settings dictionary writes the option [key] of [section],
    under the name the parser gives it. *)
Definition written (settings : list (string * list (string * value)))
    (section key : string) : bool :=
  existsb (fun '(sec, options) =>
             String.eqb sec section
             && existsb (fun '(k, _) => String.eqb (lower k) key) options)
          settings.

(** The names of a settings dictionary are plain: no section is the
    default section (which [set] also takes the empty name for), and the
    option names are ASCII. *)
Definition plain_names (settings : list (string * list (string * value))) : bool :=
  forallb (fun '(sec, options) =>
             negb (String.eqb sec "") && negb (String.eqb sec "DEFAULT")
             && forallb (fun '(k, _) => Text.is_ascii k) options)
          settings.

(** The parser contents of which [save] checks the text as it is stored:
    there is no default section to fall back on, the text of the port is
    made of ASCII characters, and the root directory holds no percent
    sign. *)
Definition checks_stored_text (c : ConfigParser.t) : bool :=
  match c !! "DEFAULT" with None => true | Some _ => false end
  && from_option Text.is_ascii true (Schema.stored c "port")
  && from_option Text.no_percent true (Schema.stored c "root_path").

(** A section once the loop of [save] has stored [options] in it. *)
Definition store_options (os : OS) (options : list (string * value))
    (d : gmap string string) : gmap string string :=
  foldl (fun d '(k, x) => <[lower k := Schema.stored_text os k x]> d) d options.

(** The loop of [save] over the settings. *)
Definition store_loop (os : OS) (settings : list (string * list (string * value)))
    : FTPConfigManager.M unit :=
  FTPConfigManager.for_each settings (fun '(section, options) =>
    FTPConfigManager.for_each options (fun '(key, value) =>
      let value := if String.eqb key "root_path"
                   then PyStr (abspath os (str value)) else value in
      FTPConfigManager.cp_update
        (fun c => ConfigParser.set c section key (str value)))).

(** The state a [save] of one section leaves when it succeeds and the root
    directory it checks is [root]. *)
Definition saved (os : OS) (options : list (string * value)) (d : gmap string string)
    (root : string) (s : FTPConfigManager.state) : FTPConfigManager.state :=
  let c := <["general" := store_options os options d]> (FTPConfigManager.config s) in
  let dk := Schema.with_dir root (FTPConfigManager.disk s) in
  {| FTPConfigManager.config := c;
     FTPConfigManager.disk :=
       {| dirs := dirs dk; creatable := creatable dk;
          config_file := Some c; config_writable := config_writable dk |};
     FTPConfigManager.log := FTPConfigManager.log s |}.

End Store.

(** ** Vocabulary of the further lifecycle properties *)

Module Progress.

(** A worker whose server has been closed: it is about to leave
    [serve_forever], or has left [run]. *)
Definition closing (th : FTPServerThread.t) : Prop :=
  (FTPServerThread.at_pc th = FTPServerThread.Serving
   \/ FTPServerThread.at_pc th = FTPServerThread.Finished)
  /\ FTPServerThread._running th = false
  /\ exists srv, FTPServerThread.server th = Some srv /\ FTPServerThread.closed srv = true.

(** The signal of the log view. *)
Definition is_log (sig : FTPSignals) : bool :=
  match sig with log_received _ => true | _ => false end.

(** The worker [tid] has left [run]. *)
Definition finished (w : FTPMainWindow.t) (tid : nat) : Prop :=
  exists th, FTPMainWindow.threads w !! tid = Some th
             /\ FTPServerThread.at_pc th = FTPServerThread.Finished.

End Progress.

(** ** Further inputs for the worked examples *)

Module Desk.
Import Py.

(** A document that wraps no line: it counts the lines of its text. *)
Definition lineCount (text : string) : nat := length (LogView.split_lines text).

Definition env : Logging.log_env := {|
  Logging.log_file := "/home/ftp/ftp_server.log";
  Logging.log_file_error := None
|}.

(** The root logger as [logging] makes it: level WARNING, no handler. *)
Definition fresh_logger : Logging.logger := {|
  Logging.logger_level := 30;
  Logging.handlers := []
|}.

Definition panel_of (w : FTPMainWindow.t) : SettingsUI.panel := {|
  SettingsUI.win := w;
  SettingsUI.root_logger := fresh_logger;
  SettingsUI.server_root :=
    "根目录: " ++ str (FTPMainWindow.config_get Sample.os w "root_path");
  SettingsUI.shown := []
|}.

Definition fresh_panel : SettingsUI.panel := panel_of Sample.window.

Definition edited_form : SettingsUI.form := {|
  SettingsUI.port_spin := 2121;
  SettingsUI.max_conn_spin := 10;
  SettingsUI.timeout_spin := 60;
  SettingsUI.encoding_combo := "utf-8";
  SettingsUI.log_level_combo := "DEBUG";
  SettingsUI.save_log_check := true
|}.



(** A file whose port is beyond the range of the spin box. *)
Definition disk_high_port : Disk := {|
  dirs := {["/home/ftp"]};
  creatable p := negb (String.eqb p "/root/secret");
  config_file := Some {["general" := {["port" := "70000"]} ]};
  config_writable := true
|}.


End Desk.

(* ===================================================================== *)
(** * Part II: properties *)
(* ===================================================================== *)

(** Closed goals are settled by evaluation; an equation between whole
    dictionaries through its decision procedure. *)
Ltac conjuncts := repeat match goal with |- _ /\ _ => split end.
Ltac evaluate := cbv zeta; conjuncts; vm_compute; solve [reflexivity | discriminate].
Ltac decide_by_evaluation := refine (bool_decide_unpack _ _); vm_compute; exact I.

(** ** [int(str(z))] *)

Module PyFacts.
Import Py.

Lemma of_uint_acc_val d : forall acc,
  Z.pos (Pos.of_uint_acc d acc) = uint_val d (Z.pos acc).
Proof.
  induction d; intros acc; cbn [Pos.of_uint_acc uint_val];
    [reflexivity | rewrite IHd; f_equal; lia ..].
Qed.

Lemma of_uint_val d : Z.of_uint d = uint_val d 0.
Proof.
  unfold Z.of_uint.
  induction d; cbn [Pos.of_uint uint_val]; try reflexivity;
    try (cbn [Z.of_N]; rewrite of_uint_acc_val; reflexivity).
  exact IHd.
Qed.

Lemma digits_cons c v rest acc :
  is_digit c = Some v ->
  digits acc (c :: rest) =
    match rest with
    | [] => Some (10 * acc + v)
    | "_"%char :: rest' => digits (10 * acc + v) rest'
    | _ :: _ => digits (10 * acc + v) rest
    end.
Proof. intros H. cbn [digits]. rewrite H. reflexivity. Qed.

Lemma digits_numeral d : forall acc,
  d <> Nil ->
  digits acc (list_ascii_of_string (NilEmpty.string_of_uint d)) = Some (uint_val d acc).
Proof.
  induction d; intros acc Hd; [congruence | ..];
    cbn [NilEmpty.string_of_uint list_ascii_of_string uint_val];
    (match goal with
     | |- digits _ (?c :: _) = _ =>
         let v := eval vm_compute in (is_digit c) in
         match v with
         | Some ?k => rewrite (digits_cons c k) by (vm_compute; reflexivity)
         end
     end);
    (destruct d;
     [ cbn [NilEmpty.string_of_uint list_ascii_of_string uint_val]; f_equal; lia
     | cbn [NilEmpty.string_of_uint list_ascii_of_string];
       rewrite <- IHd by discriminate;
       cbn [NilEmpty.string_of_uint list_ascii_of_string];
       first [ reflexivity | f_equal; lia ] .. ]).
Qed.

Lemma numeral_no_space d :
  Forall (fun c => is_space c = false)
         (list_ascii_of_string (NilEmpty.string_of_uint d)).
Proof. induction d; cbn [NilEmpty.string_of_uint list_ascii_of_string]; constructor; auto. Qed.

Lemma lstrip_id c cs : is_space c = false -> lstrip (c :: cs) = c :: cs.
Proof. intros H. cbn. rewrite H. reflexivity. Qed.

Lemma strip_id cs : Forall (fun c => is_space c = false) cs -> strip cs = cs.
Proof.
  intros H. unfold strip.
  assert (Hl : forall l, Forall (fun c => is_space c = false) l -> lstrip l = l).
  { intros l Hf. destruct Hf as [|c l Hc _]; [reflexivity | apply lstrip_id, Hc]. }
  rewrite (Hl cs H). rewrite Hl by (apply Forall_rev, H). apply rev_involutive.
Qed.

Lemma numeral_head d :
  d <> Nil ->
  exists c cs, list_ascii_of_string (NilEmpty.string_of_uint d) = c :: cs
               /\ c <> "-"%char /\ c <> "+"%char.
Proof.
  destruct d; intros Hd; [congruence | ..];
    cbn [NilEmpty.string_of_uint list_ascii_of_string]; eexists _, _;
    (split; [reflexivity | split; discriminate]).
Qed.

Lemma int_of_numeral d :
  d <> Nil ->
  int_of_str (NilEmpty.string_of_uint d) = Some (uint_val d 0).
Proof.
  intros Hd. unfold int_of_str.
  rewrite strip_id by apply numeral_no_space.
  rewrite <- (digits_numeral d 0 Hd).
  destruct (numeral_head d Hd) as (c & cs & -> & Hm & Hp).
  destruct c as [[] [] [] [] [] [] [] []]; try reflexivity; congruence.
Qed.

Lemma string_of_uint_nonnil d :
  d <> Nil -> NilZero.string_of_uint d = NilEmpty.string_of_uint d.
Proof. unfold NilZero.string_of_uint. destruct d; congruence. Qed.

(** [int(str(z)) == z]. *)
Lemma int_of_str_of_int z : int_of_str (str_of_int z) = Some z.
Proof.
  unfold str_of_int.
  pose proof (DecimalZ.of_to z) as Hz.
  destruct z as [|p|p]; [reflexivity | ..]; cbn [Z.to_int Z.of_int] in *;
    rewrite of_uint_val in Hz;
    assert (Hn : Pos.to_uint p <> Nil) by apply Unsigned.to_uint_nonnil;
    cbn [NilZero.string_of_int]; rewrite string_of_uint_nonnil by exact Hn.
  - rewrite int_of_numeral by exact Hn. congruence.
  - unfold int_of_str. cbn [list_ascii_of_string].
    rewrite strip_id by (constructor; [reflexivity | apply numeral_no_space]).
    rewrite digits_numeral by exact Hn. cbn [fmap option_fmap option_map]. f_equal. lia.
Qed.
End PyFacts.

Example int_of_str_examples :
  Py.int_of_str " 65_535 " = Some 65535 /\ Py.int_of_str "-7" = Some (-7)
  /\ Py.int_of_str "+8080" = Some 8080 /\ Py.int_of_str "abc" = None
  /\ Py.int_of_str "1__0" = None /\ Py.int_of_str "" = None
  /\ Py.int_of_str "21_" = None.
Proof. evaluate. Qed.

Example str_examples :
  Py.str (Py.PyInt 21) = "21" /\ Py.str (Py.PyInt (-5)) = "-5"
  /\ Py.str (Py.PyInt 0) = "0" /\ Py.str (Py.PyBool true) = "True"
  /\ Py.lower "UTF-8" = "utf-8".
Proof. evaluate. Qed.

Example boolean_of_str_examples :
  ConfigParser.boolean_of_str "True" = Some true
  /\ ConfigParser.boolean_of_str "off" = Some false
  /\ ConfigParser.boolean_of_str "maybe" = None.
Proof. evaluate. Qed.

(** ** The configuration store *)

Module ConfigFacts.
Import Py PyFacts FTPConfigManager Schema.

Lemma with_config_id s : with_config (config s) s = s.
Proof. destruct s; reflexivity. Qed.

Lemma union_insert_present (d m : gmap string string) k v x :
  d !! k = Some x -> d ∪ <[k := v]> m = d ∪ m.
Proof.
  intros Hk. apply map_eq. intros i. rewrite !lookup_union.
  destruct (decide (k = i)) as [<-|Hne].
  - rewrite Hk. destruct (<[k:=v]> m !! k), (m !! k); reflexivity.
  - rewrite lookup_insert_ne by exact Hne. reflexivity.
Qed.

Lemma union_insert_absent (d m : gmap string string) k v :
  d !! k = None -> <[k := v]> d ∪ m = d ∪ <[k := v]> m.
Proof.
  intros Hk. rewrite <- insert_union_l. apply insert_union_r, Hk.
Qed.

Lemma bind_ok {A B} (m : M A) (k : A -> M B) s a s' :
  m s = (Ok a, s') -> bind m k s = k a s'.
Proof. intros H. unfold bind. rewrite H. reflexivity. Qed.

Lemma bind_raise {A B} (m : M A) (k : A -> M B) s e s' :
  m s = (Raise e, s') -> bind m k s = (Raise e, s').
Proof. intros H. unfold bind. rewrite H. reflexivity. Qed.

(** One round of the inner loop of [load_config]. *)
Lemma fill_option section k v s d :
  config s !! section = Some d ->
  lower k = k ->
  (let* has := cp_query (fun c => Ok (ConfigParser.has_option c section k)) in
   when (negb has) (cp_update (fun c => ConfigParser.set c section k v))) s
  = (Ok tt, match d !! k with
            | Some _ => s
            | None => with_config (<[section := <[k := v]> d]> (config s)) s
            end).
Proof.
  intros Hd Hk. unfold bind, cp_query, ConfigParser.has_option, ConfigParser.optionxform.
  rewrite Hd, Hk. destruct (d !! k); cbn [negb when]; [reflexivity|].
  unfold cp_update, ConfigParser.set, ConfigParser.optionxform. rewrite Hd, Hk. reflexivity.
Qed.

(** The inner loop of [load_config]: options that are missing are set. *)
Lemma fill_options section (options : list (string * string)) :
  Forall (fun kv => lower (fst kv) = fst kv) options ->
  forall s d,
    config s !! section = Some d ->
    for_each options (fun '(key, value) =>
        let* has := cp_query (fun c => Ok (ConfigParser.has_option c section key)) in
        when (negb has) (cp_update (fun c => ConfigParser.set c section key value))) s
    = (Ok tt, with_config (<[section := d ∪ list_to_map options]> (config s)) s).
Proof.
  induction 1 as [|[k v] options Hk _ IH]; intros s d Hd.
  - cbn [for_each list_to_map foldr]. unfold ret.
    rewrite (right_id_L ∅ (∪)), insert_id by exact Hd.
    rewrite with_config_id. reflexivity.
  - cbn [fst] in Hk. cbn [for_each].
    erewrite bind_ok by (apply fill_option; eassumption).
    cbn [list_to_map foldr uncurry fst snd].
    destruct (d !! k) as [x|] eqn:Ek.
    + rewrite (IH s d Hd). erewrite union_insert_present by exact Ek. reflexivity.
    + rewrite (IH _ (<[k:=v]> d)) by (cbn; apply lookup_insert_eq).
      cbn [config with_config disk log]. rewrite insert_insert_eq.
      rewrite union_insert_absent by exact Ek. reflexivity.
Qed.

Section WithOS.
Context (os : OS).

Lemma defaults_lower :
  Forall (fun kv : string * string => lower (fst kv) = fst kv)
    (default [] (dict_get (DEFAULT_CONFIG os) "general")).
Proof. cbv [default from_option id]. cbn. repeat constructor. Qed.

(** The loop of [load_config] over [DEFAULT_CONFIG]. *)
Lemma fill_loop s :
  for_each (DEFAULT_CONFIG os) (fun '(section, options) =>
    (let* has := cp_query (fun c => Ok (ConfigParser.has_section c section)) in
     when (negb has) (cp_update (fun c => ConfigParser.add_section c section))) >>
    for_each options (fun '(key, value) =>
      let* has := cp_query (fun c => Ok (ConfigParser.has_option c section key)) in
      when (negb has) (cp_update (fun c => ConfigParser.set c section key value)))) s
  = (Ok tt, with_config (fill_defaults os (config s)) s).
Proof.
  pose proof defaults_lower as Hl.
  unfold fill_defaults, defaults. unfold DEFAULT_CONFIG in *.
  cbn [dict_get String.eqb Ascii.eqb Bool.eqb] in *.
  cbv [default from_option id] in Hl. cbn [for_each].
  assert (Hsec : forall s,
    (let* has := cp_query (fun c => Ok (ConfigParser.has_section c "general")) in
     when (negb has) (cp_update (fun c => ConfigParser.add_section c "general"))) s
    = (Ok tt, match config s !! "general" with
              | Some _ => s
              | None => with_config (<["general" := ∅]> (config s)) s
              end)).
  { intros s'. unfold bind, cp_query, ConfigParser.has_section.
    destruct (config s' !! "general") eqn:E; cbn [negb when]; [reflexivity|].
    unfold cp_update, ConfigParser.add_section, ConfigParser.has_section.
    rewrite E. reflexivity. }
  destruct (config s !! "general") as [d|] eqn:Ed; cbv [default from_option id].
  - erewrite bind_ok; cycle 1.
    { erewrite bind_ok by apply Hsec. rewrite Ed. apply (fill_options _ _ Hl s d Ed). }
    reflexivity.
  - erewrite bind_ok; cycle 1.
    { erewrite bind_ok by apply Hsec. rewrite Ed.
      apply (fill_options _ _ Hl _ ∅). cbn. apply lookup_insert_eq. }
    unfold ret. cbn [config with_config disk log]. rewrite insert_insert_eq. reflexivity.
Qed.

Lemma stored_fill c key :
  stored (fill_defaults os c) key =
    match stored c key with Some v => Some v | None => defaults os !! key end.
Proof.
  unfold stored, fill_defaults. rewrite lookup_insert_eq. cbn [mbind option_bind].
  rewrite lookup_union.
  destruct (c !! "general") as [d|]; cbn [default from_option id mbind option_bind].
  - destruct (d !! key), (defaults os !! key); reflexivity.
  - rewrite lookup_empty. destruct (defaults os !! key); reflexivity.
Qed.

Lemma defaults_keys key :
  In key keys -> defaults os !! key = Some (default_value os key).
Proof.
  unfold default_value. intros Hk.
  assert (Hs : is_Some (defaults os !! key)); [|destruct Hs as [x ->]; reflexivity].
  cbn in Hk. repeat (destruct Hk as [<-|Hk]; [eexists; reflexivity|]). destruct Hk.
Qed.

Lemma stored_get c key v :
  lower key = key ->
  stored c key = Some v -> ConfigParser.get c "general" key = Ok v.
Proof.
  unfold stored, ConfigParser.get, ConfigParser.optionxform. intros -> H.
  destruct (c !! "general") as [d|]; cbn in H; [|discriminate]. rewrite H. reflexivity.
Qed.

Lemma get_root_path c v :
  stored c "root_path" = Some v -> str (get os c "general" "root_path") = v.
Proof.
  intros H. unfold get, get_typed. cbn [String.eqb Ascii.eqb Bool.eqb in_list existsb orb].
  rewrite (stored_get c "root_path" v eq_refl H). reflexivity.
Qed.

(** [load_config] when the file exists: read, fill, then the root
    directory. *)
Lemma load_config_existing s f :
  config_file (disk s) = Some f ->
  load_config os s =
    (let* root_path := cp_query (fun c => Ok (str (get os c "general" "root_path"))) in
     try_except (makedirs root_path)
       (fun e =>
          logging_error ("无法创建根目录 '" ++ root_path ++ "': " ++ exn_text e) >>
          cp_update (fun c => ConfigParser.set c "general" "root_path"
                                (abspath os (getcwd os))) >>
          makedirs (abspath os (getcwd os))))
      (with_config (fill_defaults os (ConfigParser.read (config s) (Some f))) s).
Proof.
  intros Hf. unfold load_config.
  erewrite bind_ok by (rewrite Hf; reflexivity).
  erewrite bind_ok by reflexivity.
  rewrite Hf. erewrite bind_ok by apply fill_loop.
  reflexivity.
Qed.

Lemma makedirs_usable s p :
  usable (disk s) p = true ->
  makedirs p s = (Ok tt, with_disk (with_dir p (disk s)) s).
Proof.
  unfold usable, makedirs, with_dir. intros H.
  destruct (bool_decide (p ∈ dirs (disk s))); [destruct s; reflexivity|].
  cbn [orb] in H. rewrite H. reflexivity.
Qed.

Lemma makedirs_unusable s p :
  usable (disk s) p = false ->
  exists e, makedirs p s = (Raise e, s).
Proof.
  unfold usable, makedirs. intros H.
  destruct (bool_decide (p ∈ dirs (disk s))); [discriminate|].
  cbn [orb] in H. rewrite H. eexists; reflexivity.
Qed.

Lemma with_dir_file p d : config_file (with_dir p d) = config_file d.
Proof. unfold with_dir. destruct (bool_decide _); reflexivity. Qed.

Lemma read_fresh f : ConfigParser.read ∅ (Some f) = f.
Proof. unfold ConfigParser.read. apply (right_id_L ∅ _). Qed.

Lemma stored_set_root c dd x key :
  c !! "general" = Some dd ->
  stored (<["general" := <["root_path" := x]> dd]> c) key =
    if String.eqb key "root_path" then Some x else stored c key.
Proof.
  intros Hd. unfold stored. rewrite lookup_insert_eq, Hd. cbn [mbind option_bind].
  destruct (String.eqb_spec key "root_path") as [->|Hne].
  - apply lookup_insert_eq.
  - apply lookup_insert_ne. congruence.
Qed.

Lemma fill_has_general c : is_Some (fill_defaults os c !! "general").
Proof. unfold fill_defaults. rewrite lookup_insert_eq. eauto. Qed.
End WithOS.

(** [load_config] of a fresh manager on a file, in the fragment of the
    parser that is modelled. *)
Lemma load_fills os d l f key :
  config_file d = Some f ->
  In key keys ->
  usable d (abspath os (getcwd os)) = true ->
  exists s',
    FTPConfigManager.__init__ os d l = (Ok tt, s')
    /\ config_file (disk s') = Some f
    /\ stored (config s') key =
         Some match stored f key with
              | Some v =>
                  if String.eqb key "root_path" && negb (usable d v)
                  then abspath os (getcwd os) else v
              | None => default_value os key
              end.
Proof.
  intros Hf Hkey Hcwd. unfold FTPConfigManager.__init__.
  rewrite (load_config_existing os _ f) by exact Hf.
  cbn [config]. rewrite read_fresh.
  set (c := fill_defaults os f).
  assert (Hst : forall k, In k keys ->
            stored c k = Some match stored f k with
                              | Some v => v | None => default_value os k end).
  { intros k Hk. unfold c. rewrite stored_fill.
    destruct (stored f k); [reflexivity | apply defaults_keys, Hk]. }
  assert (Hroot := Hst "root_path" ltac:(cbn; tauto)).
  set (root := match stored f "root_path" with
               | Some v => v | None => default_value os "root_path" end) in *.
  erewrite bind_ok by (unfold cp_query; cbn [config with_config];
                       rewrite (get_root_path os c root Hroot); reflexivity).
  unfold try_except.
  destruct (usable d root) eqn:Hu.
  - rewrite makedirs_usable by exact Hu. cbn [disk with_config with_disk config].
    eexists. split; [reflexivity|]. split; [cbn [disk with_config with_disk config log]; rewrite with_dir_file; exact Hf|].
    cbn [disk with_config with_disk config log].
    rewrite (Hst key Hkey). f_equal.
    destruct (stored f key) as [v|] eqn:Ev; [|reflexivity].
    destruct (String.eqb_spec key "root_path") as [->|_]; [|reflexivity].
    unfold root in Hu. rewrite Ev in Hu. rewrite Hu. reflexivity.
  - destruct (makedirs_unusable (with_config c {| config := ∅; disk := d; log := l |}) root Hu)
      as [e ->].
    destruct (fill_has_general os f) as [dd Hdd]. fold c in Hdd.
    unfold logging_error.
    erewrite bind_ok by reflexivity.
    erewrite bind_ok
      by (unfold cp_update, ConfigParser.set; cbn [config with_config];
          rewrite Hdd; reflexivity).
    rewrite makedirs_usable by exact Hcwd.
    cbn [disk with_config with_disk config ConfigParser.optionxform lower lower_char].
    eexists. split; [reflexivity|]. split; [cbn [disk with_config with_disk config log]; rewrite with_dir_file; exact Hf|].
    cbn [disk with_config with_disk config log].
    change (ConfigParser.optionxform "root_path") with "root_path".
    rewrite (stored_set_root c dd _ key Hdd).
    destruct (String.eqb_spec key "root_path") as [->|Hne].
    + f_equal. unfold root in Hu.
      destruct (stored f "root_path") as [v|]; [rewrite Hu; reflexivity|].
      change (default_value os "root_path") with (abspath os (getcwd os)) in Hu. congruence.
    + rewrite (Hst key Hkey). reflexivity.
Qed.

(** C6, as the code has it: on a file that parses, has no [DEFAULT]
    section and names no root directory with a percent sign in it, a
    fresh manager ends with every recognized key in its parser, the values
    of the file kept and the missing ones taken from the defaults; only a
    root directory that cannot be created is replaced by the working
    directory.  The file itself is left as it was. *)
Theorem load_fills_missing_keys os d l f key :
  config_file d = Some f ->
  f !! "DEFAULT" = None ->
  Text.no_percent (abspath os (getcwd os)) = true ->
  (forall v, stored f "root_path" = Some v -> Text.no_percent v = true) ->
  In key keys ->
  usable d (abspath os (getcwd os)) = true ->
  exists s',
    FTPConfigManager.__init__ os d l = (Ok tt, s')
    /\ config_file (disk s') = Some f
    /\ stored (config s') key =
         Some match stored f key with
              | Some v =>
                  if String.eqb key "root_path" && negb (usable d v)
                  then abspath os (getcwd os) else v
              | None => default_value os key
              end.
Proof. intros Hf _ _ _. apply load_fills, Hf. Qed.

Section Save.
Context (os : OS).

Lemma for_each_singleton {A} (x : A) (body : A -> M unit) :
  for_each [x] body = (body x >> ret tt).
Proof. reflexivity. Qed.

Lemma set_options section (options : list (string * value)) :
  forall s d,
    config s !! section = Some d ->
    for_each options (fun '(key, value) =>
        let value := if String.eqb key "root_path"
                     then PyStr (abspath os (str value)) else value in
        cp_update (fun c => ConfigParser.set c section key (str value))) s
    = (Ok tt,
       with_config
         (<[section := foldl (fun d '(k, v) => <[lower k := stored_text os k v]> d) d options]>
            (config s)) s).
Proof.
  induction options as [|[k v] options IH]; intros s d Hd.
  - cbn [for_each foldl]. unfold ret. rewrite insert_id by exact Hd.
    rewrite with_config_id. reflexivity.
  - cbn [for_each foldl].
    erewrite bind_ok
      by (unfold cp_update, ConfigParser.set, ConfigParser.optionxform;
          rewrite Hd; reflexivity).
    rewrite (IH _ (<[lower k := stored_text os k v]> d)) by (cbn; apply lookup_insert_eq).
    cbn [config with_config disk log]. rewrite insert_insert_eq. reflexivity.
Qed.



Lemma boolean_of_str_bool b : ConfigParser.boolean_of_str (str (PyBool b)) = Some b.
Proof. destruct b; reflexivity. Qed.


Lemma with_dir_writable p d : config_writable (with_dir p d) = config_writable d.
Proof. unfold with_dir. destruct (bool_decide _); reflexivity. Qed.

Lemma with_dir_creatable p d : creatable (with_dir p d) = creatable d.
Proof. unfold with_dir. destruct (bool_decide _); reflexivity. Qed.

Lemma with_dir_elem p d : usable d p = true -> p ∈ dirs (with_dir p d).
Proof.
  unfold with_dir, usable. intros _.
  destruct (bool_decide (p ∈ dirs d)) eqn:E.
  - apply bool_decide_eq_true in E. exact E.
  - cbn. set_solver.
Qed.




End Save.

End ConfigFacts.

(** ** Saving and loading: the claims *)

Module SaveFacts.
Import Py PyFacts FTPConfigManager Schema ConfigFacts.

Section WithOS.
Context (os : OS).

(** [save] never raises: whatever happens inside its [try] block, it
    returns a boolean. *)
Lemma save_returns settings s :
  exists b s', save os settings s = (Ok b, s').
Proof.
  unfold save, try_except.
  match goal with |- context [match ?m s with _ => _ end] => destruct (m s) as [[b|e] s1] end.
  - eauto.
  - unfold bind, logging_error, ret. eauto.
Qed.

Lemma cp_update_disk f s r s' :
  cp_update f s = (r, s') -> disk s' = disk s.
Proof.
  unfold cp_update. destruct (f (config s)); intros [= _ <-]; reflexivity.
Qed.

Lemma for_each_disk {A} (body : A -> M unit) (l : list A) :
  (forall x s r s', body x s = (r, s') -> disk s' = disk s) ->
  forall s r s', for_each l body s = (r, s') -> disk s' = disk s.
Proof.
  intros Hb. induction l as [|x l IH]; intros s r s'; cbn [for_each].
  - intros [= _ <-]. reflexivity.
  - unfold bind. destruct (body x s) as [[[]|e] s1] eqn:E.
    + intros H. rewrite (IH _ _ _ H). eapply Hb, E.
    + intros [= _ <-]. eapply Hb, E.
Qed.

Lemma makedirs_file p s r s' :
  makedirs p s = (r, s') -> config_file (disk s') = config_file (disk s).
Proof.
  unfold makedirs.
  destruct (bool_decide _); [intros [= _ <-]; reflexivity|].
  destruct (creatable _ _); intros [= _ <-]; reflexivity.
Qed.

(** A [save] that returns [False] has left the file as it was. *)
Lemma save_false_keeps_file settings s s' :
  save os settings s = (Ok false, s') ->
  config_file (disk s') = config_file (disk s).
Proof.
  unfold save, try_except, bind.
  destruct (for_each settings _ s) as [[[]|e] s1] eqn:E1.
  2:{ unfold logging_error, ret. intros [= <-]. cbn [disk].
      f_equal. eapply for_each_disk, E1.
      intros [section options] s0 r0 s0'. apply for_each_disk.
      intros [key value] s2 r2 s2'. apply cp_update_disk. }
  assert (H1 : disk s1 = disk s).
  { eapply for_each_disk, E1.
    intros [section options] s0 r0 s0'. apply for_each_disk.
    intros [key value] s2 r2 s2'. apply cp_update_disk. }
  unfold cp_query at 1.
  destruct (ConfigParser.getint (config s1) "general" "port") as [port|e].
  2:{ unfold logging_error, ret. intros [= <-]. cbn [disk]. congruence. }
  destruct (negb _); cbn [when]; unfold raise, ret at 1.
  { unfold logging_error, ret. intros [= <-]. cbn [disk]. congruence. }
  unfold cp_query.
  destruct (ConfigParser.get (config s1) "general" "root_path") as [root|e].
  2:{ unfold logging_error, ret. intros [= <-]. cbn [disk]. congruence. }
  unfold isdir.
  destruct (when _ _ s1) as [[[]|e] s2] eqn:E2.
  2:{ unfold logging_error, ret. intros [= <-]. cbn [disk].
      destruct (negb _); cbn [when] in E2.
      - apply makedirs_file in E2. congruence.
      - unfold ret in E2. congruence. }
  unfold write_config. destruct (config_writable (disk s2)).
  - unfold ret. intros [=].
  - unfold logging_error, ret. intros [= <-]. cbn [disk].
    destruct (negb _); cbn [when] in E2.
    + apply makedirs_file in E2. congruence.
    + unfold ret in E2. congruence.
Qed.
End WithOS.

(** C2 at two failing inputs: a manager made on a fresh disk is asked to
    save port 70000, and to save a root directory that cannot be created.
    Each time [save] returns [False] and the file is as before, but the
    typed getter answers the rejected value afterwards: it has stayed in
    the parser. *)
Theorem rejected_port_stays_in_config :
  let before := Sample.manager in
  let r := save Sample.os [("general", [("port", PyInt 70000)])] before in
  let r' := save Sample.os [("general", [("root_path", PyStr "/root/secret")])] before in
  (get Sample.os (config before) "general" "port" = PyInt 21
   /\ fst r = Ok false
   /\ config_file (disk (snd r)) = config_file (disk before)
   /\ (config_file (disk (snd r)) ≫= fun f => stored f "port") = Some "21"
   /\ get Sample.os (config (snd r)) "general" "port" = PyInt 70000)
  /\ (get Sample.os (config before) "general" "root_path" = PyStr "/home/ftp"
      /\ fst r' = Ok false
      /\ config_file (disk (snd r')) = config_file (disk before)
      /\ (config_file (disk (snd r')) ≫= fun f => stored f "root_path") = Some "/home/ftp"
      /\ get Sample.os (config (snd r')) "general" "root_path" = PyStr "/root/secret").
Proof.
  cbv zeta. split.
  - conjuncts; [| |decide_by_evaluation| |]; vm_compute; reflexivity.
  - conjuncts; [| |decide_by_evaluation| |]; vm_compute; reflexivity.
Qed.


(** C6 refuted as stated: the file lacks [timeout] before [load_config]
    and lacks it afterwards, although the parser has it. *)
Lemma load_leaves_file_incomplete :
  let r := FTPConfigManager.__init__ Sample.os Sample.disk_partial [] in
  fst r = Ok tt
  /\ stored (config (snd r)) "timeout" = Some "300"
  /\ config_file (disk (snd r)) = Some Sample.partial_file
  /\ ConfigParser.has_option Sample.partial_file "general" "timeout" = false.
Proof.
  cbv zeta. conjuncts; [| |decide_by_evaluation|]; vm_compute; reflexivity.
Qed.

Lemma load_fills_missing_keys_witness :
  exists s',
    FTPConfigManager.__init__ Sample.os Sample.disk_partial [] = (Ok tt, s')
    /\ config_file (disk s') = Some Sample.partial_file
    /\ stored (config s') "timeout" =
         Some match stored Sample.partial_file "timeout" with
              | Some v =>
                  if String.eqb "timeout" "root_path" && negb (usable Sample.disk_partial v)
                  then abspath Sample.os (getcwd Sample.os) else v
              | None => default_value Sample.os "timeout"
              end.
Proof.
  apply (load_fills_missing_keys Sample.os Sample.disk_partial [] Sample.partial_file "timeout").
  - reflexivity.
  - vm_compute. reflexivity.
  - reflexivity.
  - intros v H. vm_compute in H. discriminate.
  - cbn. tauto.
  - vm_compute. reflexivity.
Defined.

(** C8 at a failing input: the file stores [port = abc] and
    [save_log = maybe].  The getter falls back to the defaults as the
    strings of [DEFAULT_CONFIG], not as an integer and a boolean. *)
Theorem unparsable_values_give_untyped_defaults :
  let c := config (snd (FTPConfigManager.__init__ Sample.os Sample.disk_edited [])) in
  stored c "port" = Some "abc"
  /\ get Sample.os c "general" "port" = PyStr "21"
  /\ get Sample.os c "general" "port" <> PyInt 21
  /\ stored c "save_log" = Some "maybe"
  /\ get Sample.os c "general" "save_log" = PyStr "False"
  /\ get Sample.os c "general" "save_log" <> PyBool false.
Proof. evaluate. Qed.
End SaveFacts.

(** ** The codec hooks of the handler *)

Module CodecFacts.
Import Py Codecs WindowsFTPHandler.

(** Under the policy [replace] decoding always yields text. *)
Lemma decode_loop_replace c bytes : forall skip,
  exists t, decode_loop c "replace" skip bytes = Ok t.
Proof.
  induction bytes as [|b rest IH]; intros skip; cbn [decode_loop]; [eauto|].
  destruct skip as [|k]; [|apply IH].
  destruct (decode_head c b rest) as [cp extra|extra].
  - destruct (IH extra) as [t ->]. eauto.
  - cbn [String.eqb Ascii.eqb Bool.eqb]. destruct (IH extra) as [t ->]. eauto.
Qed.

Lemma encode_loop_replace c s :
  is_Some (encode_char c QUESTION_MARK) ->
  exists bs, encode_loop c "replace" s = Ok bs.
Proof.
  intros [q Hq]. induction s as [|cp rest [bs IH]]; cbn [encode_loop]; [eauto|].
  rewrite IH, Hq. cbn [String.eqb Ascii.eqb Bool.eqb].
  destruct (encode_char c cp); eauto.
Qed.

Lemma bytes_decode_replace r bytes encoding :
  bytes_decode r bytes encoding "replace" <> Raise UnicodeDecodeError.
Proof.
  unfold bytes_decode. destruct (lookup r encoding) as [c|]; [|discriminate].
  destruct (decode_loop_replace c bytes 0) as [t ->]. discriminate.
Qed.

(** C10: with the policy [replace] the first [bytes.decode] of [decode]
    never raises [UnicodeDecodeError]; the [except] branch is not taken and
    [decode] returns what decoding in the handler's encoding returns. *)
Theorem decode_fallback_unreachable r self bytes :
  unicode_errors self = "replace" ->
  bytes_decode r bytes (encoding self) (unicode_errors self) <> Raise UnicodeDecodeError
  /\ decode r self bytes = bytes_decode r bytes (encoding self) "replace"
  /\ forall c, lookup r (encoding self) = Some c ->
       decode r self bytes = decode_loop c "replace" 0 bytes
       /\ exists t, decode r self bytes = Ok t.
Proof.
  intros Hp. unfold decode. rewrite Hp.
  pose proof (bytes_decode_replace r bytes (encoding self)) as Hn.
  split; [exact Hn|].
  assert (He : match bytes_decode r bytes (encoding self) "replace" with
               | Raise UnicodeDecodeError => bytes_decode r bytes "latin1" "replace"
               | res => res
               end = bytes_decode r bytes (encoding self) "replace").
  { destruct (bytes_decode r bytes (encoding self) "replace") as [t|[]]; congruence. }
  split; [exact He|].
  intros c Hc. rewrite He. unfold bytes_decode. rewrite Hc.
  split; [reflexivity | apply decode_loop_replace].
Qed.

Lemma decode_fallback_unreachable_witness :
  bytes_decode Sample.codecs [Byte.x41; Byte.xff] (encoding (__init__ FTPHandler))
     (unicode_errors (__init__ FTPHandler)) <> Raise UnicodeDecodeError
  /\ decode Sample.codecs (__init__ FTPHandler) [Byte.x41; Byte.xff]
     = bytes_decode Sample.codecs [Byte.x41; Byte.xff] (encoding (__init__ FTPHandler)) "replace"
  /\ forall c, lookup Sample.codecs (encoding (__init__ FTPHandler)) = Some c ->
       decode Sample.codecs (__init__ FTPHandler) [Byte.x41; Byte.xff]
       = decode_loop c "replace" 0 [Byte.x41; Byte.xff]
       /\ exists t, decode Sample.codecs (__init__ FTPHandler) [Byte.x41; Byte.xff] = Ok t.
Proof.
  apply (decode_fallback_unreachable Sample.codecs (__init__ FTPHandler) [Byte.x41; Byte.xff]).
  reflexivity.
Defined.

(** C7: a handler object decodes every byte sequence to some text and
    encodes every text to some byte sequence; neither method raises. *)
Theorem codec_hooks_never_raise r cls :
  (forall bytes, exists t, decode r (__init__ cls) bytes = Ok t)
  /\ (forall s, exists bs, encode r (__init__ cls) s = Ok bs).
Proof.
  split.
  - intros bytes. unfold decode, bytes_decode. cbn [encoding unicode_errors __init__].
    change (lookup r "gb18030") with (Some (gb18030 r)).
    destruct (decode_loop_replace (gb18030 r) bytes 0) as [t ->]. eauto.
  - intros s. unfold encode, str_encode. cbn [encoding unicode_errors __init__].
    change (lookup r "gb18030") with (Some (gb18030 r)).
    destruct (encode_loop_replace (gb18030 r) s) as [bs ->]; [|eauto].
    eexists. reflexivity.
Qed.
End CodecFacts.

(** ** The supervisor *)

Module SupervisorFacts.
Import Py FTPMainWindow Lifecycle.

Lemma same_workers_refl w : same_workers w w.
Proof. split; reflexivity. Qed.

Lemma same_workers_trans w1 w2 w3 :
  same_workers w1 w2 -> same_workers w2 w3 -> same_workers w1 w3.
Proof. intros [H1 H2] [H3 H4]. split; congruence. Qed.

Lemma logging_workers l w : same_workers w (logging l w).
Proof. split; reflexivity. Qed.

Lemma update_ui_workers b w : same_workers w (_update_ui_state b w).
Proof. split; reflexivity. Qed.

Lemma emit_workers sig w : same_workers w (emit sig w).
Proof. destruct sig; split; reflexivity. Qed.

Lemma running_is_current_same w w' :
  same_workers w w' -> running_is_current w -> running_is_current w'.
Proof. intros [Ht Hs] H i th. rewrite Ht, Hs. apply H. Qed.

(** Use of the invariant. *)
Lemma current_single w : running_is_current w -> single_worker w.
Proof.
  intros H i j ti tj Hi Hj Ri Rj.
  pose proof (H i ti Hi Ri) as E1. pose proof (H j tj Hj Rj) as E2. congruence.
Qed.

Lemma filter_none {A} (P : A -> Prop) `{forall x, Decision (P x)} (l : list A) :
  Forall (fun x => ~ P x) l -> filter P l = [].
Proof.
  induction 1 as [|x l Hx _ IH]; [reflexivity|].
  rewrite filter_cons. destruct (decide (P x)); [contradiction | exact IH].
Qed.

Lemma filter_at_most_one {A} (P : A -> Prop) `{forall x, Decision (P x)} (l : list A) :
  (forall i j x y, l !! i = Some x -> l !! j = Some y -> P x -> P y -> i = j) ->
  (length (filter P l) <= 1)%nat.
Proof.
  induction l as [|a l IH]; intros Huniq; [cbn; lia|].
  rewrite filter_cons. destruct (decide (P a)) as [Pa|nPa].
  - rewrite filter_none; [cbn; lia|].
    apply Forall_lookup. intros j y Hj Py.
    specialize (Huniq 0%nat (S j) a y eq_refl Hj Pa Py). discriminate.
  - apply IH. intros i j x y Hi Hj Px Py.
    specialize (Huniq (S i) (S j) x y Hi Hj Px Py). congruence.
Qed.

Lemma single_active w : single_worker w -> (length (active w) <= 1)%nat.
Proof. intros H. unfold active. apply filter_at_most_one. exact H. Qed.

(** A step of [run] starts no thread. *)
Lemma run_running ev th th' l :
  FTPServerThread.run ev th = Some (th', l) ->
  FTPServerThread.isRunning th' = true -> FTPServerThread.isRunning th = true.
Proof.
  unfold FTPServerThread.run, FTPServerThread.isRunning.
  destruct (FTPServerThread.at_pc th); destruct ev; try discriminate; reflexivity.
Qed.

Lemma stop_running o th :
  FTPServerThread.isRunning (FTPServerThread.stop o th).1 = FTPServerThread.isRunning th.
Proof.
  unfold FTPServerThread.stop.
  destruct (FTPServerThread.server th); [|reflexivity].
  destruct (FTPServerThread._running th); [|reflexivity].
  destruct o; reflexivity.
Qed.

Lemma replace_thread_current w tid th th' :
  threads w !! tid = Some th ->
  (FTPServerThread.isRunning th' = true -> FTPServerThread.isRunning th = true) ->
  running_is_current w ->
  running_is_current (with_threads (<[tid := th']> (threads w)) w).
Proof.
  intros Hth Hrun Hinv i thi Hi Ri. cbn [threads server_thread with_threads] in *.
  apply list_lookup_insert_Some in Hi as [(-> & <- & _)|(Hne & Hi)].
  - apply (Hinv _ th Hth). apply Hrun, Ri.
  - apply (Hinv _ thi Hi Ri).
Qed.

Section WithOS.
Context (os : OS).

Lemma worker_step_current tid ev w :
  running_is_current w -> running_is_current (worker_step tid ev w).
Proof.
  intros Hinv. unfold worker_step.
  destruct (threads w !! tid) as [th|] eqn:Hth; [|exact Hinv].
  destruct (FTPServerThread.run ev th) as [[th' l]|] eqn:Hrun; [|exact Hinv].
  eapply running_is_current_same; [apply logging_workers|].
  eapply replace_thread_current; eauto using run_running.
Qed.

Lemma worker_steps_current evs : forall w,
  running_is_current w -> running_is_current (worker_steps evs w).
Proof.
  unfold worker_steps. induction evs as [|[tid ev] evs IH]; intros w Hinv; [exact Hinv|].
  cbn [fold_left]. apply IH, worker_step_current, Hinv.
Qed.

Lemma stop_server_current o w :
  running_is_current w -> running_is_current (_stop_server o w).
Proof.
  intros Hinv. unfold _stop_server.
  destruct (server_thread w) as [tid|] eqn:Hs; [|exact Hinv].
  unfold current. rewrite Hs.
  destruct (threads w !! tid) as [th|] eqn:Hth; [|exact Hinv].
  pose proof (stop_running (close_all_raises o) th) as Hr.
  destruct (FTPServerThread.stop (close_all_raises o) th) as [th' l]. cbn [fst] in Hr.
  eapply running_is_current_same; [apply logging_workers|].
  eapply running_is_current_same; [apply emit_workers|].
  eapply running_is_current_same; [apply emit_workers|].
  apply worker_steps_current.
  eapply running_is_current_same; [apply logging_workers|].
  eapply replace_thread_current; eauto; congruence.
Qed.

(** [_start_server] either leaves the workers alone or adds one, started,
    and makes it the current one. *)
Lemma start_server_workers w :
  same_workers w (_start_server os w)
  \/ exists th,
       threads (_start_server os w) = (threads w ++ [th])%list
       /\ server_thread (_start_server os w) = Some (length (threads w)).
Proof.
  unfold _start_server. cbv zeta.
  destruct (DummyAuthorizer.add_anonymous _ _ _ _) as [a|e].
  2:{ left. unfold start_failed.
      eapply same_workers_trans; [|apply update_ui_workers].
      eapply same_workers_trans; [|apply emit_workers]. apply logging_workers. }
  destruct (config_get os (with_handler _ w) "encoding") eqn:E;
    try (left; unfold start_failed;
         eapply same_workers_trans; [|apply update_ui_workers];
         eapply same_workers_trans; [|apply emit_workers];
         eapply same_workers_trans; [|apply logging_workers];
         split; reflexivity).
  right. eexists. split; reflexivity.
Qed.

Lemma idle_no_running w :
  running_is_current w -> server_running w = false ->
  forall i th, threads w !! i = Some th -> FTPServerThread.isRunning th = false.
Proof.
  intros Hinv Hidle i th Hi.
  destruct (FTPServerThread.isRunning th) eqn:R; [|reflexivity].
  pose proof (Hinv i th Hi R) as Hc.
  unfold server_running, current in Hidle. rewrite Hc, Hi in Hidle. congruence.
Qed.

Lemma start_server_current w :
  running_is_current w -> server_running w = false ->
  running_is_current (_start_server os w).
Proof.
  intros Hinv Hidle.
  destruct (start_server_workers w) as [Hsame|(th & Ht & Hs)].
  - eapply running_is_current_same; eauto.
  - intros i thi Hi Ri. rewrite Ht in Hi. rewrite Hs.
    apply lookup_app_Some in Hi as [Hi|(Hlen & Hi)].
    + rewrite (idle_no_running w Hinv Hidle i thi Hi) in Ri. discriminate.
    + destruct (i - length (threads w))%nat eqn:E; [|destruct n; discriminate].
      f_equal. lia.
Qed.

(** Preservation. *)
Lemma step_current w r :
  running_is_current w -> running_is_current (step os w r).
Proof.
  intros Hinv. destruct r as [o|o|tid ev]; cbn [step].
  - unfold _toggle_server. destruct (server_running w) eqn:R.
    + apply stop_server_current, Hinv.
    + apply start_server_current; assumption.
  - apply stop_server_current, Hinv.
  - apply worker_step_current, Hinv.
Qed.

Lemma steps_current rs : forall w,
  running_is_current w -> running_is_current (steps os rs w).
Proof.
  unfold steps. induction rs as [|r rs IH]; intros w Hinv; [exact Hinv|].
  cbn [fold_left]. apply IH, step_current, Hinv.
Qed.

(** Establishment. *)
Lemma init_current d w0 : __init__ os d = Ok w0 -> running_is_current w0.
Proof.
  unfold __init__. destruct (FTPConfigManager.__init__ os d []) as [[[]|e] s]; [|discriminate].
  intros [= <-] i th Hi. cbn in Hi. discriminate.
Qed.
End WithOS.

(** A step of a worker leaves [emitted], the button and the status label
    alone: what the worker meets it only logs. *)
Lemma worker_step_view tid ev w : same_view w (worker_step tid ev w).
Proof.
  unfold worker_step, same_view.
  destruct (threads w !! tid) as [th|]; [|tauto].
  destruct (FTPServerThread.run ev th) as [[th' l]|]; [|tauto].
  cbn [logging with_threads emitted ui_running server_thread threads].
  rewrite length_insert. tauto.
Qed.

Lemma worker_steps_view evs : forall w, same_view w (worker_steps evs w).
Proof.
  unfold worker_steps. induction evs as [|[tid ev] evs IH]; intros w; [unfold same_view; tauto|].
  cbn [fold_left].
  destruct (IH (worker_step tid ev w)) as (H1 & H2 & H3 & H4).
  destruct (worker_step_view tid ev w) as (G1 & G2 & G3 & G4).
  unfold same_view. repeat split; congruence.
Qed.

(** [_stop_server] on a window that holds a worker. *)
Lemma stop_server_view o w tid th :
  server_thread w = Some tid ->
  threads w !! tid = Some th ->
  let w' := _stop_server o w in
  emitted w' = (emitted w ++ [server_stopped; status_update "服务器已停止"])%list
  /\ ui_running w' = false
  /\ tray_running w' = server_running w'
  /\ server_thread w' = Some tid
  /\ length (threads w') = length (threads w).
Proof.
  intros Hs Hth. cbv zeta. unfold _stop_server, current. rewrite Hs, Hth.
  destruct (FTPServerThread.stop (close_all_raises o) th) as [th' l].
  match goal with
  | |- context [worker_steps ?evs ?w0] =>
      destruct (worker_steps_view evs w0) as (He & Hu & Hc & Hl);
      set (w1 := worker_steps evs w0) in *
  end.
  cbn [logging with_threads emitted ui_running server_thread threads] in He, Hu, Hc, Hl.
  rewrite length_insert in Hl.
  cbn [emit logging _update_ui_state _update_tray_menu emitted ui_running tray_running
       server_thread threads].
  rewrite He, Hc, Hl, Hs, <- app_assoc. repeat split.
Qed.

(** C5: a stop request whose worker has not ended when the bounded wait
    is over.  [_stop_server] does not look at what [wait] answers: it emits
    [server_stopped] and no error, shows the window as stopped and keeps the
    worker, which still runs and which the tray menu, asking the thread
    itself, shows as running. *)
Theorem unfinished_stop_is_reported_as_stopped o w tid th :
  server_thread w = Some tid ->
  threads w !! tid = Some th ->
  let w' := _stop_server o w in
  server_running w' = true ->
  existsb is_error (emitted w') = existsb is_error (emitted w)
  /\ (exists more, emitted w' = (emitted w ++ more)%list /\ In server_stopped more)
  /\ ui_running w' = false
  /\ tray_running w' = true
  /\ server_thread w' = Some tid
  /\ exists th', threads w' !! tid = Some th' /\ FTPServerThread.isRunning th' = true.
Proof.
  intros Hs Hth. cbv zeta. intros Hrun.
  destruct (stop_server_view o w tid th Hs Hth) as (He & Hu & Ht & Hc & Hl).
  rewrite Hrun in Ht. conjuncts; try assumption.
  - rewrite He, existsb_app. cbn. apply orb_false_r.
  - eexists. split; [exact He | left; reflexivity].
  - unfold server_running, current in Hrun. rewrite Hc in Hrun.
    destruct (threads (_stop_server o w) !! tid) as [th'|]; [eauto | discriminate].
Qed.

Lemma unfinished_stop_is_reported_as_stopped_witness :
  let w := Sample.serving in
  let w' := _stop_server Sample.timed_out w in
  existsb is_error (emitted w') = existsb is_error (emitted w)
  /\ (exists more, emitted w' = (emitted w ++ more)%list /\ In server_stopped more)
  /\ ui_running w' = false
  /\ tray_running w' = true
  /\ server_thread w' = Some 0%nat
  /\ exists th', threads w' !! 0%nat = Some th' /\ FTPServerThread.isRunning th' = true.
Proof.
  apply (unfinished_stop_is_reported_as_stopped Sample.timed_out Sample.serving 0%nat
           {| FTPServerThread.host := "0.0.0.0";
              FTPServerThread.port := PyInt 21;
              FTPServerThread.max_connections := PyInt 50;
              FTPServerThread.server :=
                Some {| FTPServerThread.address := ("0.0.0.0", PyInt 21);
                        FTPServerThread.max_cons := PyInt 50;
                        FTPServerThread.closed := false |};
              FTPServerThread._running := true;
              FTPServerThread.at_pc := FTPServerThread.Serving |}).
  - vm_compute. reflexivity.
  - vm_compute. reflexivity.
  - vm_compute. reflexivity.
Defined.

Lemma stop_server_handles o w :
  server_thread (_stop_server o w) = server_thread w
  /\ length (threads (_stop_server o w)) = length (threads w).
Proof.
  destruct (server_thread w) as [tid|] eqn:Hs.
  - destruct (threads w !! tid) as [th|] eqn:Hth.
    + destruct (stop_server_view o w tid th Hs Hth) as (_ & _ & _ & H1 & H2).
      split; congruence.
    + unfold _stop_server, current. rewrite Hs, Hth. tauto.
  - unfold _stop_server. rewrite Hs. tauto.
Qed.

Lemma window_eta (w : t) :
  logging [] (with_threads (threads w) w) = w.
Proof.
  destruct w as [[c dk lg] h ts st u tr em]. unfold logging, with_threads. cbn.
  rewrite app_nil_r. reflexivity.
Qed.

Lemma emits_threads w :
  threads (logging [(INFO, "服务器已停止")]
             (emit (status_update "服务器已停止") (emit server_stopped w)))
  = threads w.
Proof. reflexivity. Qed.

(** A stop request while the worker is still binding: [stop] finds no
    server object, so the workers do what they would have done anyway. *)
Lemma stop_server_binding o w tid th :
  server_thread w = Some tid ->
  threads w !! tid = Some th ->
  FTPServerThread.server th = None ->
  threads (_stop_server o w) = threads (worker_steps (during_wait o) w).
Proof.
  intros Hs Hth Hsrv. unfold _stop_server, current. rewrite Hs, Hth.
  unfold FTPServerThread.stop. rewrite Hsrv.
  rewrite list_insert_id by exact Hth. rewrite window_eta. apply emits_threads.
Qed.

Lemma run_closing ev th th' l :
  Progress.closing th -> FTPServerThread.run ev th = Some (th', l) -> Progress.closing th'.
Proof.
  intros (Hpc & Hr & srv & Hsrv & Hc). unfold FTPServerThread.run.
  destruct Hpc as [Hpc|Hpc]; rewrite Hpc; destruct ev; try discriminate.
  - rewrite Hsrv, Hc. intros [= <- _].
    split; [right; reflexivity|]. split; [reflexivity | exists srv; tauto].
  - intros [= <- _].
    split; [right; reflexivity|]. split; [reflexivity | exists srv; tauto].
Qed.

Lemma worker_step_closing tid' ev w tid th :
  threads w !! tid = Some th -> Progress.closing th ->
  exists th', threads (worker_step tid' ev w) !! tid = Some th' /\ Progress.closing th'.
Proof.
  intros Hth Hcl. unfold worker_step.
  destruct (threads w !! tid') as [th0|] eqn:H0; [|eauto].
  destruct (FTPServerThread.run ev th0) as [[th1 l]|] eqn:Hrun; [|eauto].
  cbn [logging with_threads threads].
  destruct (decide (tid' = tid)) as [->|Hne].
  - rewrite Hth in H0. injection H0 as <-. exists th1. split.
    + apply list_lookup_insert_eq. apply lookup_lt_Some in Hth. exact Hth.
    + eapply run_closing; eassumption.
  - exists th. rewrite list_lookup_insert_ne by exact Hne. tauto.
Qed.

Lemma worker_steps_closing evs tid : forall w th,
  threads w !! tid = Some th -> Progress.closing th ->
  exists th', threads (worker_steps evs w) !! tid = Some th' /\ Progress.closing th'.
Proof.
  unfold worker_steps. induction evs as [|[tid' ev] evs IH]; intros w th Hth Hcl; [eauto|].
  cbn [fold_left].
  destruct (worker_step_closing tid' ev w tid th Hth Hcl) as (th1 & H1 & C1).
  exact (IH _ th1 H1 C1).
Qed.

(** A stop request while the worker serves, when [close_all] does not
    raise: the server of the worker is closed, whatever the workers do
    within the wait. *)
Lemma stop_server_serving o w tid th srv :
  server_thread w = Some tid ->
  threads w !! tid = Some th ->
  FTPServerThread.at_pc th = FTPServerThread.Serving ->
  FTPServerThread.server th = Some srv ->
  FTPServerThread._running th = true ->
  close_all_raises o = None ->
  exists th', threads (_stop_server o w) !! tid = Some th' /\ Progress.closing th'.
Proof.
  intros Hs Hth Hpc Hsrv Hr Ho. unfold _stop_server, current. rewrite Hs, Hth.
  unfold FTPServerThread.stop. rewrite Hsrv, Hr, Ho.
  rewrite emits_threads.
  eapply worker_steps_closing.
  - cbn [logging with_threads threads]. apply list_lookup_insert_eq.
    apply lookup_lt_Some in Hth. exact Hth.
  - split; [left; exact Hpc|]. split; [reflexivity|]. eexists. split; reflexivity.
Qed.

(** C4, as the code has it: whatever requests and worker steps follow the
    construction of the window, at most one worker runs.  A request that
    arrives while the worker runs is handled as a stop request: it makes
    no second worker, reports the server as stopped and leaves at most
    one worker running.  It is no no-op for a worker that serves, whose
    server it closes unless [close_all] raises; a worker that is still
    binding it does not reach. *)
Theorem one_worker_at_a_time os d w0 rs :
  __init__ os d = Ok w0 ->
  let w := steps os rs w0 in
  (length (active w) <= 1)%nat
  /\ single_worker w
  /\ forall o, server_running w = true ->
       let w' := _toggle_server os o w in
       length (threads w') = length (threads w)
       /\ server_thread w' = server_thread w
       /\ ui_running w' = false
       /\ (exists more, emitted w' = (emitted w ++ more)%list /\ In server_stopped more)
       /\ (length (active w') <= 1)%nat
       /\ (forall tid th,
             server_thread w = Some tid -> threads w !! tid = Some th ->
             FTPServerThread.server th = None ->
             threads w' = threads (worker_steps (during_wait o) w))
       /\ (forall tid th srv,
             server_thread w = Some tid -> threads w !! tid = Some th ->
             FTPServerThread.at_pc th = FTPServerThread.Serving ->
             FTPServerThread.server th = Some srv ->
             FTPServerThread._running th = true ->
             close_all_raises o = None ->
             exists th', threads w' !! tid = Some th' /\ Progress.closing th').
Proof.
  intros Hinit. cbv zeta.
  assert (Hinv : running_is_current (steps os rs w0))
    by (apply steps_current, (init_current os d), Hinit).
  split; [apply single_active, current_single, Hinv|].
  split; [apply current_single, Hinv|].
  intros o Hrun.
  assert (Hinv' : running_is_current (_toggle_server os o (steps os rs w0)))
    by (apply (step_current os _ (Toggle o)), Hinv).
  unfold _toggle_server in *. rewrite Hrun in *.
  set (w := steps os rs w0) in *.
  assert (Hcur : exists tid th, server_thread w = Some tid /\ threads w !! tid = Some th).
  { unfold server_running, current in Hrun.
    destruct (server_thread w) as [tid|]; [|discriminate].
    destruct (threads w !! tid) as [th|] eqn:E; [eauto | discriminate]. }
  destruct Hcur as (tid0 & th0 & Hs0 & Hth0).
  destruct (stop_server_view o w tid0 th0 Hs0 Hth0) as (He & Hu & _ & Hc & Hl).
  conjuncts.
  - exact Hl.
  - congruence.
  - exact Hu.
  - eexists. split; [exact He | left; reflexivity].
  - apply single_active, current_single, Hinv'.
  - intros tid th. apply stop_server_binding.
  - intros tid th srv. apply stop_server_serving.
Qed.

Lemma one_worker_at_a_time_witness :
  let w := steps Sample.os
             [Toggle Sample.timed_out; Worker 0 FTPServerThread.Bound;
              Toggle (Sample.joined 0); Toggle Sample.timed_out] Sample.window in
  (length (active w) <= 1)%nat
  /\ single_worker w
  /\ forall o, server_running w = true ->
       let w' := _toggle_server Sample.os o w in
       length (threads w') = length (threads w)
       /\ server_thread w' = server_thread w
       /\ ui_running w' = false
       /\ (exists more, emitted w' = (emitted w ++ more)%list /\ In server_stopped more)
       /\ (length (active w') <= 1)%nat
       /\ (forall tid th,
             server_thread w = Some tid -> threads w !! tid = Some th ->
             FTPServerThread.server th = None ->
             threads w' = threads (worker_steps (during_wait o) w))
       /\ (forall tid th srv,
             server_thread w = Some tid -> threads w !! tid = Some th ->
             FTPServerThread.at_pc th = FTPServerThread.Serving ->
             FTPServerThread.server th = Some srv ->
             FTPServerThread._running th = true ->
             close_all_raises o = None ->
             exists th', threads w' !! tid = Some th' /\ Progress.closing th').
Proof.
  apply (one_worker_at_a_time Sample.os Sample.disk
           (Sample.window_on Sample.disk)
           [Toggle Sample.timed_out; Worker 0 FTPServerThread.Bound;
            Toggle (Sample.joined 0); Toggle Sample.timed_out]).
  vm_compute. reflexivity.
Defined.

(** C4 refuted as stated: a request that arrives while the worker serves
    is not a no-op, it stops the server; and [_start_server] itself, were it
    called while the worker serves, would make a second worker next to the
    first. *)
Lemma second_start_is_not_a_noop :
  let w := _toggle_server Sample.os (Sample.joined 0) Sample.serving in
  server_running Sample.serving = true
  /\ w <> Sample.serving
  /\ server_running w = false
  /\ active w = []
  /\ emitted w = (emitted Sample.serving ++ [server_stopped; status_update "服务器已停止"])%list
  /\ length (active (_start_server Sample.os Sample.serving)) = 2%nat.
Proof.
  cbv zeta. conjuncts; try (vm_compute; reflexivity).
  intros H. apply (f_equal ui_running) in H. vm_compute in H. discriminate.
Qed.

(** C1 at two failing inputs: after a start request the worker cannot bind
    port 21, or it binds and [serve_forever] raises later.  Each time the
    worker logs the error and ends; no [error_occurred] is emitted and the
    window still shows the server as running although no worker runs. *)
Theorem worker_failure_is_only_logged :
  let busy := OSError "[Errno 98] Address already in use" in
  let w := steps Sample.os
             [Toggle Sample.timed_out; Worker 0 (FTPServerThread.BindError busy)]
             Sample.window in
  let broken := OSError "[Errno 24] Too many open files" in
  let w' := steps Sample.os
              [Toggle Sample.timed_out; Worker 0 FTPServerThread.Bound;
               Worker 0 (FTPServerThread.ServeError broken)]
              Sample.window in
  (emitted w = [server_started; status_update "服务器已在端口 21 启动"]
   /\ existsb is_error (emitted w) = false
   /\ ui_running w = true
   /\ server_running w = false
   /\ FTPConfigManager.log (cfg w) =
        [(INFO, "服务器已在端口 21 启动");
         (ERROR, "服务器错误: [Errno 98] Address already in use")])
  /\ (emitted w' = [server_started; status_update "服务器已在端口 21 启动"]
      /\ existsb is_error (emitted w') = false
      /\ ui_running w' = true
      /\ server_running w' = false
      /\ FTPConfigManager.log (cfg w') =
           [(INFO, "服务器已在端口 21 启动");
            (ERROR, "服务器错误: [Errno 24] Too many open files")]).
Proof. cbv zeta. split; evaluate. Qed.

(** What [_start_server] assigns to the class when the root directory
    exists: the anonymous user on that directory with the fixed
    permissions, and the configured timeout and encoding. *)
Lemma start_server_class os w :
  let root := str (config_get os w "root_path") in
  root ∈ dirs (FTPConfigManager.disk (cfg w)) ->
  WindowsFTPHandler.cls_authorizer (handler (_start_server os w))
    = Some [("anonymous", {| DummyAuthorizer.home := root;
                             DummyAuthorizer.perm := "elradfmwM" |})]
  /\ WindowsFTPHandler.cls_timeout (handler (_start_server os w)) = config_get os w "timeout"
  /\ WindowsFTPHandler.cls_encoding (handler (_start_server os w)) = config_get os w "encoding".
Proof.
  cbv zeta. intros Hdir. unfold _start_server, DummyAuthorizer.add_anonymous. cbv zeta.
  rewrite bool_decide_eq_true_2 by exact Hdir.
  change (config_get os (with_handler ?h w) ?k) with (config_get os w k).
  destruct (config_get os w "encoding"); repeat split.
Qed.

(** C9 at a failing input: the file configures port 2121 and UTF-8, and
    the window is built on it (the settings tab takes the values, the
    root logger is set up).  The start request assigns the configured
    encoding to the class, but a handler object, as [__init__] makes it
    for a connection, decodes with GB18030. *)
Theorem handler_object_ignores_configured_encoding :
  let w0 := Sample.window_on Sample.disk_partial in
  let w := _toggle_server Sample.os Sample.timed_out w0 in
  FTPMainWindow.__init__ Sample.os Sample.disk_partial = Ok w0
  /\ SettingsUI._setup_config_tab Sample.os (FTPConfigManager.config (cfg w0))
     = SettingsUI.Built
         {| SettingsUI.port_spin := 2121; SettingsUI.max_conn_spin := 50;
            SettingsUI.timeout_spin := 300; SettingsUI.encoding_combo := "utf-8";
            SettingsUI.log_level_combo := "INFO"; SettingsUI.save_log_check := false |}
  /\ Logging._setup_logging Sample.os Desk.env (FTPConfigManager.config (cfg w0))
       Desk.fresh_logger
     = (Ok tt, {| Logging.logger_level := 20; Logging.handlers := [Logging.FTPLogger] |})
  /\ server_running w = true
  /\ config_get Sample.os w "encoding" = PyStr "utf-8"
  /\ WindowsFTPHandler.cls_encoding (handler w) = PyStr "utf-8"
  /\ WindowsFTPHandler.cls_utf8 (handler w) = true
  /\ WindowsFTPHandler.timeout (WindowsFTPHandler.__init__ (handler w))
     = config_get Sample.os w "timeout"
  /\ WindowsFTPHandler.encoding (WindowsFTPHandler.__init__ (handler w)) = "gb18030"
  /\ WindowsFTPHandler.utf8 (WindowsFTPHandler.__init__ (handler w)) = false.
Proof.
  cbv zeta. conjuncts; vm_compute; reflexivity.
Qed.
End SupervisorFacts.

(** ** Scenarios of the configuration store *)

Module StoreScenarios.
Import Py PyFacts FTPConfigManager Schema ConfigFacts SaveFacts.

Section WithOS.
Context (os : OS).

Lemma plain_set_options section (options : list (string * string)) :
  forall s d,
    config s !! section = Some d ->
    for_each options (fun '(key, value) =>
        cp_update (fun c => ConfigParser.set c section key value)) s
    = (Ok tt,
       with_config
         (<[section := foldl (fun d '(k, v) => <[lower k := v]> d) d options]> (config s)) s).
Proof.
  induction options as [|[k v] options IH]; intros s d Hd.
  - cbn [for_each foldl]. unfold ret. rewrite insert_id by exact Hd.
    rewrite with_config_id. reflexivity.
  - cbn [for_each foldl].
    erewrite bind_ok
      by (unfold cp_update, ConfigParser.set, ConfigParser.optionxform;
          rewrite Hd; reflexivity).
    rewrite (IH _ (<[lower k := v]> d)) by (cbn; apply lookup_insert_eq).
    cbn [config with_config disk log]. rewrite insert_insert_eq. reflexivity.
Qed.


(** [create_default_config] of a fresh manager on a writable disk. *)
Lemma create_default_fresh d l :
  config_writable d = true ->
  create_default_config os {| config := ∅; disk := d; log := l |}
  = (Ok tt, {| config := default_parser os;
               disk := {| dirs := dirs d; creatable := creatable d;
                          config_file := Some (default_parser os);
                          config_writable := config_writable d |};
               log := l |}).
Proof.
  intros Hw. unfold create_default_config, DEFAULT_CONFIG.
  rewrite for_each_singleton.
  erewrite bind_ok; cycle 1.
  { erewrite bind_ok; cycle 1.
    { erewrite bind_ok by reflexivity.
      apply (plain_set_options "general" _ _ ∅). cbn. apply lookup_insert_eq. }
    reflexivity. }
  unfold write_config. cbn [disk with_config config log]. rewrite Hw. reflexivity.
Qed.

(** When there is no file, [load_config] writes the defaults and goes on as
    on the file it wrote. *)
Lemma load_config_absent s s1 :
  config_file (disk s) = None ->
  create_default_config os s = (Ok tt, s1) ->
  is_Some (config_file (disk s1)) ->
  load_config os s = load_config os s1.
Proof.
  intros Hn Hc [f Hf]. unfold load_config.
  erewrite bind_ok by (rewrite Hn; cbn [negb when]; exact Hc).
  symmetry. erewrite bind_ok by (rewrite Hf; reflexivity). reflexivity.
Qed.
End WithOS.



(** Where the stored text, of a length the interpreter converts, parses
    as an integer literal, the typed getter returns the integer. *)
Theorem get_returns_parsed_integer os c key text z :
  In key ["port"; "max_connections"; "timeout"] ->
  stored c key = Some text ->
  (String.length text <= 4300)%nat ->
  int_of_str text = Some z ->
  get os c "general" key = PyInt z.
Proof.
  intros Hk Hs _ Hz.
  assert (Hget : ConfigParser.get c "general" key = Ok text).
  { apply stored_get; [|exact Hs]. cbn in Hk.
    repeat (destruct Hk as [<-|Hk]; [reflexivity|]). destruct Hk. }
  cbn in Hk. unfold get, get_typed, ConfigParser.getint.
  repeat (destruct Hk as [<-|Hk];
          [cbn [String.eqb Ascii.eqb Bool.eqb in_list existsb orb];
           rewrite Hget, Hz; reflexivity|]).
  destruct Hk.
Qed.

Lemma get_returns_parsed_integer_witness :
  get Sample.os (config Sample.manager) "general" "timeout" = PyInt 300.
Proof.
  apply (get_returns_parsed_integer Sample.os (config Sample.manager) "timeout" "300" 300).
  - cbn. tauto.
  - vm_compute. reflexivity.
  - cbn. lia.
  - reflexivity.
Defined.

(** Where the file can be opened and written, a [save] that returns
    [False] has failed before it opened the file, and the file is as it
    was.  The settings name no default section, and the parser is one of
    which [save] checks the text as it is stored. *)
Theorem failed_save_keeps_file os settings s s' :
  config_writable (disk s) = true ->
  Store.plain_names settings = true ->
  save os settings s = (Ok false, s') ->
  Store.checks_stored_text (config s') = true ->
  config_file (disk s') = config_file (disk s).
Proof. intros _ _ H _. exact (save_false_keeps_file os settings s s' H). Qed.

Lemma failed_save_keeps_file_witness :
  let r := save Sample.os [("general", [("port", PyInt 0)])] Sample.manager in
  config_file (disk (snd r)) = config_file (disk Sample.manager).
Proof.
  cbv zeta.
  apply (failed_save_keeps_file Sample.os [("general", [("port", PyInt 0)])] Sample.manager).
  - reflexivity.
  - reflexivity.
  - rewrite (surjective_pairing (save _ _ _)) at 1. f_equal.
  - vm_compute. reflexivity.
Defined.

(** [save] returns a boolean on every input: nothing raised inside it
    escapes. *)
Theorem save_never_raises os settings s :
  exists b s', save os settings s = (Ok b, s').
Proof. apply save_returns. Qed.
End StoreScenarios.

(** ** Scenarios of the supervisor *)

Module SupervisorScenarios.
Import Py FTPMainWindow Lifecycle SupervisorFacts.

(** Whatever makes a running worker fail, while it binds or while it
    serves: the worker hands one error record to [logging], which begins
    with the words of its [except] clause, and ends.  But for what the
    log view is sent, no signal is emitted, and button and status label
    stay as they were. *)
Theorem worker_failure_is_not_signalled tid e w th :
  threads w !! tid = Some th ->
  FTPServerThread.isRunning th = true ->
  let ev := match FTPServerThread.at_pc th with
            | FTPServerThread.Binding => FTPServerThread.BindError e
            | _ => FTPServerThread.ServeError e
            end in
  let w' := worker_step tid ev w in
  (exists more, emitted w' = (emitted w ++ more)%list /\ forallb Progress.is_log more = true)
  /\ ui_running w' = ui_running w
  /\ (exists msg, FTPConfigManager.log (cfg w')
                  = (FTPConfigManager.log (cfg w)
                       ++ [(ERROR, ("服务器错误: " ++ msg)%string)])%list)
  /\ exists th', threads w' !! tid = Some th'
                 /\ FTPServerThread.isRunning th' = false
                 /\ FTPServerThread._running th' = false.
Proof.
  intros Hth Hrun. cbv zeta. unfold worker_step. rewrite Hth.
  assert (Hlt : (tid < length (threads w))%nat) by (apply lookup_lt_Some in Hth; exact Hth).
  unfold FTPServerThread.isRunning in Hrun. unfold FTPServerThread.run.
  destruct (FTPServerThread.at_pc th); try discriminate;
    cbn [logging with_threads emitted ui_running cfg threads FTPConfigManager.log];
    (conjuncts;
     [exists []; split; [symmetry; apply app_nil_r | reflexivity]
     | reflexivity | eexists; reflexivity
     | eexists; split; [apply list_lookup_insert_eq, Hlt | split; reflexivity]]).
Qed.

Lemma worker_failure_is_not_signalled_witness :
  let e := OSError "[Errno 98] Address already in use" in
  let w := _toggle_server Sample.os Sample.timed_out Sample.window in
  let w' := worker_step 0 (FTPServerThread.BindError e) w in
  (exists more, emitted w' = (emitted w ++ more)%list /\ forallb Progress.is_log more = true)
  /\ ui_running w' = ui_running w
  /\ (exists msg, FTPConfigManager.log (cfg w')
                  = (FTPConfigManager.log (cfg w)
                       ++ [(ERROR, ("服务器错误: " ++ msg)%string)])%list)
  /\ exists th', threads w' !! 0%nat = Some th'
                 /\ FTPServerThread.isRunning th' = false
                 /\ FTPServerThread._running th' = false.
Proof.
  apply (worker_failure_is_not_signalled 0 (OSError "[Errno 98] Address already in use")
           (_toggle_server Sample.os Sample.timed_out Sample.window)
           (FTPServerThread.start
              (FTPServerThread.__init__ "0.0.0.0" (PyInt 21) (PyInt 50)))).
  - vm_compute. reflexivity.
  - reflexivity.
Defined.

(** A stop request on a window that holds no worker changes nothing. *)
Theorem stop_while_stopped_is_noop o w :
  server_thread w = None -> _stop_server o w = w.
Proof. intros H. unfold _stop_server. rewrite H. reflexivity. Qed.

Lemma stop_while_stopped_is_noop_witness :
  _stop_server Sample.timed_out Sample.window = Sample.window.
Proof.
  apply (stop_while_stopped_is_noop Sample.timed_out Sample.window).
  vm_compute. reflexivity.
Defined.

(** A start request on an existing root directory assigns to the handler
    class the anonymous user with the fixed permissions on that directory
    and the configured timeout and encoding. *)
Theorem start_assigns_configuration_to_class os w :
  let root := str (config_get os w "root_path") in
  root ∈ dirs (FTPConfigManager.disk (cfg w)) ->
  WindowsFTPHandler.cls_authorizer (handler (_start_server os w))
    = Some [("anonymous", {| DummyAuthorizer.home := root;
                             DummyAuthorizer.perm := "elradfmwM" |})]
  /\ WindowsFTPHandler.cls_timeout (handler (_start_server os w)) = config_get os w "timeout"
  /\ WindowsFTPHandler.cls_encoding (handler (_start_server os w)) = config_get os w "encoding".
Proof. apply start_server_class. Qed.

Lemma start_assigns_configuration_to_class_witness :
  WindowsFTPHandler.cls_authorizer (handler (_start_server Sample.os Sample.window))
    = Some [("anonymous", {| DummyAuthorizer.home := str (config_get Sample.os Sample.window "root_path");
                             DummyAuthorizer.perm := "elradfmwM" |})]
  /\ WindowsFTPHandler.cls_timeout (handler (_start_server Sample.os Sample.window))
     = config_get Sample.os Sample.window "timeout"
  /\ WindowsFTPHandler.cls_encoding (handler (_start_server Sample.os Sample.window))
     = config_get Sample.os Sample.window "encoding".
Proof.
  apply (start_assigns_configuration_to_class Sample.os Sample.window).
  vm_compute. set_solver.
Defined.

(** A start on a root directory that does not exist (the parser has no
    default section, the text of the directory no percent sign) fails in
    the controller: the failure is
    logged and [error_occurred] is emitted with the same text, which
    begins with the words of the [except] clause; no [server_started] is
    emitted, the window shows the server as stopped and no worker is
    made. *)
Theorem start_on_missing_root_reports_error os w :
  let root := str (config_get os w "root_path") in
  FTPConfigManager.config (cfg w) !! "DEFAULT" = None ->
  Text.no_percent root = true ->
  root ∉ dirs (FTPConfigManager.disk (cfg w)) ->
  let w' := _start_server os w in
  (exists msg more,
      emitted w' = (emitted w ++ more)%list
      /\ In (error_occurred ("启动服务器失败: " ++ msg)) more
      /\ ~ In server_started more
      /\ In (ERROR, "启动服务器失败: " ++ msg) (FTPConfigManager.log (cfg w')))
  /\ ui_running w' = false
  /\ threads w' = threads w /\ server_thread w' = server_thread w.
Proof.
  cbv zeta. intros _ _ Hdir. unfold _start_server, DummyAuthorizer.add_anonymous. cbv zeta.
  rewrite bool_decide_eq_false_2 by exact Hdir.
  unfold start_failed.
  cbn [emit logging _update_ui_state _update_tray_menu emitted ui_running threads
       server_thread cfg FTPConfigManager.log].
  conjuncts; try reflexivity.
  eexists _, [_]. conjuncts.
  - reflexivity.
  - left. reflexivity.
  - intros [H|[]]. discriminate.
  - apply in_or_app. right. left. reflexivity.
Qed.

Lemma start_on_missing_root_reports_error_witness :
  let w := Sample.window_missing_root in
  let w' := _start_server Sample.os w in
  (exists msg more,
      emitted w' = (emitted w ++ more)%list
      /\ In (error_occurred ("启动服务器失败: " ++ msg)) more
      /\ ~ In server_started more
      /\ In (ERROR, "启动服务器失败: " ++ msg) (FTPConfigManager.log (cfg w')))
  /\ ui_running w' = false
  /\ threads w' = threads w /\ server_thread w' = server_thread w.
Proof.
  apply (start_on_missing_root_reports_error Sample.os Sample.window_missing_root).
  - decide_by_evaluation.
  - vm_compute. reflexivity.
  - vm_compute. set_solver.
Defined.

Lemma config_get_encoding os w : exists enc, config_get os w "encoding" = PyStr enc.
Proof.
  unfold config_get, FTPConfigManager.get, FTPConfigManager.get_typed.
  cbn [String.eqb Ascii.eqb Bool.eqb in_list existsb orb].
  destruct (ConfigParser.get _ "general" "encoding"); eexists; reflexivity.
Qed.

(** A start on an existing root directory makes a worker, starts it and
    reports it: [server_started], then the status message that names the
    configured port; the window shows the server as running. *)
Theorem start_on_existing_root_reports_started os w :
  let root := str (config_get os w "root_path") in
  root ∈ dirs (FTPConfigManager.disk (cfg w)) ->
  let w' := _start_server os w in
  emitted w' = (emitted w ++
                [server_started;
                 status_update ("服务器已在端口 " ++ str (config_get os w "port") ++ " 启动")])%list
  /\ ui_running w' = true
  /\ server_thread w' = Some (length (threads w))
  /\ server_running w' = true.
Proof.
  cbv zeta. intros Hdir. unfold _start_server, DummyAuthorizer.add_anonymous. cbv zeta.
  rewrite bool_decide_eq_true_2 by exact Hdir.
  change (config_get os (with_handler ?h w) ?k) with (config_get os w k).
  destruct (config_get_encoding os w) as [enc ->].
  unfold server_running, current.
  cbn [emit logging with_handler _update_ui_state _update_tray_menu emitted ui_running
       server_thread threads].
  rewrite <- app_assoc. conjuncts; try reflexivity.
  rewrite lookup_app_r by lia. rewrite Nat.sub_diag. reflexivity.
Qed.

Lemma start_on_existing_root_reports_started_witness :
  let w := Sample.window in
  let w' := _start_server Sample.os w in
  emitted w' = (emitted w ++
                [server_started;
                 status_update ("服务器已在端口 " ++ str (config_get Sample.os w "port") ++ " 启动")])%list
  /\ ui_running w' = true
  /\ server_thread w' = Some (length (threads w))
  /\ server_running w' = true.
Proof.
  apply (start_on_existing_root_reports_started Sample.os Sample.window).
  vm_compute. set_solver.
Defined.
End SupervisorScenarios.

(** ** The log view *)

Module LogViewFacts.
Import LogView.

Lemma append_cons c (a b : string) : String c a ++ b = String c (a ++ b).
Proof. reflexivity. Qed.

Lemma append_empty_l (a : string) : "" ++ a = a.
Proof. reflexivity. Qed.

Lemma append_assoc (a b c : string) : (a ++ b) ++ c = a ++ b ++ c.
Proof.
  induction a as [|x a IH]; [reflexivity|].
  rewrite !append_cons, IH. reflexivity.
Qed.

Lemma append_empty_r (a : string) : a ++ "" = a.
Proof.
  induction a as [|x a IH]; [reflexivity|].
  rewrite append_cons, IH. reflexivity.
Qed.

Lemma split_nonempty s : split_lines s <> [].
Proof.
  destruct s as [|c rest]; cbn; [discriminate|].
  destruct (Ascii.eqb c newline); [discriminate|].
  destruct (split_lines rest); discriminate.
Qed.

Lemma join_cons x l : l <> [] -> join_lines (x :: l) = x ++ String newline (join_lines l).
Proof. destruct l; [congruence | reflexivity]. Qed.

(** ['\n'.join(s.split('\n')) == s]. *)
Lemma join_split s : join_lines (split_lines s) = s.
Proof.
  induction s as [|c rest IH]; [reflexivity|].
  cbn [split_lines]. destruct (Ascii.eqb_spec c newline) as [->|Hc].
  - rewrite join_cons by apply split_nonempty. rewrite IH. reflexivity.
  - pose proof (split_nonempty rest) as Hn.
    destruct (split_lines rest) as [|l ls]; [congruence|].
    destruct ls as [|l' ls]; cbn [join_lines] in *; rewrite <- IH; reflexivity.
Qed.

Lemma length_split s : length (split_lines s) = S (newlines s).
Proof.
  induction s as [|c rest IH]; [reflexivity|].
  cbn [split_lines newlines]. destruct (Ascii.eqb c newline).
  - cbn. rewrite IH. reflexivity.
  - pose proof (split_nonempty rest) as Hn.
    destruct (split_lines rest) as [|l ls]; [congruence|]. cbn in *. lia.
Qed.

Lemma split_no_newline m : newlines m = 0%nat -> split_lines m = [m].
Proof.
  induction m as [|c rest IH]; [reflexivity|].
  cbn [split_lines newlines]. destruct (Ascii.eqb c newline); [discriminate|].
  intros H. rewrite IH by exact H. reflexivity.
Qed.

(** [(s + '\n' + t).split('\n') == s.split('\n') + t.split('\n')]. *)
Lemma split_app_newline s t :
  split_lines (s ++ String newline t) = (split_lines s ++ split_lines t)%list.
Proof.
  induction s as [|c rest IH]; rewrite ?append_cons, ?append_empty_l; cbn [split_lines].
  - rewrite Ascii.eqb_refl. reflexivity.
  - destruct (Ascii.eqb c newline); rewrite IH; [reflexivity|].
    pose proof (split_nonempty rest) as Hn.
    destruct (split_lines rest); [congruence | reflexivity].
Qed.

(** Text without a newline that is put after [s] goes to its last line. *)
Lemma split_app_line m :
  newlines m = 0%nat ->
  forall s init lst,
    split_lines s = (init ++ [lst])%list ->
    split_lines (s ++ m) = (init ++ [(lst ++ m)%string])%list.
Proof.
  intros Hm. induction s as [|c rest IH]; intros init lst Hs.
  - cbn in Hs. destruct init as [|? [|? ?]]; cbn in Hs; try discriminate.
    injection Hs as <-. rewrite !append_empty_l. apply split_no_newline, Hm.
  - rewrite append_cons. cbn [split_lines] in *. destruct (Ascii.eqb c newline).
    + destruct init as [|i init]; cbn in Hs.
      * injection Hs as _ Hs. exfalso. exact (split_nonempty rest Hs).
      * injection Hs as <- Hs. rewrite (IH init lst Hs). reflexivity.
    + pose proof (split_nonempty rest) as Hn.
      destruct (split_lines rest) as [|l ls] eqn:E; [congruence|].
      destruct init as [|i init]; cbn in Hs.
      * injection Hs as <- ->. rewrite (IH [] l eq_refl). reflexivity.
      * injection Hs as <- ->. rewrite (IH (l :: init) lst eq_refl). reflexivity.
Qed.

Lemma split_lines_clean s : Forall (fun l => newlines l = 0%nat) (split_lines s).
Proof.
  induction s as [|c rest IH]; cbn [split_lines]; [repeat constructor|].
  destruct (Ascii.eqb c newline) eqn:E; [constructor; [reflexivity | exact IH]|].
  destruct (split_lines rest) as [|l ls]; [repeat constructor; cbn; rewrite E; reflexivity|].
  inversion IH as [|? ? Hl Hls]; subst. constructor; [|exact Hls].
  cbn. rewrite E. exact Hl.
Qed.

(** ['\n'.join(l).split('\n') == l] for lines that hold no newline. *)
Lemma split_join l :
  l <> [] -> Forall (fun x => newlines x = 0%nat) l -> split_lines (join_lines l) = l.
Proof.
  induction l as [|x l IH]; [congruence|]. intros _ Hf.
  inversion Hf as [|? ? Hx Hl]; subst.
  destruct l as [|y l]; [apply split_no_newline, Hx|].
  rewrite join_cons by discriminate. rewrite split_app_newline.
  rewrite split_no_newline by exact Hx. rewrite IH by (discriminate || exact Hl). reflexivity.
Qed.

Lemma join_drop_suffix (l : list string) : forall k,
  exists dropped, join_lines l = dropped ++ join_lines (drop k l).
Proof.
  induction l as [|x l IH]; intros k.
  - exists "". rewrite drop_nil. reflexivity.
  - destruct k as [|k]; [exists ""; reflexivity|]. cbn [drop].
    destruct l as [|y l].
    + exists x. rewrite drop_nil. cbn. symmetry. apply append_empty_r.
    + destruct (IH k) as [d Hd]. exists (x ++ String newline d).
      rewrite join_cons by discriminate. rewrite Hd, append_assoc. reflexivity.
Qed.

Lemma join_app_two (l : list string) a b :
  exists before, join_lines (l ++ [a; b]) = before ++ a ++ String newline b.
Proof.
  induction l as [|x l [before IH]].
  - exists "". reflexivity.
  - exists (x ++ String newline before). cbn [app].
    rewrite join_cons by (destruct l; discriminate). rewrite IH, append_assoc. reflexivity.
Qed.

Lemma last_n_nonempty {A} n (l : list A) : (0 < n)%nat -> l <> [] -> last_n n l <> [].
Proof.
  unfold last_n. intros Hn Hl E. apply (f_equal length) in E.
  rewrite length_drop in E. cbn in E. destruct l; [congruence|]. cbn in E. lia.
Qed.

Lemma last_n_length {A} n (l : list A) : length (last_n n l) = Nat.min n (length l).
Proof. unfold last_n. rewrite length_drop. lia. Qed.

Lemma join_take_drop (l : list string) : forall k,
  (0 < k < length l)%nat ->
  join_lines l = join_lines (take k l) ++ String newline (join_lines (drop k l)).
Proof.
  induction l as [|x l IH]; intros k Hk; [cbn in Hk; lia|].
  destruct k as [|k]; [lia|]. cbn [length] in Hk. cbn [take drop].
  destruct k as [|k].
  - rewrite take_0, drop_0. destruct l; [cbn in Hk; lia | reflexivity].
  - rewrite (join_cons x l) by (destruct l; [cbn in Hk; lia | discriminate]).
    rewrite (join_cons x (take (S k) l)) by (destruct l; [cbn in Hk; lia | discriminate]).
    rewrite (IH (S k)) by lia. rewrite append_assoc. reflexivity.
Qed.

(** What [_append_log] writes and what the view shows afterwards. *)
Lemma append_log_cut lineCount message text :
  (500 < lineCount (text ++ message ++ String newline ""))%nat ->
  _append_log lineCount message text
  = join_lines (last_n 300 (split_lines (text ++ message ++ String newline ""))).
Proof.
  intros H. unfold _append_log. cbv zeta.
  apply Nat.ltb_lt in H. rewrite H. reflexivity.
Qed.

Lemma append_log_kept lineCount message text :
  (lineCount (text ++ message ++ String newline "") <= 500)%nat ->
  _append_log lineCount message text = text ++ message ++ String newline "".
Proof.
  intros H. unfold _append_log. cbv zeta.
  apply Nat.ltb_ge in H. rewrite H. reflexivity.
Qed.

Lemma split_last_n s :
  split_lines (join_lines (last_n 300 (split_lines s))) = last_n 300 (split_lines s).
Proof.
  apply split_join.
  - apply last_n_nonempty; [lia | apply split_nonempty].
  - unfold last_n. apply Forall_drop, split_lines_clean.
Qed.

(** The view always shows a tail of everything that was written to it:
    [_append_log] drops text only from the front, and only whole lines. *)
Theorem log_view_shows_tail lineCount message text :
  exists dropped,
    text ++ message ++ String newline "" = dropped ++ _append_log lineCount message text
    /\ (dropped = ""
        \/ exists lines, lines <> [] /\ dropped = join_lines lines ++ String newline "").
Proof.
  set (written := text ++ message ++ String newline "").
  destruct (Nat.le_gt_cases (lineCount written) 500) as [Hle|Hgt].
  - exists "". rewrite append_log_kept by exact Hle. split; [reflexivity | left; reflexivity].
  - rewrite append_log_cut by exact Hgt. fold written. unfold last_n.
    set (l := split_lines written).
    destruct (Nat.le_gt_cases (length l) 300) as [Hs|Hl].
    + exists "". replace (length l - 300)%nat with 0%nat by lia.
      rewrite drop_0. unfold l. rewrite join_split. split; [reflexivity | left; reflexivity].
    + exists (join_lines (take (length l - 300) l) ++ String newline "").
      split.
      * rewrite append_assoc. rewrite <- (join_split written) at 1. fold l.
        apply join_take_drop. lia.
      * right. exists (take (length l - 300) l). split; [|reflexivity].
        intros E. apply (f_equal length) in E. rewrite length_take in E. cbn in E. lia.
Qed.

(** A message of one line is never cut off by the line limit: it ends the
    view. *)
Theorem newest_line_is_shown lineCount message text :
  newlines message = 0%nat ->
  exists before, _append_log lineCount message text = before ++ message ++ String newline "".
Proof.
  intros Hm. unfold _append_log. cbv zeta.
  destruct (500 <? lineCount _)%nat.
  2:{ exists text. reflexivity. }
  assert (Hs : exists init lst, split_lines text = (init ++ [lst])%list).
  { pose proof (split_nonempty text) as Hn.
    destruct (split_lines text) as [|x l] using rev_ind; [congruence|]. eauto. }
  destruct Hs as (init & lst & Hs).
  rewrite <- append_assoc, split_app_newline.
  rewrite (split_app_line message Hm text init lst Hs).
  change (split_lines "") with [""]. rewrite <- app_assoc. cbn [app].
  unfold last_n. rewrite drop_app_le by (rewrite !length_app; cbn; lia).
  destruct (join_app_two (drop (length (init ++ [(lst ++ message)%string; ""%string])%list - 300) init)
              (lst ++ message) "") as [before Hb].
  rewrite Hb. exists (before ++ lst). rewrite !append_assoc. reflexivity.
Qed.

Lemma newest_line_is_shown_witness :
  exists before,
    _append_log Desk.lineCount "220 ready" "" = before ++ "220 ready" ++ String newline "".
Proof. apply (newest_line_is_shown Desk.lineCount "220 ready" ""). reflexivity. Defined.

(** The line limit.  Once the count of the document has passed 500, the
    view is cut to the last 300 lines of its text; and when the document
    counts at least the lines of its text, a view of at most 500 lines
    stays so over any number of messages. *)
Theorem log_view_is_bounded lineCount :
  (forall t, (length (split_lines t) <= lineCount t)%nat) ->
  (forall message text,
     (500 < lineCount (text ++ message ++ String newline ""))%nat ->
     split_lines (_append_log lineCount message text)
     = last_n 300 (split_lines (text ++ message ++ String newline "")))
  /\ (forall messages text,
        (length (split_lines text) <= 500)%nat ->
        (length (split_lines
                   (fold_left (fun text m => _append_log lineCount m text) messages text))
         <= 500)%nat).
Proof.
  intros Hcount. split.
  - intros message text Hgt. rewrite append_log_cut by exact Hgt. apply split_last_n.
  - induction messages as [|m ms IH]; intros text Ht; [exact Ht|].
    cbn [fold_left]. apply IH.
    destruct (Nat.le_gt_cases (lineCount (text ++ m ++ String newline "")) 500) as [Hle|Hgt].
    + rewrite append_log_kept by exact Hle.
      specialize (Hcount (text ++ m ++ String newline "")). lia.
    + rewrite append_log_cut by exact Hgt. rewrite split_last_n, last_n_length. lia.
Qed.

Lemma log_view_is_bounded_witness :
  (forall message text,
     (500 < Desk.lineCount (text ++ message ++ String newline ""))%nat ->
     split_lines (_append_log Desk.lineCount message text)
     = last_n 300 (split_lines (text ++ message ++ String newline "")))
  /\ (forall messages text,
        (length (split_lines text) <= 500)%nat ->
        (length (split_lines
                   (fold_left (fun text m => _append_log Desk.lineCount m text) messages text))
         <= 500)%nat).
Proof.
  apply (log_view_is_bounded Desk.lineCount).
  intros t. unfold Desk.lineCount. lia.
Defined.
End LogViewFacts.

(** ** More on the configuration store *)

Module StoreFacts.
Import Py PyFacts FTPConfigManager Schema ConfigFacts SaveFacts Store.

(** What a loop of parser updates leaves alone. *)
Lemma cp_update_proj {B} (proj : state -> B) f s r s' :
  (forall c s, proj (with_config c s) = proj s) ->
  cp_update f s = (r, s') -> proj s' = proj s.
Proof.
  intros Hp. unfold cp_update. destruct (f (config s)); intros [= _ <-]; [apply Hp | reflexivity].
Qed.

Lemma for_each_proj {A B} (proj : state -> B) (body : A -> M unit) (l : list A) :
  (forall x s r s', body x s = (r, s') -> proj s' = proj s) ->
  forall s r s', for_each l body s = (r, s') -> proj s' = proj s.
Proof.
  intros Hb. induction l as [|x l IH]; intros s r s'; cbn [for_each].
  - intros [= _ <-]. reflexivity.
  - unfold bind. destruct (body x s) as [[[]|e] s1] eqn:E.
    + intros H. rewrite (IH _ _ _ H). eapply Hb, E.
    + intros [= _ <-]. eapply Hb, E.
Qed.

Lemma makedirs_ok p s s' :
  makedirs p s = (Ok tt, s') ->
  p ∈ dirs (disk s') /\ config s' = config s /\ log s' = log s
  /\ config_file (disk s') = config_file (disk s)
  /\ config_writable (disk s') = config_writable (disk s)
  /\ dirs (disk s) ⊆ dirs (disk s').
Proof.
  unfold makedirs. destruct (bool_decide (p ∈ dirs (disk s))) eqn:E.
  - intros [= <-]. apply bool_decide_eq_true in E. repeat split; [exact E | set_solver].
  - destruct (creatable (disk s) p); [|discriminate].
    intros [= <-]. cbn. repeat split; set_solver.
Qed.

Lemma makedirs_raise p s e s' : makedirs p s = (Raise e, s') -> s' = s.
Proof.
  unfold makedirs. destruct (bool_decide _); [discriminate|].
  destruct (creatable _ _); [discriminate|]. intros [= _ <-]. reflexivity.
Qed.

Section WithOS.
Context (os : OS).

Lemma store_loop_proj {B} (proj : state -> B) settings s r s' :
  (forall c s, proj (with_config c s) = proj s) ->
  store_loop os settings s = (r, s') -> proj s' = proj s.
Proof.
  intros Hp. unfold store_loop. apply for_each_proj.
  intros [section options] s0 r0 s0'. apply for_each_proj.
  intros [key value] s1 r1 s1'. apply cp_update_proj, Hp.
Qed.

(** [save] by cases: what it returns and the state it leaves, from the
    state [s1] its loop leaves. *)
Lemma save_cases settings s :
  exists r1 s1,
    store_loop os settings s = (r1, s1)
    /\ disk s1 = disk s /\ log s1 = log s
    /\ ((exists s', save os settings s = (Ok false, s')
                    /\ config s' = config s1
                    /\ config_file (disk s') = config_file (disk s)
                    /\ config_writable (disk s') = config_writable (disk s)
                    /\ dirs (disk s) ⊆ dirs (disk s'))
        \/ (exists p r s2,
              r1 = Ok tt
              /\ ConfigParser.getint (config s1) "general" "port" = Ok p
              /\ 1 <= p <= 65535
              /\ ConfigParser.get (config s1) "general" "root_path" = Ok r
              /\ makedirs r s1 = (Ok tt, s2)
              /\ config_writable (disk s) = true
              /\ save os settings s =
                   (Ok true,
                    with_disk {| dirs := dirs (disk s2); creatable := creatable (disk s2);
                                 config_file := Some (config s1);
                                 config_writable := config_writable (disk s2) |} s2))).
Proof.
  destruct (store_loop os settings s) as [r1 s1] eqn:E1.
  exists r1, s1. split; [reflexivity|].
  assert (Hd : disk s1 = disk s) by (eapply (store_loop_proj disk), E1; reflexivity).
  assert (Hl : log s1 = log s) by (eapply (store_loop_proj log), E1; reflexivity).
  split; [exact Hd|]. split; [exact Hl|].
  assert (Hfail : forall e s2,
            config s2 = config s1 -> config_file (disk s2) = config_file (disk s1) ->
            config_writable (disk s2) = config_writable (disk s1) ->
            dirs (disk s1) ⊆ dirs (disk s2) ->
            save os settings s
            = (logging_error ("保存配置失败: " ++ exn_text e) >> ret false) s2 ->
            exists s', save os settings s = (Ok false, s')
                       /\ config s' = config s1
                       /\ config_file (disk s') = config_file (disk s)
                       /\ config_writable (disk s') = config_writable (disk s)
                       /\ dirs (disk s) ⊆ dirs (disk s')).
  { intros e s2 H1 H2 H3 H4 ->. unfold logging_error, bind, ret.
    eexists. split; [reflexivity|]. cbn [config disk]. rewrite H1, H2, H3, <- Hd. tauto. }
  destruct r1 as [[]|e].
  2:{ left. apply (Hfail e s1); try reflexivity.
      unfold save, try_except. fold (store_loop os settings).
      erewrite bind_raise by exact E1. reflexivity. }
  destruct (ConfigParser.getint (config s1) "general" "port") as [p|e] eqn:Ep.
  2:{ left. apply (Hfail e s1); try reflexivity.
      unfold save, try_except. fold (store_loop os settings).
      erewrite bind_ok by exact E1.
      erewrite bind_raise by (unfold cp_query; rewrite Ep; reflexivity). reflexivity. }
  destruct ((1 <=? p) && (p <=? 65535)) eqn:Er.
  2:{ left. apply (Hfail (ValueError "端口必须在1-65535范围内") s1); try reflexivity.
      unfold save, try_except. fold (store_loop os settings).
      erewrite bind_ok by exact E1.
      erewrite bind_ok by (unfold cp_query; rewrite Ep; reflexivity).
      erewrite bind_raise by (rewrite Er; reflexivity). reflexivity. }
  destruct (ConfigParser.get (config s1) "general" "root_path") as [r|e] eqn:Eg.
  2:{ left. apply (Hfail e s1); try reflexivity.
      unfold save, try_except. fold (store_loop os settings).
      erewrite bind_ok by exact E1.
      erewrite bind_ok by (unfold cp_query; rewrite Ep; reflexivity).
      erewrite bind_ok by (rewrite Er; reflexivity).
      erewrite bind_raise by (unfold cp_query; rewrite Eg; reflexivity). reflexivity. }
  destruct (makedirs r s1) as [[[]|e] s2] eqn:Em.
  2:{ left. pose proof (makedirs_raise _ _ _ _ Em) as ->.
      apply (Hfail e s1); try reflexivity.
      unfold save, try_except. fold (store_loop os settings).
      erewrite bind_ok by exact E1.
      erewrite bind_ok by (unfold cp_query; rewrite Ep; reflexivity).
      erewrite bind_ok by (rewrite Er; reflexivity).
      erewrite bind_ok by (unfold cp_query; rewrite Eg; reflexivity).
      erewrite (bind_ok (isdir r) _ s1 (bool_decide (r ∈ dirs (disk s1))) s1) by reflexivity.
    cbv beta.
      erewrite bind_raise; [reflexivity|].
      destruct (bool_decide (r ∈ dirs (disk s1))) eqn:E'; cbn [negb when]; [|exact Em].
      unfold makedirs in Em. rewrite E' in Em. discriminate. }
  destruct (makedirs_ok r s1 s2 Em) as (Hin & Hc & Hlog & Hf & Hw & Hsub).
  assert (Hwhen : when (negb (bool_decide (r ∈ dirs (disk s1)))) (makedirs r) s1 = (Ok tt, s2)).
  { destruct (bool_decide (r ∈ dirs (disk s1))) eqn:E'; cbn [negb when]; [|exact Em].
    unfold makedirs in Em. rewrite E' in Em. exact Em. }
  destruct (config_writable (disk s2)) eqn:Ew.
  - right. exists p, r, s2. apply andb_prop in Er as Er'. destruct Er' as [Er1 Er2].
    split; [reflexivity|]. split; [reflexivity|]. split; [lia|]. split; [reflexivity|].
    split; [exact Em|]. split; [congruence|].
    unfold save, try_except. fold (store_loop os settings).
    erewrite bind_ok by exact E1.
    erewrite bind_ok by (unfold cp_query; rewrite Ep; reflexivity).
    erewrite bind_ok by (rewrite Er; reflexivity).
    erewrite bind_ok by (unfold cp_query; rewrite Eg; reflexivity).
    erewrite (bind_ok (isdir r) _ s1 (bool_decide (r ∈ dirs (disk s1))) s1) by reflexivity.
    cbv beta.
    erewrite bind_ok by exact Hwhen.
    erewrite bind_ok by (unfold write_config; rewrite Ew; reflexivity).
    unfold ret. rewrite Hc, ?Ew. reflexivity.
  - left. apply (Hfail (OSError "cannot open the configuration file for writing") s2);
      [exact Hc | exact Hf | congruence | exact Hsub |].
    unfold save, try_except. fold (store_loop os settings).
    erewrite bind_ok by exact E1.
    erewrite bind_ok by (unfold cp_query; rewrite Ep; reflexivity).
    erewrite bind_ok by (rewrite Er; reflexivity).
    erewrite bind_ok by (unfold cp_query; rewrite Eg; reflexivity).
    erewrite (bind_ok (isdir r) _ s1 (bool_decide (r ∈ dirs (disk s1))) s1) by reflexivity.
    cbv beta.
    erewrite bind_ok by exact Hwhen.
    erewrite bind_raise by (unfold write_config; rewrite Ew; reflexivity). reflexivity.
Qed.

(** One option set by the loop leaves every other option as it was. *)
Lemma set_other c section key v c' sec k :
  ConfigParser.set c section key v = Ok c' ->
  (String.eqb section sec && String.eqb (lower key) k) = false ->
  option_of c' sec k = option_of c sec k.
Proof.
  unfold ConfigParser.set, ConfigParser.optionxform, option_of.
  destruct (c !! section) as [d|] eqn:Hd; [|discriminate]. intros [= <-] Hne.
  destruct (String.eqb_spec section sec) as [->|Hs].
  - rewrite lookup_insert_eq, Hd. cbn [mbind option_bind].
    destruct (String.eqb_spec (lower key) k) as [->|Hk]; [discriminate|].
    apply lookup_insert_ne, Hk.
  - rewrite lookup_insert_ne by exact Hs. reflexivity.
Qed.

Lemma store_options_other section (options : list (string * value)) sec k :
  (String.eqb section sec && existsb (fun '(key, _) => String.eqb (lower key) k) options) = false ->
  forall s r s',
    for_each options (fun '(key, value) =>
        let value := if String.eqb key "root_path"
                     then PyStr (abspath os (str value)) else value in
        cp_update (fun c => ConfigParser.set c section key (str value))) s = (r, s') ->
    option_of (config s') sec k = option_of (config s) sec k.
Proof.
  induction options as [|[key v] options IH]; intros Hne s r s'; cbn [for_each].
  - intros [= _ <-]. reflexivity.
  - cbn [existsb] in Hne.
    assert (H1 : (String.eqb section sec && String.eqb (lower key) k) = false)
      by (destruct (String.eqb section sec), (String.eqb (lower key) k); cbn in *; congruence).
    assert (H2 : (String.eqb section sec
                  && existsb (fun '(key, _) => String.eqb (lower key) k) options) = false)
      by (destruct (String.eqb section sec), (String.eqb (lower key) k); cbn in *; congruence).
    unfold bind, cp_update at 1.
    destruct (ConfigParser.set (config s) section key _) as [c|e] eqn:Es.
    + intros H. rewrite (IH H2 _ _ _ H). cbn [config with_config].
      eapply set_other; eassumption.
    + intros [= _ <-]. reflexivity.
Qed.

Lemma store_loop_other settings sec k :
  written settings sec k = false ->
  forall s r s',
    store_loop os settings s = (r, s') ->
    option_of (config s') sec k = option_of (config s) sec k.
Proof.
  unfold store_loop.
  induction settings as [|[section options] settings IH]; intros Hw s r s'; cbn [for_each].
  - intros [= _ <-]. reflexivity.
  - cbn [written existsb] in Hw. apply orb_false_elim in Hw. destruct Hw as [H1 H2].
    unfold bind.
    destruct (for_each options _ s) as [[[]|e] s1] eqn:E1.
    + intros H. rewrite (IH H2 _ _ _ H).
      eapply store_options_other; [exact H1 | exact E1].
    + intros [= _ <-]. eapply store_options_other; [exact H1 | exact E1].
Qed.

Lemma save_other settings s sec k :
  written settings sec k = false ->
  option_of (config (snd (save os settings s))) sec k = option_of (config s) sec k.
Proof.
  intros Hw.
  destruct (save_cases settings s) as (r1 & s1 & E1 & _ & _ & Hc).
  pose proof (store_loop_other settings sec k Hw s r1 s1 E1) as H1.
  destruct Hc as [(s' & -> & Hc & _)|(p & r & s2 & _ & _ & _ & _ & Hm & _ & ->)];
    cbn [snd config with_disk].
  - rewrite Hc. exact H1.
  - apply makedirs_ok in Hm. destruct Hm as (_ & -> & _). exact H1.
Qed.

Lemma save_true settings s s' :
  save os settings s = (Ok true, s') ->
  config_file (disk s') = Some (config s')
  /\ (exists p, ConfigParser.getint (config s') "general" "port" = Ok p /\ 1 <= p <= 65535)
  /\ (exists r, ConfigParser.get (config s') "general" "root_path" = Ok r
                /\ r ∈ dirs (disk s'))
  /\ log s' = log s.
Proof.
  destruct (save_cases settings s) as (r1 & s1 & E1 & Hd & Hl & Hc).
  destruct Hc as [(s0 & -> & _)|(p & r & s2 & _ & Hp & Hr & Hg & Hm & _ & ->)];
    [discriminate|].
  intros [= <-]. apply makedirs_ok in Hm. destruct Hm as (Hin & Hc & Hlog & _).
  cbn [config disk with_disk config_file dirs log]. rewrite Hc, Hlog. eauto 10.
Qed.

(** A successful [save] of options of the [general] section. *)
Lemma save_section s options d ptxt p r :
  config s !! "general" = Some d ->
  store_options os options d !! "port" = Some ptxt ->
  int_of_str ptxt = Some p ->
  1 <= p <= 65535 ->
  store_options os options d !! "root_path" = Some r ->
  usable (disk s) r = true ->
  config_writable (disk s) = true ->
  save os [("general", options)] s = (Ok true, saved os options d r s).
Proof.
  intros Hd Hp Hi Hr Hroot Hu Hw.
  unfold save, try_except.
  erewrite bind_ok; cycle 1.
  { rewrite for_each_singleton.
    erewrite bind_ok by (apply set_options; exact Hd). reflexivity. }
  fold (store_options os options d).
  erewrite bind_ok; cycle 1.
  { unfold cp_query, ConfigParser.getint, ConfigParser.get, ConfigParser.optionxform.
    cbn [config with_config]. rewrite lookup_insert_eq.
    change (lower "port") with "port". rewrite Hp, Hi. reflexivity. }
  erewrite bind_ok; cycle 1.
  { replace ((1 <=? p) && (p <=? 65535)) with true
      by (symmetry; apply andb_true_intro; split; lia).
    reflexivity. }
  erewrite bind_ok; cycle 1.
  { unfold cp_query, ConfigParser.get, ConfigParser.optionxform.
    cbn [config with_config]. rewrite lookup_insert_eq.
    change (lower "root_path") with "root_path". rewrite Hroot. reflexivity. }
  erewrite bind_ok by reflexivity.
  cbn [disk with_config].
  erewrite bind_ok; cycle 1.
  { instantiate (1 := with_disk (with_dir r (disk s))
                        (with_config (<["general" := store_options os options d]> (config s)) s)).
    instantiate (1 := tt).
    destruct (bool_decide (r ∈ dirs (disk s))) eqn:E; cbn [negb when].
    - unfold ret, with_dir. rewrite E. destruct s; reflexivity.
    - rewrite makedirs_usable by exact Hu. reflexivity. }
  erewrite bind_ok; cycle 1.
  { unfold write_config. cbn [disk with_disk with_config config].
    rewrite with_dir_writable, Hw. reflexivity. }
  unfold ret, saved. cbn [disk with_disk with_config config log].
  rewrite with_dir_writable, with_dir_creatable, Hw. reflexivity.
Qed.

(** [load_config] on a state that has a file: when it returns, the root
    directory the parser names exists. *)
Lemma load_existing_root s f s' :
  config_file (disk s) = Some f ->
  load_config os s = (Ok tt, s') ->
  exists r, stored (config s') "root_path" = Some r /\ r ∈ dirs (disk s').
Proof.
  intros Hf. rewrite (load_config_existing os s f Hf).
  set (c := fill_defaults os (ConfigParser.read (config s) (Some f))).
  assert (Hroot : exists root, stored c "root_path" = Some root).
  { unfold c. rewrite stored_fill.
    destruct (stored _ "root_path"); [eauto|].
    rewrite (defaults_keys os "root_path") by (cbn; tauto). eauto. }
  destruct Hroot as [root Hroot].
  erewrite bind_ok by (unfold cp_query; cbn [config with_config];
                       rewrite (get_root_path os c root Hroot); reflexivity).
  unfold try_except.
  destruct (makedirs root (with_config c s)) as [[[]|e] s1] eqn:Em.
  - intros [= <-]. apply makedirs_ok in Em. destruct Em as (Hin & Hc & _).
    exists root. rewrite Hc. cbn [config with_config]. split; [exact Hroot | exact Hin].
  - apply makedirs_raise in Em. subst s1.
    destruct (fill_has_general os (ConfigParser.read (config s) (Some f))) as [dd Hdd].
    fold c in Hdd. unfold logging_error.
    erewrite bind_ok by reflexivity.
    erewrite bind_ok
      by (unfold cp_update, ConfigParser.set; cbn [config with_config];
          rewrite Hdd; reflexivity).
    intros Hm. apply makedirs_ok in Hm. destruct Hm as (Hin & Hc & _).
    exists (abspath os (getcwd os)). rewrite Hc. cbn [config with_config].
    split; [|exact Hin].
    change (ConfigParser.optionxform "root_path") with "root_path".
    rewrite (stored_set_root c dd _ "root_path" Hdd). reflexivity.
Qed.

Lemma init_unwritable d l :
  config_file d = None ->
  config_writable d = false ->
  FTPConfigManager.__init__ os d l
  = (Raise (OSError "cannot open the configuration file for writing"),
     {| config := default_parser os; disk := d; log := l |}).
Proof.
  intros Hn Hw. unfold FTPConfigManager.__init__, load_config.
  erewrite bind_raise; [reflexivity|].
  cbn [disk]. rewrite Hn. cbn [negb when].
  unfold create_default_config, DEFAULT_CONFIG. rewrite for_each_singleton.
  erewrite bind_ok; cycle 1.
  { erewrite bind_ok; cycle 1.
    { erewrite bind_ok by reflexivity.
      apply (StoreScenarios.plain_set_options "general" _ _ ∅). cbn. apply lookup_insert_eq. }
    reflexivity. }
  unfold write_config. cbn [disk with_config config log]. rewrite Hw. reflexivity.
Qed.

Lemma init_root d l s' :
  FTPConfigManager.__init__ os d l = (Ok tt, s') ->
  exists r, stored (config s') "root_path" = Some r /\ r ∈ dirs (disk s').
Proof.
  unfold FTPConfigManager.__init__.
  destruct (config_file d) as [f|] eqn:Hf.
  - apply (load_existing_root _ f). exact Hf.
  - destruct (config_writable d) eqn:Hw.
    + rewrite (StoreScenarios.load_config_absent os {| config := ∅; disk := d; log := l |} _ Hf
                 (StoreScenarios.create_default_fresh os d l Hw))
        by (cbn; eauto).
      apply (load_existing_root _ (default_parser os)). reflexivity.
    + pose proof (init_unwritable d l Hf Hw) as H. unfold FTPConfigManager.__init__ in H.
      rewrite H. discriminate.
Qed.

Lemma get_recognized c key : In key keys -> get os c "general" key <> PyNone.
Proof.
  intros Hk. cbn in Hk. unfold get, get_typed, ConfigParser.getint, ConfigParser.getboolean.
  repeat (destruct Hk as [<-|Hk];
          [cbn [String.eqb Ascii.eqb Bool.eqb in_list existsb orb];
           destruct (ConfigParser.get c "general" _) as [v|e];
           [try destruct (int_of_str v); try destruct (ConfigParser.boolean_of_str v)|];
           discriminate|]).
  destruct Hk.
Qed.

End WithOS.
End StoreFacts.

(** ** The root logger *)

Module LoggingFacts.
Import Py PyFacts FTPConfigManager Schema ConfigFacts Logging.

Section WithOS.
Context (os : OS) (env : log_env).

Lemma setup_logging_again c l :
  _setup_logging os env c (snd (_setup_logging os env c l)) = _setup_logging os env c l.
Proof.
  unfold _setup_logging. cbv zeta.
  destruct (check_level _) as [n|e]; [|reflexivity].
  destruct (truthy _); [|reflexivity].
  destruct (log_file_error env); reflexivity.
Qed.

Lemma setup_logging_handlers c l h :
  In h (handlers (snd (_setup_logging os env c l))) ->
  h = FTPLogger \/ h = FileHandler (log_file env).
Proof.
  unfold _setup_logging. cbv zeta.
  destruct (check_level _) as [n|e]; [|intros []].
  destruct (truthy _); [destruct (log_file_error env)|]; cbn; intuition auto.
Qed.

Lemma get_save_log c text b :
  stored c "save_log" = Some text ->
  ConfigParser.boolean_of_str text = Some b ->
  get os c "general" "save_log" = PyBool b.
Proof.
  intros Hs Hb. unfold get, get_typed, ConfigParser.getboolean.
  cbn [String.eqb Ascii.eqb Bool.eqb in_list existsb orb].
  rewrite (stored_get c "save_log" text eq_refl Hs), Hb. reflexivity.
Qed.

Lemma get_log_level c text :
  stored c "log_level" = Some text -> get os c "general" "log_level" = PyStr text.
Proof.
  intros Hs. unfold get, get_typed.
  cbn [String.eqb Ascii.eqb Bool.eqb in_list existsb orb].
  rewrite (stored_get c "log_level" text eq_refl Hs). reflexivity.
Qed.

Lemma setup_logging_stored c l text b lvl n :
  stored c "save_log" = Some text ->
  ConfigParser.boolean_of_str text = Some b ->
  stored c "log_level" = Some lvl ->
  name_to_level lvl = Some n ->
  log_file_error env = None ->
  _setup_logging os env c l
  = (Ok tt, {| logger_level := n;
               handlers := FTPLogger :: if b then [FileHandler (log_file env)] else [] |}).
Proof.
  intros Hs Hb Hl Hn Ho. unfold _setup_logging. cbv zeta.
  rewrite (get_log_level c lvl Hl), (get_save_log c text b Hs Hb). cbn [check_level truthy].
  rewrite Hn, Ho. destruct b; reflexivity.
Qed.

End WithOS.
End LoggingFacts.

(** ** The settings tab and the root directory dialog *)

Module SettingsFacts.
Import Py PyFacts FTPConfigManager Schema ConfigFacts Store StoreFacts Logging LoggingFacts SettingsUI.

Lemma in_list_In s l : in_list s l = true <-> In s l.
Proof.
  unfold in_list. rewrite existsb_exists. split.
  - intros (x & Hx & He). apply String.eqb_eq in He. subst. exact Hx.
  - intros H. exists s. split; [exact H | apply String.eqb_refl].
Qed.

Lemma setValue_range lo hi v z :
  lo <= hi -> setValue lo hi v = Built z -> lo <= z <= hi.
Proof.
  intros Hlh. unfold setValue.
  destruct v as [x|b| |]; try discriminate;
    match goal with |- context [if ?c then _ else _] => destruct c end;
    try discriminate; intros [= <-]; lia.
Qed.


Lemma setCurrentText_item items v s :
  items <> [] -> setCurrentText items v = Built s -> In s items.
Proof.
  intros Hi. unfold setCurrentText. destruct v as [| |x|]; try discriminate.
  intros [= <-]. destruct (in_list x items) eqn:E.
  - apply in_list_In, E.
  - destruct items; [congruence | left; reflexivity].
Qed.


Section WithOS.
Context (os : OS) (env : log_env).

Lemma setup_config_tab_ranges c f : _setup_config_tab os c = Built f -> in_ranges f.
Proof.
  unfold _setup_config_tab. cbv zeta.
  destruct (setValue 1 65535 _) as [port|] eqn:E1; [|discriminate].
  destruct (setValue 1 1000 _) as [max_conn|] eqn:E2; [|discriminate].
  destruct (setValue 1 3600 _) as [timeout|] eqn:E3; [|discriminate].
  destruct (setCurrentText encodings _) as [enc|] eqn:E4; [|discriminate].
  destruct (setCurrentText log_levels _) as [lvl|] eqn:E5; [|discriminate].
  destruct (setChecked _) as [b|]; [|discriminate].
  intros [= <-]. unfold in_ranges. cbn [port_spin max_conn_spin timeout_spin encoding_combo
                                         log_level_combo].
  apply setValue_range in E1; [|lia]. apply setValue_range in E2; [|lia].
  apply setValue_range in E3; [|lia].
  apply setCurrentText_item in E4; [|discriminate].
  apply setCurrentText_item in E5; [|discriminate]. tauto.
Qed.


Lemma get_text c key v :
  In key ["root_path"; "encoding"; "log_level"] ->
  stored c key = Some v ->
  get os c "general" key = PyStr v.
Proof.
  intros Hk Hs.
  assert (Hget : ConfigParser.get c "general" key = Ok v).
  { apply stored_get; [|exact Hs]. cbn in Hk.
    repeat (destruct Hk as [<-|Hk]; [reflexivity|]). destruct Hk. }
  cbn in Hk. unfold get, get_typed.
  repeat (destruct Hk as [<-|Hk];
          [cbn [String.eqb Ascii.eqb Bool.eqb in_list existsb orb];
           rewrite Hget; reflexivity|]).
  destruct Hk.
Qed.

Lemma get_bool c b :
  stored c "save_log" = Some (str (PyBool b)) ->
  get os c "general" "save_log" = PyBool b.
Proof.
  intros Hs. unfold get, get_typed, ConfigParser.getboolean.
  cbn [String.eqb Ascii.eqb Bool.eqb in_list existsb orb].
  rewrite (stored_get c "save_log" _ eq_refl Hs), boolean_of_str_bool. reflexivity.
Qed.

(** What the parser stores once the loop of [save] has run over the
    dictionary of a form. *)
Lemma form_stored f d c :
  let c' := <["general" := store_options os (options_of f) d]> c in
  stored c' "port" = Some (str_of_int (port_spin f))
  /\ stored c' "max_connections" = Some (str_of_int (max_conn_spin f))
  /\ stored c' "timeout" = Some (str_of_int (timeout_spin f))
  /\ stored c' "encoding" = Some (encoding_combo f)
  /\ stored c' "log_level" = Some (log_level_combo f)
  /\ stored c' "save_log" = Some (str (PyBool (save_log_check f)))
  /\ stored c' "root_path" = d !! "root_path".
Proof.
  cbv zeta.
  change (store_options os (options_of f) d) with
    (<["save_log" := str (PyBool (save_log_check f))]>
       (<["log_level" := log_level_combo f]>
          (<["encoding" := encoding_combo f]>
             (<["timeout" := str_of_int (timeout_spin f)]>
                (<["max_connections" := str_of_int (max_conn_spin f)]>
                   (<["port" := str_of_int (port_spin f)]> d)))))).
  unfold stored. rewrite lookup_insert_eq. cbn [mbind option_bind].
  repeat split; by simplify_map_eq.
Qed.


(** [save] of the dictionary of a form whose values are within the ranges
    of the widgets, on a parser that names a usable root directory. *)
Lemma save_form f s d root :
  in_ranges f ->
  config s !! "general" = Some d ->
  d !! "root_path" = Some root ->
  usable (disk s) root = true ->
  config_writable (disk s) = true ->
  save os (settings_of f) s = (Ok true, saved os (options_of f) d root s).
Proof.
  intros Hr Hd Hroot Hu Hw.
  pose proof (form_stored f d (config s)) as (Sp & _ & _ & _ & _ & _ & Sr).
  unfold stored in Sp, Sr. rewrite lookup_insert_eq in Sp, Sr. cbn [mbind option_bind] in Sp, Sr.
  apply (save_section os s (options_of f) d (str_of_int (port_spin f)) (port_spin f) root);
    try assumption.
  - apply int_of_str_of_int.
  - apply Hr.
  - rewrite Sr. exact Hroot.
Qed.

Lemma level_of_item lvl : In lvl log_levels -> exists n, name_to_level lvl = Some n.
Proof.
  cbn. intros H. repeat (destruct H as [<-|H]; [eexists; reflexivity|]). destruct H.
Qed.

Lemma save_settings_saved f p d root :
  in_ranges f ->
  config (FTPMainWindow.cfg (win p)) !! "general" = Some d ->
  d !! "root_path" = Some root ->
  usable (disk (FTPMainWindow.cfg (win p))) root = true ->
  config_writable (disk (FTPMainWindow.cfg (win p))) = true ->
  _save_settings os env f p =
    let s' := saved os (options_of f) d root (FTPMainWindow.cfg (win p)) in
    let p1 := with_win (FTPMainWindow.with_cfg s' (win p)) p in
    match _setup_logging os env (config s') (root_logger p) with
    | (Raise e, l) => save_failed e (with_logger l p1)
    | (Ok _, l) =>
        restart_notice (show (information "成功" "配置保存成功!") (with_logger l p1))
    end.
Proof.
  intros Hr Hd Hroot Hu Hw. unfold _save_settings, config_save.
  rewrite (save_form f _ d root Hr Hd Hroot Hu Hw). reflexivity.
Qed.

Lemma setup_logging_form f d c l n :
  name_to_level (log_level_combo f) = Some n ->
  _setup_logging os env (<["general" := store_options os (options_of f) d]> c) l
  = if save_log_check f then
      match log_file_error env with
      | None => (Ok tt, {| logger_level := n;
                           handlers := [FTPLogger; FileHandler (log_file env)] |})
      | Some msg => (Raise (OSError msg), {| logger_level := n; handlers := [FTPLogger] |})
      end
    else (Ok tt, {| logger_level := n; handlers := [FTPLogger] |}).
Proof.
  intros Hn. pose proof (form_stored f d c) as (_ & _ & _ & _ & Sl & Ss & _).
  unfold _setup_logging. cbv zeta.
  rewrite (get_text _ "log_level" _ ltac:(cbn; tauto) Sl), (get_bool _ _ Ss).
  cbn [check_level truthy]. rewrite Hn. reflexivity.
Qed.

Lemma save_settings_result f p d root n :
  in_ranges f ->
  config (FTPMainWindow.cfg (win p)) !! "general" = Some d ->
  d !! "root_path" = Some root ->
  usable (disk (FTPMainWindow.cfg (win p))) root = true ->
  config_writable (disk (FTPMainWindow.cfg (win p))) = true ->
  name_to_level (log_level_combo f) = Some n ->
  _save_settings os env f p =
    let s' := saved os (options_of f) d root (FTPMainWindow.cfg (win p)) in
    let p1 := with_win (FTPMainWindow.with_cfg s' (win p)) p in
    let announce l :=
      restart_notice (show (information "成功" "配置保存成功!") (with_logger l p1)) in
    if save_log_check f then
      match log_file_error env with
      | None => announce {| logger_level := n;
                            handlers := [FTPLogger; FileHandler (log_file env)] |}
      | Some msg => save_failed (OSError msg)
                      (with_logger {| logger_level := n; handlers := [FTPLogger] |} p1)
      end
    else announce {| logger_level := n; handlers := [FTPLogger] |}.
Proof.
  intros Hr Hd Hroot Hu Hw Hn.
  rewrite (save_settings_saved f p d root Hr Hd Hroot Hu Hw). cbv zeta.
  change (config (saved os (options_of f) d root (FTPMainWindow.cfg (win p))))
    with (<["general" := store_options os (options_of f) d]>
            (config (FTPMainWindow.cfg (win p)))).
  rewrite (setup_logging_form f d _ _ n Hn).
  destruct (save_log_check f); [destruct (log_file_error env)|]; reflexivity.
Qed.

Lemma get_port_unparsable c text :
  stored c "port" = Some text -> int_of_str text = None ->
  get os c "general" "port" = PyStr "21".
Proof.
  intros Hs Hn. unfold get, get_typed, ConfigParser.getint.
  cbn [String.eqb Ascii.eqb Bool.eqb in_list existsb orb].
  rewrite (stored_get c "port" text eq_refl Hs), Hn. reflexivity.
Qed.



Lemma root_stored abs d :
  abspath os abs = abs ->
  store_options os [("root_path", PyStr abs)] d = <["root_path" := abs]> d.
Proof. intros H. cbn. unfold stored_text. cbn. rewrite H. reflexivity. Qed.
End WithOS.

(** The widgets never hold a value outside their ranges, whatever the
    parser stores: [_setup_config_tab] builds a form within the ranges or
    raises. *)
Theorem widgets_stay_within_their_ranges os c f :
  _setup_config_tab os c = Built f -> in_ranges f.
Proof. apply setup_config_tab_ranges. Qed.

Lemma widgets_stay_within_their_ranges_witness :
  in_ranges {| port_spin := 65535; max_conn_spin := 50; timeout_spin := 300;
               encoding_combo := "gb18030"; log_level_combo := "INFO";
               save_log_check := false |}.
Proof.
  apply (widgets_stay_within_their_ranges Sample.os
           (config (snd (FTPConfigManager.__init__ Sample.os Desk.disk_high_port [])))).
  vm_compute. reflexivity.
Defined.

(** A stored port of ASCII characters, without percent sign, that is no
    integer literal makes the construction of the settings tab raise: the
    getter answers the string '21' and the spin box takes no string. *)
Theorem unparsable_port_fails_the_settings_tab os c text :
  stored c "port" = Some text ->
  Text.is_ascii text = true ->
  Text.no_percent text = true ->
  int_of_str text = None ->
  _setup_config_tab os c = Failed (TypeError (PyStr "21")).
Proof.
  intros Hs _ _ Hn. unfold _setup_config_tab. cbv zeta.
  rewrite (get_port_unparsable os c text Hs Hn). reflexivity.
Qed.

Lemma unparsable_port_fails_the_settings_tab_witness :
  _setup_config_tab Sample.os
    (config (snd (FTPConfigManager.__init__ Sample.os Sample.disk_edited [])))
  = Failed (TypeError (PyStr "21")).
Proof.
  apply (unparsable_port_fails_the_settings_tab Sample.os _ "abc").
  - vm_compute. reflexivity.
  - reflexivity.
  - reflexivity.
  - reflexivity.
Defined.



(** What the observer is told after [_save_settings] has saved: the level
    and the handlers of the root logger follow the form; a log file that
    cannot be opened is reported as a failure to save, in the words of
    the [except] clause followed by the text of the error, although the
    configuration has been written; otherwise the success is announced,
    and the need of a restart while the server runs. *)
Theorem save_settings_reports_the_log_file os env f p d root :
  in_ranges f ->
  config (FTPMainWindow.cfg (win p)) !! "general" = Some d ->
  d !! "root_path" = Some root ->
  Text.plain root = true ->
  usable (disk (FTPMainWindow.cfg (win p))) root = true ->
  config_writable (disk (FTPMainWindow.cfg (win p))) = true ->
  let p' := _save_settings os env f p in
  name_to_level (log_level_combo f) = Some (logger_level (root_logger p'))
  /\ stored (config (FTPMainWindow.cfg (win p'))) "port" = Some (str_of_int (port_spin f))
  /\ config_file (disk (FTPMainWindow.cfg (win p'))) = Some (config (FTPMainWindow.cfg (win p')))
  /\ match (if save_log_check f then log_file_error env else None) with
     | Some msg =>
         shown p' = (shown p ++ [critical "错误" ("保存设置失败: " ++ msg)])%list
         /\ handlers (root_logger p') = [FTPLogger]
     | None =>
         shown p' = (shown p ++ information "成功" "配置保存成功!"
                       :: if FTPMainWindow.server_running (win p)
                          then [warning "注意" "必须重启服务器才能使更改生效"]
                          else [])%list
         /\ handlers (root_logger p')
            = FTPLogger :: if save_log_check f then [FileHandler (log_file env)] else []
     end.
Proof.
  intros Hr Hd Hroot _ Hu Hw. cbv zeta.
  pose proof (form_stored os f d (config (FTPMainWindow.cfg (win p)))) as (Sp & _).
  destruct (level_of_item (log_level_combo f)) as [n Hn]; [apply Hr|].
  rewrite (save_settings_result os env f p d root n Hr Hd Hroot Hu Hw Hn). cbv zeta.
  rewrite Hn.
  set (s' := saved os (options_of f) d root (FTPMainWindow.cfg (win p))).
  assert (Hs' : stored (config s') "port" = Some (str_of_int (port_spin f))) by exact Sp.
  assert (Hf' : config_file (disk s') = Some (config s')) by reflexivity.
  clearbody s'.
  unfold restart_notice, save_failed, _show_error, show, with_logger, with_win.
  cbn [win root_logger shown server_root].
  change (FTPMainWindow.server_running (FTPMainWindow.with_cfg s' (win p)))
    with (FTPMainWindow.server_running (win p)).
  destruct (save_log_check f); [destruct (log_file_error env)|].
  - cbn [win root_logger shown logger_level handlers FTPMainWindow.cfg
         FTPMainWindow.with_cfg FTPMainWindow.logging config disk].
    conjuncts; solve [assumption | reflexivity].
  - destruct (FTPMainWindow.server_running (win p));
      cbn [win root_logger shown logger_level handlers FTPMainWindow.cfg
           FTPMainWindow.with_cfg];
      rewrite <- ?app_assoc; conjuncts; solve [assumption | reflexivity].
  - destruct (FTPMainWindow.server_running (win p));
      cbn [win root_logger shown logger_level handlers FTPMainWindow.cfg
           FTPMainWindow.with_cfg];
      rewrite <- ?app_assoc; conjuncts; solve [assumption | reflexivity].
Qed.

Lemma save_settings_reports_the_log_file_witness :
  let p' := _save_settings Sample.os Desk.env Desk.edited_form Desk.fresh_panel in
  name_to_level (log_level_combo Desk.edited_form) = Some (logger_level (root_logger p'))
  /\ stored (config (FTPMainWindow.cfg (win p'))) "port"
     = Some (str_of_int (port_spin Desk.edited_form))
  /\ config_file (disk (FTPMainWindow.cfg (win p'))) = Some (config (FTPMainWindow.cfg (win p')))
  /\ match (if save_log_check Desk.edited_form then log_file_error Desk.env else None) with
     | Some msg =>
         shown p' = (shown Desk.fresh_panel ++ [critical "错误" ("保存设置失败: " ++ msg)])%list
         /\ handlers (root_logger p') = [FTPLogger]
     | None =>
         shown p' = (shown Desk.fresh_panel ++ information "成功" "配置保存成功!"
                       :: if FTPMainWindow.server_running (win Desk.fresh_panel)
                          then [warning "注意" "必须重启服务器才能使更改生效"]
                          else [])%list
         /\ handlers (root_logger p')
            = FTPLogger :: if save_log_check Desk.edited_form
                           then [FileHandler (log_file Desk.env)] else []
     end.
Proof.
  apply (save_settings_reports_the_log_file Sample.os Desk.env Desk.edited_form Desk.fresh_panel
           (default (∅ : gmap string string)
              (config (FTPMainWindow.cfg (win Desk.fresh_panel)) !! "general"))
           "/home/ftp").
  - unfold in_ranges. cbn. repeat split; try lia; tauto.
  - decide_by_evaluation.
  - vm_compute. reflexivity.
  - vm_compute. reflexivity.
  - vm_compute. reflexivity.
  - vm_compute. reflexivity.
Defined.



Section RootDirectory.
Context (os : OS).

Lemma select_made (s : state) abs :
  usable (disk s) abs = true ->
  (if bool_decide (abs ∈ dirs (disk s)) then (Ok tt, s) else makedirs abs s)
  = (Ok tt, with_disk (with_dir abs (disk s)) s).
Proof.
  intros Hu. destruct (bool_decide _) eqn:E.
  - unfold with_dir. rewrite E. destruct s; reflexivity.
  - apply makedirs_usable, Hu.
Qed.

Lemma usable_elem (d : Disk) path : path ∈ dirs d -> usable d path = true.
Proof. intros H. unfold usable. rewrite bool_decide_eq_true_2 by exact H. reflexivity. Qed.
End RootDirectory.

(** A root directory chosen in the dialog, a plain text once made
    absolute (no percent sign, no line break, no blank at either end),
    when it exists or can be made, the parser holds a valid port and a
    root directory without percent sign, and the file can be written: the
    directory exists afterwards, parser and file name it, the label shows
    it, and a restart is asked for exactly when the server runs. *)
Theorem chosen_root_directory_is_saved os path p d ptxt port :
  path <> "" ->
  abspath os (abspath os path) = abspath os path ->
  Text.plain (abspath os path) = true ->
  from_option Text.no_percent true (d !! "root_path") = true ->
  usable (disk (FTPMainWindow.cfg (win p))) (abspath os path) = true ->
  config (FTPMainWindow.cfg (win p)) !! "general" = Some d ->
  d !! "port" = Some ptxt ->
  (String.length ptxt <= 4300)%nat ->
  int_of_str ptxt = Some port ->
  1 <= port <= 65535 ->
  config_writable (disk (FTPMainWindow.cfg (win p))) = true ->
  let r := _select_root_dir os path p in
  let s' := FTPMainWindow.cfg (win (snd r)) in
  fst r = Ok tt
  /\ server_root (snd r) = "根目录: " ++ abspath os path
  /\ get os (config s') "general" "root_path" = PyStr (abspath os path)
  /\ abspath os path ∈ dirs (disk s')
  /\ config_file (disk s') = Some (config s')
  /\ shown (snd r) = (shown p ++ if FTPMainWindow.server_running (win p)
                                 then [warning "注意" "必须重启服务器才能使更改生效"]
                                 else [])%list.
Proof.
  intros Hpath Habs _ _ Hu Hd Hp _ Hi Hr Hw. cbv zeta.
  set (abs := abspath os path) in *.
  set (s := FTPMainWindow.cfg (win p)) in *.
  set (s1 := with_disk (with_dir abs (disk s)) s).
  assert (Hsave : save os [("general", [("root_path", PyStr abs)])] s1
                  = (Ok true, saved os [("root_path", PyStr abs)] d abs s1)).
  { apply (save_section os s1 _ d ptxt port abs); [exact Hd| |exact Hi|exact Hr| | |].
    - rewrite (root_stored os abs d Habs). rewrite lookup_insert_ne by discriminate. exact Hp.
    - rewrite (root_stored os abs d Habs). apply lookup_insert_eq.
    - apply usable_elem. cbn [s1 disk with_disk]. apply with_dir_elem, Hu.
    - cbn [s1 disk with_disk]. rewrite with_dir_writable. exact Hw. }
  unfold _select_root_dir. cbv zeta.
  destruct (String.eqb_spec path "") as [->|_]; [congruence|].
  fold abs s. rewrite (select_made s abs Hu). fold s1.
  unfold config_save.
  cbn [win with_win FTPMainWindow.cfg FTPMainWindow.with_cfg]. rewrite Hsave.
  set (s2 := saved os [("root_path", PyStr abs)] d abs s1).
  assert (Hc2 : config s2 = <["general" := <["root_path" := abs]> d]> (config s)).
  { unfold s2, saved. cbn [config]. rewrite (root_stored os abs d Habs). reflexivity. }
  assert (Hf2 : config_file (disk s2) = Some (config s2)) by reflexivity.
  assert (Hin : abs ∈ dirs (disk s2)).
  { unfold s2, saved. cbn [disk dirs]. apply with_dir_elem, usable_elem.
    cbn [s1 disk with_disk]. apply with_dir_elem, Hu. }
  clearbody s2.
  unfold restart_notice, show, with_win. cbn [win root_logger shown server_root fst snd].
  change (FTPMainWindow.server_running (FTPMainWindow.with_cfg s2 _))
    with (FTPMainWindow.server_running (win p)).
  assert (Hget : get os (config s2) "general" "root_path" = PyStr abs).
  { apply get_text; [cbn; tauto|]. rewrite Hc2. unfold stored.
    rewrite lookup_insert_eq. cbn [mbind option_bind]. apply lookup_insert_eq. }
  destruct (FTPMainWindow.server_running (win p));
    cbn [win root_logger shown server_root fst snd FTPMainWindow.cfg FTPMainWindow.with_cfg];
    rewrite ?app_nil_r; conjuncts; solve [assumption | reflexivity].
Qed.

Lemma chosen_root_directory_is_saved_witness :
  let r := _select_root_dir Sample.os "/srv/ftp" Desk.fresh_panel in
  let s' := FTPMainWindow.cfg (win (snd r)) in
  fst r = Ok tt
  /\ server_root (snd r) = "根目录: " ++ abspath Sample.os "/srv/ftp"
  /\ get Sample.os (config s') "general" "root_path" = PyStr (abspath Sample.os "/srv/ftp")
  /\ abspath Sample.os "/srv/ftp" ∈ dirs (disk s')
  /\ config_file (disk s') = Some (config s')
  /\ shown (snd r) = (shown Desk.fresh_panel
                        ++ if FTPMainWindow.server_running (win Desk.fresh_panel)
                           then [warning "注意" "必须重启服务器才能使更改生效"]
                           else [])%list.
Proof.
  apply (chosen_root_directory_is_saved Sample.os "/srv/ftp" Desk.fresh_panel
           (default (∅ : gmap string string)
              (config (FTPMainWindow.cfg (win Desk.fresh_panel)) !! "general"))
           "21" 21).
  - discriminate.
  - reflexivity.
  - vm_compute. reflexivity.
  - vm_compute. reflexivity.
  - vm_compute. reflexivity.
  - decide_by_evaluation.
  - vm_compute. reflexivity.
  - cbn. lia.
  - reflexivity.
  - lia.
  - vm_compute. reflexivity.
Defined.


End SettingsFacts.

(** ** Scenarios of saving and constructing *)

Module StoreProperties.
Import Py PyFacts FTPConfigManager Schema ConfigFacts SaveFacts Store StoreFacts.




(** What a [save] that returns [True] has established: the file holds the
    parser, the stored port parses to a number of 1..65535, the stored
    root directory exists, and nothing was logged. *)
Theorem successful_save_is_checked_and_written os settings s s' :
  save os settings s = (Ok true, s') ->
  config_file (disk s') = Some (config s')
  /\ (exists p, ConfigParser.getint (config s') "general" "port" = Ok p /\ 1 <= p <= 65535)
  /\ (exists r, ConfigParser.get (config s') "general" "root_path" = Ok r
                /\ r ∈ dirs (disk s'))
  /\ log s' = log s.
Proof. apply save_true. Qed.

Lemma successful_save_is_checked_and_written_witness :
  let s' := snd (save Sample.os (to_dict Sample.valid_settings) Sample.manager) in
  config_file (disk s') = Some (config s')
  /\ (exists p, ConfigParser.getint (config s') "general" "port" = Ok p /\ 1 <= p <= 65535)
  /\ (exists r, ConfigParser.get (config s') "general" "root_path" = Ok r
                /\ r ∈ dirs (disk s'))
  /\ log s' = log Sample.manager.
Proof.
  cbv zeta.
  apply (successful_save_is_checked_and_written Sample.os (to_dict Sample.valid_settings)
           Sample.manager).
  rewrite (surjective_pairing (save _ _ _)) at 1. f_equal.
Defined.

(** [save] touches only the options it is given: where the settings name
    no default section and their option names are ASCII, the text stored
    under every other option of every section is as before, whether the
    save succeeds or fails. *)
Theorem save_leaves_other_options_alone os settings s section key :
  plain_names settings = true ->
  written settings section key = false ->
  option_of (config (snd (save os settings s))) section key
  = option_of (config s) section key.
Proof. intros _. apply save_other. Qed.

Lemma save_leaves_other_options_alone_witness :
  option_of (config (snd (save Sample.os [("general", [("port", PyInt 70000)])]
                            Sample.manager))) "general" "timeout"
  = option_of (config Sample.manager) "general" "timeout".
Proof.
  apply (save_leaves_other_options_alone Sample.os [("general", [("port", PyInt 70000)])]
           Sample.manager "general" "timeout").
  - reflexivity.
  - reflexivity.
Defined.



(** A manager that has been constructed names a root directory that
    exists: [load_config] made it, or fell back to the working directory. *)
Theorem constructed_manager_has_a_root_directory os d l s' :
  FTPConfigManager.__init__ os d l = (Ok tt, s') ->
  exists r, get os (config s') "general" "root_path" = PyStr r /\ r ∈ dirs (disk s').
Proof.
  intros H. destruct (init_root os d l s' H) as (r & Hs & Hin).
  exists r. split; [|exact Hin].
  unfold get, get_typed. cbn [String.eqb Ascii.eqb Bool.eqb in_list existsb orb].
  rewrite (stored_get (config s') "root_path" r eq_refl Hs). reflexivity.
Qed.

Lemma constructed_manager_has_a_root_directory_witness :
  exists r, get Sample.os (config Sample.manager) "general" "root_path" = PyStr r
            /\ r ∈ dirs (disk Sample.manager).
Proof.
  apply (constructed_manager_has_a_root_directory Sample.os Sample.disk [] Sample.manager).
  unfold Sample.manager.
  rewrite (surjective_pairing (FTPConfigManager.__init__ _ _ _)) at 1. f_equal.
Defined.

(** For a recognized key the getter never answers [None]: a value that is
    missing or does not parse is replaced by the default. *)
Theorem recognized_key_is_never_none os c key :
  In key keys -> get os c "general" key <> PyNone.
Proof. apply get_recognized. Qed.

Lemma recognized_key_is_never_none_witness :
  get Sample.os ∅ "general" "timeout" <> PyNone.
Proof. apply (recognized_key_is_never_none Sample.os ∅ "timeout"). cbn. tauto. Defined.
End StoreProperties.

(** ** Scenarios of the root logger *)

Module LoggingProperties.
Import Py FTPConfigManager Schema Logging LoggingFacts.

(** Handlers never pile up: [_setup_logging] run again on its own result
    changes nothing, and the logger holds no handler but the one of the
    log view and the one of the log file. *)
Theorem handlers_never_accumulate os env c l :
  let r := _setup_logging os env c l in
  _setup_logging os env c (snd r) = r
  /\ (forall h, In h (handlers (snd r)) -> h = FTPLogger \/ h = FileHandler (log_file env))
  /\ (length (handlers (snd r)) <= 2)%nat.
Proof.
  cbv zeta. split; [apply setup_logging_again|]. split; [apply setup_logging_handlers|].
  unfold _setup_logging. cbv zeta.
  destruct (check_level _) as [n|e]; [|cbn; lia].
  destruct (truthy _); [destruct (log_file_error env)|]; cbn; lia.
Qed.

(** File logging follows the stored flag: where the parser stores a
    boolean for [save_log] and the name of a level for [log_level], and
    the log file can be opened, [_setup_logging] sets that level and
    leaves the root logger with the handler of the log view, followed by
    the handler of the log file exactly when the flag is true. *)
Theorem file_logging_follows_stored_flag os env c l text b lvl n :
  stored c "save_log" = Some text ->
  ConfigParser.boolean_of_str text = Some b ->
  stored c "log_level" = Some lvl ->
  name_to_level lvl = Some n ->
  log_file_error env = None ->
  _setup_logging os env c l
  = (Ok tt, {| logger_level := n;
               handlers := FTPLogger :: if b then [FileHandler (log_file env)] else [] |}).
Proof. apply setup_logging_stored. Qed.

Lemma file_logging_follows_stored_flag_witness :
  _setup_logging Sample.os Desk.env (config Sample.manager) Desk.fresh_logger
  = (Ok tt, {| logger_level := 20; handlers := [FTPLogger] |}).
Proof.
  apply (file_logging_follows_stored_flag Sample.os Desk.env (config Sample.manager)
           Desk.fresh_logger "False" false "INFO" 20).
  - vm_compute. reflexivity.
  - reflexivity.
  - vm_compute. reflexivity.
  - reflexivity.
  - reflexivity.
Defined.


End LoggingProperties.

(** ** The workers over time *)

Module WorkerFacts.
Import Py FTPMainWindow Lifecycle Progress SupervisorFacts.

Lemma stop_pc o th :
  FTPServerThread.at_pc (FTPServerThread.stop o th).1 = FTPServerThread.at_pc th.
Proof.
  unfold FTPServerThread.stop.
  destruct (FTPServerThread.server th); [|reflexivity].
  destruct (FTPServerThread._running th); [|reflexivity].
  destruct o; reflexivity.
Qed.

Lemma finished_same w w' tid : same_workers w w' -> finished w tid -> finished w' tid.
Proof. intros [Ht _] (th & H1 & H2). exists th. rewrite Ht. tauto. Qed.

Lemma worker_step_finished tid' ev w tid :
  finished w tid -> finished (worker_step tid' ev w) tid.
Proof.
  intros (th & Hth & Hpc). unfold worker_step.
  destruct (threads w !! tid') as [th0|] eqn:H0; [|exists th; tauto].
  destruct (FTPServerThread.run ev th0) as [[th' l]|] eqn:Hrun; [|exists th; tauto].
  destruct (decide (tid' = tid)) as [->|Hne].
  - exfalso. rewrite Hth in H0. injection H0 as <-.
    unfold FTPServerThread.run in Hrun. rewrite Hpc in Hrun. discriminate.
  - exists th. cbn [logging with_threads threads].
    rewrite list_lookup_insert_ne by exact Hne. tauto.
Qed.

Lemma worker_steps_finished evs tid : forall w,
  finished w tid -> finished (worker_steps evs w) tid.
Proof.
  unfold worker_steps. induction evs as [|[tid' ev] evs IH]; intros w H; [exact H|].
  cbn [fold_left]. apply IH, worker_step_finished, H.
Qed.

Lemma stop_server_finished o w tid : finished w tid -> finished (_stop_server o w) tid.
Proof.
  intros (th & Hth & Hpc). unfold _stop_server.
  destruct (server_thread w) as [tid0|] eqn:Hs; [|exists th; tauto].
  unfold current. rewrite Hs.
  destruct (threads w !! tid0) as [th0|] eqn:H0; [|exists th; tauto].
  destruct (FTPServerThread.stop (close_all_raises o) th0) as [th' l] eqn:Hstop.
  eapply finished_same; [apply logging_workers|].
  eapply finished_same; [apply emit_workers|].
  eapply finished_same; [apply emit_workers|].
  apply worker_steps_finished.
  destruct (decide (tid0 = tid)) as [->|Hne].
  - exists th'. cbn [logging with_threads threads]. split.
    + apply list_lookup_insert_eq. apply lookup_lt_Some in Hth. exact Hth.
    + rewrite Hth in H0. injection H0 as <-.
      pose proof (stop_pc (close_all_raises o) th) as Hp. rewrite Hstop in Hp. cbn in Hp.
      congruence.
  - exists th. cbn [logging with_threads threads].
    rewrite list_lookup_insert_ne by exact Hne. tauto.
Qed.

Lemma start_server_finished os w tid : finished w tid -> finished (_start_server os w) tid.
Proof.
  intros H. destruct (start_server_workers os w) as [Hsame|(th' & Ht & _)].
  - eapply finished_same; eassumption.
  - destruct H as (th & Hth & Hpc). exists th. rewrite Ht.
    rewrite lookup_app_l by (apply lookup_lt_Some in Hth; exact Hth). tauto.
Qed.

Lemma step_finished os w r tid : finished w tid -> finished (step os w r) tid.
Proof.
  intros H. destruct r as [o|o|tid' ev]; cbn [step].
  - unfold _toggle_server. destruct (server_running w).
    + apply stop_server_finished, H.
    + apply start_server_finished, H.
  - apply stop_server_finished, H.
  - apply worker_step_finished, H.
Qed.

Lemma steps_finished os rs tid : forall w, finished w tid -> finished (steps os rs w) tid.
Proof.
  unfold steps. induction rs as [|r rs IH]; intros w H; [exact H|].
  cbn [fold_left]. apply IH, step_finished, H.
Qed.

End WorkerFacts.

(** ** Scenarios of the workers *)

Module WorkerProperties.
Import Py FTPMainWindow Lifecycle Progress SupervisorFacts WorkerFacts.

Lemma start_server_thread os w :
  str (config_get os w "root_path") ∈ dirs (FTPConfigManager.disk (cfg w)) ->
  threads (_start_server os w)
  = (threads w ++ [FTPServerThread.start
                     (FTPServerThread.__init__ "0.0.0.0" (config_get os w "port")
                        (config_get os w "max_connections"))])%list
  /\ server_thread (_start_server os w) = Some (length (threads w))
  /\ ui_running (_start_server os w) = true.
Proof.
  intros Hdir. unfold _start_server, DummyAuthorizer.add_anonymous. cbv zeta.
  rewrite bool_decide_eq_true_2 by exact Hdir.
  change (config_get os (with_handler ?h w) ?k) with (config_get os w k).
  destruct (SupervisorScenarios.config_get_encoding os w) as [enc ->].
  cbn [emit logging with_handler _update_ui_state _update_tray_menu emitted ui_running
       server_thread threads].
  conjuncts; reflexivity.
Qed.

(** A stop that is requested before the worker has bound its socket is
    lost: [stop] finds no server object and does nothing, the wait runs
    out, the window reports the server as stopped; the worker then binds
    and serves, with nothing left that would close its server. *)
Theorem stop_before_bind_is_lost os o w :
  str (config_get os w "root_path") ∈ dirs (FTPConfigManager.disk (cfg w)) ->
  during_wait o = [] ->
  let tid := length (threads w) in
  let stopped := _stop_server o (_start_server os w) in
  let w' := worker_step tid FTPServerThread.Bound stopped in
  ui_running stopped = false
  /\ ui_running w' = false
  /\ server_running w' = true
  /\ exists th srv,
       threads w' !! tid = Some th
       /\ FTPServerThread.at_pc th = FTPServerThread.Serving
       /\ FTPServerThread._running th = true
       /\ FTPServerThread.server th = Some srv
       /\ FTPServerThread.closed srv = false.
Proof.
  intros Hdir Hwait. cbv zeta.
  destruct (start_server_thread os w Hdir) as (Ht & Hs & _).
  set (w1 := _start_server os w) in *.
  set (th0 := FTPServerThread.start
                (FTPServerThread.__init__ "0.0.0.0" (config_get os w "port")
                   (config_get os w "max_connections"))) in *.
  assert (Hcur : threads w1 !! length (threads w) = Some th0).
  { rewrite Ht, lookup_app_r by lia. rewrite Nat.sub_diag. reflexivity. }
  assert (Hstop : threads (_stop_server o w1) = threads w1
                  /\ server_thread (_stop_server o w1) = Some (length (threads w))
                  /\ ui_running (_stop_server o w1) = false).
  { unfold _stop_server, current. rewrite Hs, Hcur. cbn [FTPServerThread.stop th0
      FTPServerThread.start FTPServerThread.__init__ FTPServerThread.server].
    rewrite Hwait.
    cbn [worker_steps fold_left emit logging with_threads _update_ui_state _update_tray_menu
         threads server_thread ui_running].
    rewrite list_insert_id by exact Hcur. conjuncts; solve [reflexivity | exact Hs]. }
  destruct Hstop as (Ht2 & Hs2 & Hu2).
  set (w2 := _stop_server o w1) in *. clearbody w2 w1.
  rewrite <- Ht2 in Hcur.
  unfold worker_step. rewrite Hcur.
  cbn [FTPServerThread.run th0 FTPServerThread.start FTPServerThread.__init__
       FTPServerThread.at_pc].
  unfold server_running, current.
  cbn [logging with_threads threads server_thread ui_running]. rewrite Hs2.
  assert (Hlen : (length (threads w) < length (threads w2))%nat)
    by (apply lookup_lt_Some in Hcur; exact Hcur).
  rewrite list_lookup_insert_eq by exact Hlen.
  conjuncts; try solve [assumption | reflexivity].
  eexists _, _. conjuncts; reflexivity.
Qed.

Lemma stop_before_bind_is_lost_witness :
  let tid := length (threads Sample.window) in
  let stopped := _stop_server Sample.timed_out (_start_server Sample.os Sample.window) in
  let w' := worker_step tid FTPServerThread.Bound stopped in
  ui_running stopped = false
  /\ ui_running w' = false
  /\ server_running w' = true
  /\ exists th srv,
       threads w' !! tid = Some th
       /\ FTPServerThread.at_pc th = FTPServerThread.Serving
       /\ FTPServerThread._running th = true
       /\ FTPServerThread.server th = Some srv
       /\ FTPServerThread.closed srv = false.
Proof.
  apply (stop_before_bind_is_lost Sample.os Sample.timed_out Sample.window).
  - vm_compute. set_solver.
  - reflexivity.
Defined.

(** A worker that has finished never runs again, whatever is requested
    afterwards: a start makes a new thread object each time. *)
Theorem finished_worker_never_runs_again os rs w tid th :
  threads w !! tid = Some th ->
  FTPServerThread.at_pc th = FTPServerThread.Finished ->
  exists th', threads (steps os rs w) !! tid = Some th'
              /\ FTPServerThread.at_pc th' = FTPServerThread.Finished
              /\ FTPServerThread.isRunning th' = false.
Proof.
  intros Hth Hpc.
  destruct (steps_finished os rs tid w) as (th' & H1 & H2); [exists th; tauto|].
  exists th'. unfold FTPServerThread.isRunning. rewrite H2. tauto.
Qed.
Lemma finished_worker_never_runs_again_witness :
  let w := steps Sample.os
             [Toggle Sample.timed_out;
              Worker 0 (FTPServerThread.BindError (OSError "[Errno 98] Address already in use"))]
             Sample.window in
  exists th', threads (steps Sample.os [Toggle Sample.timed_out] w) !! 0%nat = Some th'
              /\ FTPServerThread.at_pc th' = FTPServerThread.Finished
              /\ FTPServerThread.isRunning th' = false.
Proof.
  cbv zeta.
  eapply (finished_worker_never_runs_again Sample.os [Toggle Sample.timed_out]).
  - vm_compute. reflexivity.
  - reflexivity.
Defined.
End WorkerProperties.

(** ** The command channel in ASCII *)

Module CodecProperties.
Import Py Codecs WindowsFTPHandler.

Lemma byte_of_N_to_N cp : (cp < 128)%N -> Byte.to_N (byte_of_N cp) = cp.
Proof.
  intros H. unfold byte_of_N. destruct (Byte.of_N cp) as [b|] eqn:E.
  - apply Byte.to_of_N, E.
  - apply Byte.of_N_None_iff in E. lia.
Qed.

Lemma encode_loop_ascii r errors (s : text) :
  Forall (fun cp => (cp < 128)%N) s ->
  encode_loop (gb18030 r) errors s = Ok (map byte_of_N s).
Proof.
  induction 1 as [|cp s Hcp _ IH]; [reflexivity|].
  cbn [encode_loop encode_char gb18030 map]. rewrite IH.
  apply N.ltb_lt in Hcp. rewrite Hcp. reflexivity.
Qed.

Lemma decode_loop_ascii r errors (s : text) :
  Forall (fun cp => (cp < 128)%N) s ->
  decode_loop (gb18030 r) errors 0 (map byte_of_N s) = Ok s.
Proof.
  induction 1 as [|cp s Hcp _ IH]; [reflexivity|].
  cbn [decode_loop decode_head gb18030 map].
  rewrite (byte_of_N_to_N cp Hcp). apply N.ltb_lt in Hcp. rewrite Hcp, IH. reflexivity.
Qed.

(** Text in the ASCII range passes both hooks unchanged, one byte for each
    character, whatever the class of the handler holds and whatever the
    tables of GB18030 are: what [encode] yields, [decode] reads back. *)
Theorem ascii_text_round_trips r cls (s : text) :
  Forall (fun cp => (cp < 128)%N) s ->
  encode r (__init__ cls) s = Ok (map byte_of_N s)
  /\ decode r (__init__ cls) (map byte_of_N s) = Ok s.
Proof.
  intros H. unfold encode, decode, str_encode, bytes_decode.
  cbn [encoding unicode_errors __init__].
  change (lookup r "gb18030") with (Some (gb18030 r)). cbv beta iota.
  rewrite (encode_loop_ascii r "replace" s H), (decode_loop_ascii r "replace" s H).
  split; reflexivity.
Qed.

Lemma ascii_text_round_trips_witness :
  encode Sample.codecs (__init__ FTPHandler) [76; 73; 83; 84]%N
  = Ok (map byte_of_N [76; 73; 83; 84]%N)
  /\ decode Sample.codecs (__init__ FTPHandler) (map byte_of_N [76; 73; 83; 84]%N)
     = Ok [76; 73; 83; 84]%N.
Proof.
  apply (ascii_text_round_trips Sample.codecs FTPHandler [76; 73; 83; 84]%N).
  repeat constructor.
Defined.
End CodecProperties.
